(** * VRCamOSC: a shallow embedding of the key-binding, key-event, OSC and
    pin-store code, and the properties stated about it.

    Sources embedded here:
    - [camera_data_utils.py]: the camera dataclasses, [CameraParamsValidator],
      [CameraDataManager], [create_clipboard_data], [parse_clipboard_data];
    - [pin_system.py]: [OSCController], [OSCReceiver], [VRChatCameraPinSystem];
    - [keyboard_handler.py]: [KeyboardHandler].

    Conventions.
    - Python [int] is [Z]; Python [float] is the kernel's binary64 [float], so
      literals such as [0.8] and [1.4] denote the same doubles as in Python and
      comparisons treat NaN, infinities and signed zeros as Python does.
    - A [dict] that the program iterates over (when it is persisted) is an
      insertion-ordered association list ([odict]); a [dict] that is only
      read and written by key is a [gmap]; the [set] of pressed keys is a
      [gset].
    - All objects live in one [World]; a method is a function from the world
      to its result and the new world.  An exception is a value of [outcome];
      a method whose body is wrapped in [try ... except Exception] is total.
    - What lies outside the repository is part of the world: the two JSON
      files, the clipboard, the printed lines, the datagrams sent, and
      whether a file write, a UDP send or a clipboard access raises.  A JSON
      text is kept as the value it denotes, so [json.loads] of what
      [json.dumps] wrote is that value.  The key listener, the OSC server
      thread and the windows are not modelled: their callbacks are the
      functions [_on_press], [_on_release] and the [_handle_...] handlers,
      called one at a time. *)

From Stdlib Require Import ZArith Floats String Ascii List Lia Bool.
From Stdlib Require Import DecimalString.
From stdpp Require Import gmap strings.

Set Warnings "-inexact-float,-register-all".
Open Scope Z_scope.
Import ListNotations.

(* ===================================================================== *)
(** * Python values and the built-ins the sources call *)
(* ===================================================================== *)

Module Py.

(** The exception classes that occur in the embedded code. *)
Inductive exn :=
| ValueError | TypeError | KeyError | AttributeError | OverflowError
| OSError | JSONDecodeError | PyperclipException.

#[global] Instance exn_eq_dec : EqDecision exn.
Proof. solve_decision. Defined.

Inductive outcome (A : Type) :=
| Returned (a : A)
| Raised (e : exn).
Arguments Returned {A} a.
Arguments Raised {A} e.

#[global] Instance outcome_ret : MRet outcome := @Returned.
#[global] Instance outcome_bind : MBind outcome := fun A B k m =>
  match m with
  | Returned a => k a
  | Raised e => Raised e
  end.

(** Values that come out of [json.load] or off the OSC wire. *)
Inductive pyval :=
| PNone
| PBool (b : bool)
| PInt (z : Z)
| PFloat (f : float)
| PStr (s : string)
| PList (l : list pyval)
| PDict (d : list (string * pyval)).

Definition exn_name (e : exn) : pyval :=
  PStr match e with
       | ValueError => "ValueError" | TypeError => "TypeError"
       | KeyError => "KeyError" | AttributeError => "AttributeError"
       | OverflowError => "OverflowError" | OSError => "OSError"
       | JSONDecodeError => "JSONDecodeError"
       | PyperclipException => "PyperclipException"
       end.

(** ** Insertion-ordered dictionaries

    [d[k] = v] keeps the position of an existing key and appends a new one;
    [del d[k]] removes the entry; iteration follows the list. *)
Section odict.
Context {K V : Type} `{EqDecision K}.

Fixpoint od_get (d : list (K * V)) (k : K) : option V :=
  match d with
  | [] => None
  | (k', v) :: d' => if decide (k = k') then Some v else od_get d' k
  end.

Definition od_mem (d : list (K * V)) (k : K) : bool :=
  match od_get d k with Some _ => true | None => false end.

Fixpoint od_set (d : list (K * V)) (k : K) (v : V) : list (K * V) :=
  match d with
  | [] => [(k, v)]
  | (k', v') :: d' =>
      if decide (k = k') then (k, v) :: d' else (k', v') :: od_set d' k v
  end.

Fixpoint od_del (d : list (K * V)) (k : K) : list (K * V) :=
  match d with
  | [] => []
  | (k', v') :: d' =>
      if decide (k = k') then d' else (k', v') :: od_del d' k
  end.

(** [{key(x): val(x) for x in items}] and [dict(items)]. *)
Definition od_of_list (items : list (K * V)) : list (K * V) :=
  fold_left (fun d kv => od_set d (fst kv) (snd kv)) items [].
End odict.

Definition odict (K V : Type) := list (K * V).

(** ** Numbers: [int], [bool] and [float] compare exactly with each other *)

Inductive number := NInt (z : Z) | NFloat (f : float).

Definition as_number (v : pyval) : option number :=
  match v with
  | PBool b => Some (NInt (Z.b2z b))
  | PInt z => Some (NInt z)
  | PFloat f => Some (NFloat f)
  | _ => None
  end.

(** The order of an integer and a double, computed on the double's exact
    value [m * 2^e]; [None] for NaN. *)
Definition cmp_int_float (z : Z) (f : float) : option comparison :=
  match Prim2SF f with
  | S754_nan => None
  | S754_infinity s => Some (if s then Gt else Lt)
  | S754_zero _ => Some (z ?= 0)
  | S754_finite s m e =>
      let v := if s then Z.neg m else Z.pos m in
      Some (if 0 <=? e then z ?= v * 2 ^ e else z * 2 ^ (- e) ?= v)
  end.

Definition num_ltb (a b : number) : bool :=
  match a, b with
  | NInt x, NInt y => x <? y
  | NFloat x, NFloat y => PrimFloat.ltb x y
  | NInt x, NFloat y =>
      match cmp_int_float x y with Some Lt => true | _ => false end
  | NFloat x, NInt y =>
      match cmp_int_float y x with Some Gt => true | _ => false end
  end.

Definition num_leb (a b : number) : bool :=
  match a, b with
  | NInt x, NInt y => x <=? y
  | NFloat x, NFloat y => PrimFloat.leb x y
  | NInt x, NFloat y =>
      match cmp_int_float x y with Some Lt | Some Eq => true | _ => false end
  | NFloat x, NInt y =>
      match cmp_int_float y x with Some Gt | Some Eq => true | _ => false end
  end.

Definition num_eqb (a b : number) : bool :=
  match a, b with
  | NInt x, NInt y => x =? y
  | NFloat x, NFloat y => PrimFloat.eqb x y
  | NInt x, NFloat y | NFloat y, NInt x =>
      match cmp_int_float x y with Some Eq => true | _ => false end
  end.

(** [a < b] where at least one side is a number: anything that is not a
    number raises [TypeError] against a number.  (The sources only compare
    against [float] bounds.) *)
Definition py_lt (a b : pyval) : outcome bool :=
  match as_number a, as_number b with
  | Some x, Some y => Returned (num_ltb x y)
  | _, _ => Raised TypeError
  end.

Definition py_gt (a b : pyval) : outcome bool := py_lt b a.

(** [min(a, b)] and [max(a, b)]: the first argument is kept unless the
    second is strictly smaller (larger). *)
Definition py_min (a b : pyval) : outcome pyval :=
  lt ← py_lt b a; Returned (if lt : bool then b else a).

Definition py_max (a b : pyval) : outcome pyval :=
  gt ← py_gt b a; Returned (if gt : bool then b else a).

(** [a == b] on numbers, [False] across other types of this model, and
    structural on strings. *)
Definition py_eqb (a b : pyval) : bool :=
  match as_number a, as_number b with
  | Some x, Some y => num_eqb x y
  | _, _ =>
      match a, b with
      | PStr s, PStr t => String.eqb s t
      | PNone, PNone => true
      | _, _ => false
      end
  end.

(** Truthiness, [bool(v)]. *)
Definition py_bool (v : pyval) : bool :=
  match v with
  | PNone => false
  | PBool b => b
  | PInt z => negb (z =? 0)
  | PFloat f => negb (PrimFloat.eqb f 0)
  | PStr s => negb (String.eqb s "")
  | PList l => match l with [] => false | _ => true end
  | PDict d => match d with [] => false | _ => true end
  end.

(** ** [str(int)] and [int(...)] *)

Definition py_str_of_int (z : Z) : string :=
  NilZero.string_of_int (Z.to_int z).

Definition is_space (c : ascii) : bool :=
  let n := nat_of_ascii c in
  (Nat.eqb n 32 || (Nat.leb 9 n && Nat.leb n 13) || (Nat.leb 28 n && Nat.leb n 31))%bool.

Fixpoint lstrip (s : string) : string :=
  match s with
  | String c s' => if is_space c then lstrip s' else s
  | EmptyString => EmptyString
  end.

Fixpoint rstrip (s : string) : string :=
  match s with
  | String c s' =>
      match rstrip s' with
      | EmptyString => if is_space c then EmptyString else String c EmptyString
      | r => String c r
      end
  | EmptyString => EmptyString
  end.

(** [s.strip()] on ASCII white space. *)
Definition strip (s : string) : string := rstrip (lstrip s).

Definition digit_of (c : ascii) : option Z :=
  let n := nat_of_ascii c in
  if (Nat.leb 48 n && Nat.leb n 57)%bool then Some (Z.of_nat n - 48) else None.

(** Decimal digits with single underscores between digits, as [int] accepts
    them. [after_digit] tells whether the previous character was a digit. *)
Fixpoint parse_digits (s : string) (acc : Z) (after_digit : bool) : option Z :=
  match s with
  | EmptyString => if after_digit then Some acc else None
  | String c s' =>
      match digit_of c with
      | Some d => parse_digits s' (10 * acc + d) true
      | None =>
          if (Ascii.eqb c "_" && after_digit)%bool
          then parse_digits s' acc false
          else None
      end
  end.

(** [int(s)] for a string: optional white space, an optional sign, decimal
    digits.  Only ASCII digits and ASCII white space are recognised; any
    other text is a [ValueError]. *)
Definition py_int_of_str (s : string) : outcome Z :=
  let body (t : string) (neg : bool) :=
    match parse_digits t 0 false with
    | Some n => Returned (if neg then - n else n)
    | None => Raised ValueError
    end in
  match strip s with
  | String "-" t => body t true
  | String "+" t => body t false
  | t => body t false
  end.

(** [int(f)] for a float truncates towards zero; NaN is a [ValueError] and an
    infinity an [OverflowError]. *)
Definition py_int_of_float (f : float) : outcome Z :=
  match Prim2SF f with
  | S754_nan => Raised ValueError
  | S754_infinity _ => Raised OverflowError
  | S754_zero _ => Returned 0
  | S754_finite s m e =>
      let a := if 0 <=? e then Z.pos m * 2 ^ e else Z.pos m / 2 ^ (- e) in
      Returned (if s then - a else a)
  end.

Definition py_int (v : pyval) : outcome Z :=
  match v with
  | PInt z => Returned z
  | PBool b => Returned (Z.b2z b)
  | PFloat f => py_int_of_float f
  | PStr s => py_int_of_str s
  | PNone | PList _ | PDict _ => Raised TypeError
  end.

(** [float(n)] for an integer rounds to the nearest double and raises
    [OverflowError] beyond the largest one. *)
Definition py_float_of_int (z : Z) : outcome float :=
  match binary_normalize prec emax z 0 false with
  | S754_infinity _ => Raised OverflowError
  | r => Returned (SF2Prim r)
  end.

(** What the interpreter provides and the model does not compute: parsing a
    decimal float literal ([None]: the [ValueError] of [float(s)]) and
    [str(v)] of an arbitrary value. *)
Class Builtins := {
  float_of_str : string -> option float;
  py_str : pyval -> string
}.

Definition py_float `{Builtins} (v : pyval) : outcome float :=
  match v with
  | PFloat f => Returned f
  | PInt z => py_float_of_int z
  | PBool b => Returned (if b then 1 else 0)%float
  | PStr s =>
      match float_of_str s with
      | Some f => Returned f
      | None => Raised ValueError
      end
  | PNone | PList _ | PDict _ => Raised TypeError
  end.

(** ** Subscripts and membership on a value that should be a [dict] *)

Fixpoint is_infix (needle hay : string) : bool :=
  (String.prefix needle hay ||
   match hay with
   | EmptyString => false
   | String _ hay' => is_infix needle hay'
   end)%bool.

(** [key in v] for a string [key]. *)
Definition py_in (key : string) (v : pyval) : outcome bool :=
  match v with
  | PDict d => Returned (od_mem d key)
  | PList l => Returned (existsb (py_eqb (PStr key)) l)
  | PStr s => Returned (is_infix key s)
  | PNone | PBool _ | PInt _ | PFloat _ => Raised TypeError
  end.

(** [v[key]] for a string [key]. *)
Definition py_getitem (v : pyval) (key : string) : outcome pyval :=
  match v with
  | PDict d =>
      match od_get d key with
      | Some x => Returned x
      | None => Raised KeyError
      end
  | _ => Raised TypeError
  end.

(** [v.items()]: only a [dict] has the method. *)
Definition py_items (v : pyval) : outcome (list (string * pyval)) :=
  match v with
  | PDict d => Returned d
  | _ => Raised AttributeError
  end.

(** [v.get(key, default)]: only a [dict] has the method. *)
Definition py_get (v : pyval) (key : string) (default : pyval) : outcome pyval :=
  match v with
  | PDict d =>
      Returned match od_get d key with Some x => x | None => default end
  | _ => Raised AttributeError
  end.

(** Text as the program sees it: the model keeps a JSON document as the value
    [json.loads] reads from it, which is the value [json.dumps] was given;
    [PlainText s] is a text [s] that is not a JSON document (the empty string
    among them). *)
Inductive text :=
| JsonText (v : pyval)
| PlainText (s : string).

Definition json_dumps (v : pyval) : text := JsonText v.

Definition json_loads (t : text) : outcome pyval :=
  match t with
  | JsonText v => Returned v
  | PlainText _ => Raised JSONDecodeError
  end.

(** Truthiness of a text ([if clipboard_text:]). *)
Definition text_bool (t : text) : bool :=
  match t with
  | JsonText _ => true
  | PlainText s => negb (String.eqb s "")
  end.

End Py.

Import Py.

(* ===================================================================== *)
(** * The objects of the program and the world they live in *)
(* ===================================================================== *)

(** ** [camera_data_utils.py]: the dataclasses

    The dataclasses do not check their field types, so a field holds
    whatever value it was built from. *)

Module Position.
Record t := mk { x : pyval; y : pyval; z : pyval }.
End Position.

Module Rotation.
Record t := mk { rx : pyval; ry : pyval; rz : pyval }.
End Rotation.

Module CameraParams.
Record t := mk {
  zoom : pyval;
  focal_distance : pyval;
  aperture : pyval;
  exposure : pyval
}.
End CameraParams.

Module CameraState.
Record t := mk {
  position : Position.t;
  rotation : Rotation.t;
  camera_params : CameraParams.t
}.
End CameraState.

(** [CameraDataManager]: the pins and their descriptions, by pin number. *)
Module CameraDataManager.
Record t := mk {
  pin_states : odict Z CameraState.t;
  descriptions : odict Z string
}.
End CameraDataManager.

(** ** [pin_system.py] *)

(** [pythonosc.udp_client.SimpleUDPClient]: only its address is state. *)
Module SimpleUDPClient.
Record t := mk { address : string; port : Z }.
End SimpleUDPClient.

Module OSCController.
Record t := mk {
  target_ip : string;
  send_port : Z;
  client : option SimpleUDPClient.t
}.
End OSCController.

Module OSCReceiver.
Record t := mk {
  current_pose : option (list pyval);
  current_params : gmap string pyval;
  last_update_time : float
}.
End OSCReceiver.

(** ** [keyboard_handler.py] *)

(** A key object of [pynput]: a [KeyCode] has a [vk] attribute, which may be
    [None]; a member of the [Key] enumeration has none. *)
Inductive KeyObj :=
| KeyCode (vk : option Z)
| Key (name : string).

Module KeyboardHandler.
Record t := mk {
  pressed_keys : gset Z;
  key_press_times : gmap Z float;
  long_press_threshold : float;
  is_monitoring : bool;
  key_bindings : odict Z Z;
  vk_to_pin : gmap Z Z;
  special_key_bindings : odict string Z;
  vk_to_special : gmap Z string;
  flight_mode_enabled : bool;
  lookatme_enabled : bool
}.

Definition with_pressed (v : gset Z) (gmap_times : gmap Z float) (h : t) : t :=
  mk v gmap_times (long_press_threshold h) (is_monitoring h)
     (key_bindings h) (vk_to_pin h) (special_key_bindings h)
     (vk_to_special h) (flight_mode_enabled h) (lookatme_enabled h).

Definition with_long_press_threshold (v : float) (h : t) : t :=
  mk (pressed_keys h) (key_press_times h) v (is_monitoring h)
     (key_bindings h) (vk_to_pin h) (special_key_bindings h)
     (vk_to_special h) (flight_mode_enabled h) (lookatme_enabled h).

Definition with_is_monitoring (v : bool) (h : t) : t :=
  mk (pressed_keys h) (key_press_times h) (long_press_threshold h) v
     (key_bindings h) (vk_to_pin h) (special_key_bindings h)
     (vk_to_special h) (flight_mode_enabled h) (lookatme_enabled h).

(** The pin table: [key_bindings] and its reverse map [vk_to_pin]. *)
Definition with_pins (kb : odict Z Z) (rev : gmap Z Z) (h : t) : t :=
  mk (pressed_keys h) (key_press_times h) (long_press_threshold h)
     (is_monitoring h) kb rev (special_key_bindings h)
     (vk_to_special h) (flight_mode_enabled h) (lookatme_enabled h).

(** The special table: [special_key_bindings] and [vk_to_special]. *)
Definition with_specials (kb : odict string Z) (rev : gmap Z string) (h : t) : t :=
  mk (pressed_keys h) (key_press_times h) (long_press_threshold h)
     (is_monitoring h) (key_bindings h) (vk_to_pin h) kb rev
     (flight_mode_enabled h) (lookatme_enabled h).

Definition with_flight_mode_enabled (v : bool) (h : t) : t :=
  mk (pressed_keys h) (key_press_times h) (long_press_threshold h)
     (is_monitoring h) (key_bindings h) (vk_to_pin h)
     (special_key_bindings h) (vk_to_special h) v (lookatme_enabled h).

Definition with_lookatme_enabled (v : bool) (h : t) : t :=
  mk (pressed_keys h) (key_press_times h) (long_press_threshold h)
     (is_monitoring h) (key_bindings h) (vk_to_pin h)
     (special_key_bindings h) (vk_to_special h) (flight_mode_enabled h) v.
End KeyboardHandler.

(** ** The world *)

(** A printed line: the format string of the source and the values
    interpolated into it. *)
Definition Msg : Type := string * list pyval.

(** What the environment does to the program: whether a file write, a UDP
    send or a clipboard access raises. *)
Record Faults := {
  disk_fails : bool;
  udp_fails : bool;
  clipboard_fails : bool
}.

Record World := mkWorld {
  (** [pin_system.keyboard_handler], and whether it has been set. *)
  keyboard_handler : KeyboardHandler.t;
  keyboard_attached : bool;
  data_manager : CameraDataManager.t;
  osc_controller : OSCController.t;
  osc_receiver : OSCReceiver.t;
  (** [keyboard_config.json] and [camera_pins.json]: [None] when absent. *)
  config_file : option text;
  data_file : option text;
  (** The system clipboard, the lines printed, the OSC messages sent. *)
  clipboard : text;
  stdout : list Msg;
  udp_sent : list (string * pyval);
  faults : Faults
}.

Definition with_keyboard_handler (h : KeyboardHandler.t) (w : World) : World :=
  mkWorld h (keyboard_attached w) (data_manager w) (osc_controller w)
          (osc_receiver w) (config_file w) (data_file w) (clipboard w)
          (stdout w) (udp_sent w) (faults w).

Definition with_data_manager (m : CameraDataManager.t) (w : World) : World :=
  mkWorld (keyboard_handler w) (keyboard_attached w) m (osc_controller w)
          (osc_receiver w) (config_file w) (data_file w) (clipboard w)
          (stdout w) (udp_sent w) (faults w).

Definition with_osc_receiver (r : OSCReceiver.t) (w : World) : World :=
  mkWorld (keyboard_handler w) (keyboard_attached w) (data_manager w)
          (osc_controller w) r (config_file w) (data_file w) (clipboard w)
          (stdout w) (udp_sent w) (faults w).

Definition with_config_file (f : option text) (w : World) : World :=
  mkWorld (keyboard_handler w) (keyboard_attached w) (data_manager w)
          (osc_controller w) (osc_receiver w) f (data_file w) (clipboard w)
          (stdout w) (udp_sent w) (faults w).

Definition with_data_file (f : option text) (w : World) : World :=
  mkWorld (keyboard_handler w) (keyboard_attached w) (data_manager w)
          (osc_controller w) (osc_receiver w) (config_file w) f (clipboard w)
          (stdout w) (udp_sent w) (faults w).

Definition with_clipboard (c : text) (w : World) : World :=
  mkWorld (keyboard_handler w) (keyboard_attached w) (data_manager w)
          (osc_controller w) (osc_receiver w) (config_file w) (data_file w) c
          (stdout w) (udp_sent w) (faults w).

Definition with_stdout (out : list Msg) (w : World) : World :=
  mkWorld (keyboard_handler w) (keyboard_attached w) (data_manager w)
          (osc_controller w) (osc_receiver w) (config_file w) (data_file w)
          (clipboard w) out (udp_sent w) (faults w).

Definition with_udp_sent (sent : list (string * pyval)) (w : World) : World :=
  mkWorld (keyboard_handler w) (keyboard_attached w) (data_manager w)
          (osc_controller w) (osc_receiver w) (config_file w) (data_file w)
          (clipboard w) (stdout w) sent (faults w).

(** [print(f"...")]. *)
Definition print (fmt : string) (args : list pyval) (w : World) : World :=
  with_stdout (stdout w ++ [(fmt, args)]) w.

(** [except (E1, E2, ...)]: does the clause catch [e]? *)
Definition catches (classes : list exn) (e : exn) : bool :=
  existsb (fun c => bool_decide (c = e)) classes.

(* ===================================================================== *)
(** * [camera_data_utils.py] *)
(* ===================================================================== *)

Module camera_data_utils.

(** ** Dataclass construction from keyword arguments, [asdict] *)

(** A dataclass called with the keywords of a mapping: every keyword must
    name a field, and a value that is not a mapping is a [TypeError]. *)
Definition kwargs_ok (fields : list string) (kw : list (string * pyval)) : bool :=
  forallb (fun kv => bool_decide (fst kv ∈ fields)) kw.

Definition kwarg (kw : list (string * pyval)) (name : string) (default : pyval) : pyval :=
  match od_get kw name with
  | Some v => v
  | None => default
  end.

Definition Position_kw (kw : pyval) : outcome Position.t :=
  match kw with
  | PDict d =>
      if kwargs_ok ["x"; "y"; "z"] d
      then Returned (Position.mk (kwarg d "x" (PFloat 0)) (kwarg d "y" (PFloat 0))
                                 (kwarg d "z" (PFloat 0)))
      else Raised TypeError
  | _ => Raised TypeError
  end.

Definition Rotation_kw (kw : pyval) : outcome Rotation.t :=
  match kw with
  | PDict d =>
      if kwargs_ok ["rx"; "ry"; "rz"] d
      then Returned (Rotation.mk (kwarg d "rx" (PFloat 0)) (kwarg d "ry" (PFloat 0))
                                 (kwarg d "rz" (PFloat 0)))
      else Raised TypeError
  | _ => Raised TypeError
  end.

Definition CameraParams_kw (kw : pyval) : outcome CameraParams.t :=
  match kw with
  | PDict d =>
      if kwargs_ok ["zoom"; "focal_distance"; "aperture"; "exposure"] d
      then Returned (CameraParams.mk
                       (kwarg d "zoom" (PFloat 45))
                       (kwarg d "focal_distance" (PFloat 1.5))
                       (kwarg d "aperture" (PFloat 15))
                       (kwarg d "exposure" (PFloat 0)))
      else Raised TypeError
  | _ => Raised TypeError
  end.

Definition asdict_Position (p : Position.t) : pyval :=
  PDict [("x", Position.x p); ("y", Position.y p); ("z", Position.z p)].

Definition asdict_Rotation (r : Rotation.t) : pyval :=
  PDict [("rx", Rotation.rx r); ("ry", Rotation.ry r); ("rz", Rotation.rz r)].

Definition asdict_CameraParams (c : CameraParams.t) : pyval :=
  PDict [("zoom", CameraParams.zoom c);
         ("focal_distance", CameraParams.focal_distance c);
         ("aperture", CameraParams.aperture c);
         ("exposure", CameraParams.exposure c)].

(** ** [CameraState] *)

Definition to_pose_list (s : CameraState.t) : list pyval :=
  let p := CameraState.position s in
  let r := CameraState.rotation s in
  [Position.x p; Position.y p; Position.z p;
   Rotation.rx r; Rotation.ry r; Rotation.rz r].

Definition to_dict (s : CameraState.t) : pyval :=
  PDict [("position", asdict_Position (CameraState.position s));
         ("rotation", asdict_Rotation (CameraState.rotation s));
         ("camera_params", asdict_CameraParams (CameraState.camera_params s))].

Definition from_dict (data : pyval) : outcome CameraState.t :=
  pos_kw ← py_get data "position" (PDict []);
  position ← Position_kw pos_kw;
  rot_kw ← py_get data "rotation" (PDict []);
  rotation ← Rotation_kw rot_kw;
  par_kw ← py_get data "camera_params" (PDict []);
  camera_params ← CameraParams_kw par_kw;
  Returned (CameraState.mk position rotation camera_params).

Definition from_pose_data (pose : list pyval)
    (zoom focal_distance aperture exposure : pyval) : outcome CameraState.t :=
  match pose with
  | p0 :: p1 :: p2 :: p3 :: p4 :: p5 :: _ =>
      Returned (CameraState.mk (Position.mk p0 p1 p2) (Rotation.mk p3 p4 p5)
                  (CameraParams.mk zoom focal_distance aperture exposure))
  | _ => Raised ValueError
  end.

(** ** [CameraParamsValidator] *)

Definition ZOOM_RANGE : float * float := (20, 150)%float.
Definition FOCAL_DISTANCE_RANGE : float * float := (0, 10)%float.
Definition APERTURE_RANGE : float * float := (1.4, 32)%float.
Definition EXPOSURE_RANGE : float * float := (-10, 4)%float.

(** [max(range[0], min(range[1], v))]. *)
Definition clamp (range : float * float) (v : pyval) : outcome pyval :=
  m ← py_min (PFloat (snd range)) v;
  py_max (PFloat (fst range)) m.

Definition validate_zoom (zoom : pyval) : outcome pyval :=
  clamp ZOOM_RANGE zoom.

Definition validate_focal_distance (focal_distance : pyval) : outcome pyval :=
  clamp FOCAL_DISTANCE_RANGE focal_distance.

Definition validate_aperture (aperture : pyval) : outcome pyval :=
  clamp APERTURE_RANGE aperture.

Definition validate_exposure (exposure : pyval) : outcome pyval :=
  clamp EXPOSURE_RANGE exposure.

Definition validate_camera_params (params : CameraParams.t) : outcome CameraParams.t :=
  zoom ← validate_zoom (CameraParams.zoom params);
  focal_distance ← validate_focal_distance (CameraParams.focal_distance params);
  aperture ← validate_aperture (CameraParams.aperture params);
  exposure ← validate_exposure (CameraParams.exposure params);
  Returned (CameraParams.mk zoom focal_distance aperture exposure).

(** ** The clipboard encoding *)

(** Nothing in the body can raise on the values of this model, so the
    [except] branch that returns the empty string is never taken. *)
Definition create_clipboard_data (state : CameraState.t) (pin_number : option Z) : text :=
  let clipboard_data :=
    [("type", PStr "vrchat_camera_state");
     ("position", asdict_Position (CameraState.position state));
     ("rotation", asdict_Rotation (CameraState.rotation state));
     ("camera_params", asdict_CameraParams (CameraState.camera_params state))] in
  let clipboard_data :=
    match pin_number with
    | Some n => od_set clipboard_data "pin_number" (PInt n)
    | None => clipboard_data
    end in
  json_dumps (PDict clipboard_data).

Definition parse_clipboard_body (clipboard_text : text) : outcome (option CameraState.t) :=
  data ← json_loads clipboard_text;
  match data with
  | PDict d =>
      if (py_eqb (kwarg d "type" PNone) (PStr "vrchat_camera_state")
          && od_mem d "position" && od_mem d "rotation"
          && od_mem d "camera_params")%bool
      then (s ← from_dict data; Returned (Some s))
      else Returned None
  | _ => Returned None
  end.

Definition parse_clipboard_data (clipboard_text : text) (w : World)
    : outcome (option CameraState.t) * World :=
  match parse_clipboard_body clipboard_text with
  | Returned r => (Returned r, w)
  | Raised e =>
      if catches [JSONDecodeError; TypeError; KeyError] e
      then (Returned None,
            print "クリップボードデータ解析エラー: {e}" [exn_name e] w)
      else (Raised e, w)
  end.

(** ** [CameraDataManager] *)

Section manager.
Context `{Builtins}.

Definition set_pin_states (ps : odict Z CameraState.t) (w : World) : World :=
  with_data_manager
    (CameraDataManager.mk ps (CameraDataManager.descriptions (data_manager w))) w.

Definition set_descriptions (ds : odict Z string) (w : World) : World :=
  with_data_manager
    (CameraDataManager.mk (CameraDataManager.pin_states (data_manager w)) ds) w.

Definition save_data (w : World) : World :=
  let m := data_manager w in
  let data :=
    PDict [("saved_poses",
            PDict (od_of_list
                     (map (fun kv => (py_str_of_int (fst kv), to_dict (snd kv)))
                          (CameraDataManager.pin_states m))));
           ("descriptions",
            PDict (od_of_list
                     (map (fun kv => (py_str_of_int (fst kv), PStr (snd kv)))
                          (CameraDataManager.descriptions m))))] in
  if disk_fails (faults w)
  then print "データ保存エラー: {e}" [exn_name OSError] w
  else with_data_file (Some (json_dumps data)) w.

Definition save_pin_state (pin_number : Z) (state : CameraState.t)
    (description : string) (w : World) : bool * World :=
  if negb ((1 <=? pin_number) && (pin_number <=? 9))
  then (false, w)
  else
    match validate_camera_params (CameraState.camera_params state) with
    | Raised e => (false, print "Pin状態保存エラー: {e}" [exn_name e] w)
    | Returned validated_params =>
        let validated_state :=
          CameraState.mk (CameraState.position state)
                         (CameraState.rotation state) validated_params in
        let m := data_manager w in
        let w := set_pin_states
                   (od_set (CameraDataManager.pin_states m) pin_number validated_state) w in
        let w :=
          if negb (String.eqb (strip description) "")
          then set_descriptions
                 (od_set (CameraDataManager.descriptions (data_manager w))
                         pin_number (strip description)) w
          else w in
        (true, save_data w)
    end.

Definition load_pin_state (pin_number : Z) (w : World) : option CameraState.t :=
  od_get (CameraDataManager.pin_states (data_manager w)) pin_number.

Definition delete_pin_state (pin_number : Z) (w : World) : bool * World :=
  let m := data_manager w in
  if od_mem (CameraDataManager.pin_states m) pin_number
  then
    let w := set_pin_states (od_del (CameraDataManager.pin_states m) pin_number) w in
    let w := set_descriptions
               (od_del (CameraDataManager.descriptions (data_manager w)) pin_number) w in
    (true, save_data w)
  else (false, w).

Definition get_all_pin_states (w : World) : odict Z CameraState.t :=
  CameraDataManager.pin_states (data_manager w).

Definition set_description (pin_number : Z) (description : string) (w : World) : World :=
  if (1 <=? pin_number) && (pin_number <=? 9)
  then
    let ds := CameraDataManager.descriptions (data_manager w) in
    let w :=
      if negb (String.eqb (strip description) "")
      then set_descriptions (od_set ds pin_number (strip description)) w
      else set_descriptions (od_del ds pin_number) w in
    save_data w
  else w.

Definition get_description (pin_number : Z) (w : World) : string :=
  match od_get (CameraDataManager.descriptions (data_manager w)) pin_number with
  | Some d => d
  | None => ""
  end.

(** One pass of the loop over [saved_poses.items()]: the state is built and
    validated before it is stored, so an exception leaves the store as it
    was. *)
Definition load_one_pin (pin_str : string) (state_data : pyval) (w : World)
    : outcome World :=
  pin_num ← py_int_of_str pin_str;
  if (1 <=? pin_num) && (pin_num <=? 9)
  then
    state ← from_dict state_data;
    params ← validate_camera_params (CameraState.camera_params state);
    let state := CameraState.mk (CameraState.position state)
                                (CameraState.rotation state) params in
    Returned (set_pin_states
                (od_set (CameraDataManager.pin_states (data_manager w)) pin_num state) w)
  else Returned w.

(** The loop; [Some e] when [e] is not caught inside it. *)
Fixpoint load_pins (items : list (string * pyval)) (w : World) : option exn * World :=
  match items with
  | [] => (None, w)
  | (pin_str, state_data) :: rest =>
      match load_one_pin pin_str state_data w with
      | Returned w' => load_pins rest w'
      | Raised e =>
          if catches [ValueError; TypeError; KeyError] e
          then load_pins rest
                 (print "Pin {pin_str} データ読み込みエラー: {e}"
                        [PStr pin_str; exn_name e] w)
          else (Some e, w)
      end
  end.

Definition load_one_description (pin_str : string) (desc : pyval) (w : World)
    : outcome World :=
  pin_num ← py_int_of_str pin_str;
  if (1 <=? pin_num) && (pin_num <=? 9)
  then Returned (set_descriptions
                   (od_set (CameraDataManager.descriptions (data_manager w))
                           pin_num (py_str desc)) w)
  else Returned w.

Fixpoint load_descriptions (items : list (string * pyval)) (w : World)
    : option exn * World :=
  match items with
  | [] => (None, w)
  | (pin_str, desc) :: rest =>
      match load_one_description pin_str desc w with
      | Returned w' => load_descriptions rest w'
      | Raised e =>
          if catches [ValueError; TypeError] e
          then load_descriptions rest w
          else (Some e, w)
      end
  end.

(** The body of [load_data] inside its [try]. *)
Definition load_data_body (w : World) : option exn * World :=
  match data_file w with
  | None => (None, w)
  | Some content =>
      match json_loads content with
      | Raised e => (Some e, w)
      | Returned data =>
          match (d ← py_get data "saved_poses" (PDict []); py_items d) with
          | Raised e => (Some e, w)
          | Returned poses =>
              match load_pins poses w with
              | (Some e, w) => (Some e, w)
              | (None, w) =>
                  match (d ← py_get data "descriptions" (PDict []); py_items d) with
                  | Raised e => (Some e, w)
                  | Returned descs => load_descriptions descs w
                  end
              end
          end
      end
  end.

Definition load_data (w : World) : World :=
  match load_data_body w with
  | (None, w) => w
  | (Some e, w) => print "データ読み込みエラー: {e}" [exn_name e] w
  end.

(** [CameraDataManager.__init__]. *)
Definition CameraDataManager_init (w : World) : World :=
  load_data (with_data_manager (CameraDataManager.mk [] []) w).

End manager.

End camera_data_utils.

(* ===================================================================== *)
(** * [pin_system.py] *)
(* ===================================================================== *)

Module pin_system.
Import camera_data_utils.

(** ** [OSCController] *)

(** [client.send_message(address, value)]: the datagram leaves, or the
    socket raises. *)
Definition send_message (address : string) (value : pyval) (w : World)
    : outcome unit * World :=
  if udp_fails (faults w)
  then (Raised OSError, w)
  else (Returned tt, with_udp_sent (udp_sent w ++ [(address, value)]) w).

(** Several sends in a row, up to the first that raises. *)
Fixpoint send_messages (msgs : list (string * pyval)) (w : World)
    : outcome unit * World :=
  match msgs with
  | [] => (Returned tt, w)
  | (address, value) :: rest =>
      match send_message address value w with
      | (Returned _, w') => send_messages rest w'
      | (Raised e, w') => (Raised e, w')
      end
  end.

Definition send_camera_pose (pose_data : list pyval) (w : World) : bool * World :=
  match OSCController.client (osc_controller w) with
  | None => (false, w)
  | Some _ =>
      if (Z.of_nat (length pose_data) <? 6)
      then (false, w)
      else
        match send_message "/usercamera/Pose" (PList pose_data) w with
        | (Returned _, w') => (true, w')
        | (Raised e, w') =>
            (false, print "カメラ位置送信エラー: {e}" [exn_name e] w')
        end
  end.

Definition send_camera_params (zoom focal_distance aperture exposure : pyval)
    (w : World) : bool * World :=
  match OSCController.client (osc_controller w) with
  | None => (false, w)
  | Some _ =>
      match send_messages [("/usercamera/Zoom", zoom);
                           ("/usercamera/FocalDistance", focal_distance);
                           ("/usercamera/Aperture", aperture);
                           ("/usercamera/Exposure", exposure)] w with
      | (Returned _, w') => (true, w')
      | (Raised e, w') =>
          (false, print "カメラパラメータ送信エラー: {e}" [exn_name e] w')
      end
  end.

Definition send_flying_mode (enabled : bool) (w : World) : bool * World :=
  match OSCController.client (osc_controller w) with
  | None => (false, w)
  | Some _ =>
      match send_message "/usercamera/Flying" (PBool enabled) w with
      | (Returned _, w') => (true, w')
      | (Raised e, w') =>
          (false, print "飛行モード送信エラー: {e}" [exn_name e] w')
      end
  end.

Definition send_lookatme (enabled : bool) (w : World) : bool * World :=
  match OSCController.client (osc_controller w) with
  | None => (false, w)
  | Some _ =>
      match send_message "/usercamera/LookAtMe" (PBool enabled) w with
      | (Returned _, w') => (true, w')
      | (Raised e, w') =>
          (false, print "LookAtMe送信エラー: {e}" [exn_name e] w')
      end
  end.

(** ** [OSCReceiver]

    A handler is called with the arguments of one inbound message; [now] is
    what [time.time()] returns during the call. *)

Section with_builtins.
Context `{Builtins}.

Definition set_current_params (ps : gmap string pyval) (w : World) : World :=
  let r := osc_receiver w in
  with_osc_receiver
    (OSCReceiver.mk (OSCReceiver.current_pose r) ps (OSCReceiver.last_update_time r)) w.

(** The statements of [_handle_pose] inside its [try]. *)
Definition _handle_pose_body (args : list pyval) (now : float) (w : World)
    : outcome World :=
  if (6 <=? Z.of_nat (length args))
  then
    let r := osc_receiver w in
    Returned (with_osc_receiver
                (OSCReceiver.mk (Some (take 6 args))
                                (OSCReceiver.current_params r) now) w)
  else Returned w.

Definition _handle_pose (args : list pyval) (now : float) (w : World) : World :=
  match _handle_pose_body args now w with
  | Returned w' => w'
  | Raised e => print "位置データ処理エラー: {e}" [exn_name e] w
  end.

(** The four parameter handlers differ in the key and in the message. *)
Definition handle_float_param (key errfmt : string) (args : list pyval) (w : World)
    : World :=
  match args with
  | [] => w
  | a :: _ =>
      match py_float a with
      | Returned f =>
          set_current_params
            (<[key := PFloat f]> (OSCReceiver.current_params (osc_receiver w))) w
      | Raised e => print errfmt [exn_name e] w
      end
  end.

Definition _handle_zoom := handle_float_param "zoom" "ズームデータ処理エラー: {e}".
Definition _handle_focal_distance :=
  handle_float_param "focal_distance" "焦点距離距離データ処理エラー: {e}".
Definition _handle_aperture := handle_float_param "aperture" "絞り値データ処理エラー: {e}".
Definition _handle_exposure := handle_float_param "exposure" "露出データ処理エラー: {e}".

Definition on_off (b : bool) : pyval := PStr (if b then "ON" else "OFF").

(** The receiver of the model always has its parent system set, as
    [VRChatCameraPinSystem.__init__] does; the handler is updated when the
    parent has one. *)
Definition _handle_flying (args : list pyval) (w : World) : World :=
  match args with
  | [] => w
  | a :: _ =>
      let flying_state := py_bool a in
      let w := set_current_params
                 (<["flying" := PBool flying_state]>
                    (OSCReceiver.current_params (osc_receiver w))) w in
      let w :=
        if keyboard_attached w
        then with_keyboard_handler
               (KeyboardHandler.with_flight_mode_enabled flying_state
                  (keyboard_handler w)) w
        else w in
      print "飛行モード状態受信: {}" [on_off flying_state] w
  end.

Definition _handle_lookatme (args : list pyval) (w : World) : World :=
  match args with
  | [] => w
  | a :: _ =>
      let lookatme_state := py_bool a in
      let w := set_current_params
                 (<["lookatme" := PBool lookatme_state]>
                    (OSCReceiver.current_params (osc_receiver w))) w in
      let w :=
        if keyboard_attached w
        then with_keyboard_handler
               (KeyboardHandler.with_lookatme_enabled lookatme_state
                  (keyboard_handler w)) w
        else w in
      print "LookAtMe状態受信: {}" [on_off lookatme_state] w
  end.

Definition get_current_state (w : World) : option CameraState.t :=
  let r := osc_receiver w in
  match OSCReceiver.current_pose r with
  | Some (p0 :: p1 :: p2 :: p3 :: p4 :: p5 :: _) =>
      let params := OSCReceiver.current_params r in
      Some (CameraState.mk
              (Position.mk p0 p1 p2) (Rotation.mk p3 p4 p5)
              (CameraParams.mk
                 (default (PFloat 45) (params !! "zoom"))
                 (default (PFloat 1.5) (params !! "focal_distance"))
                 (default (PFloat 15) (params !! "aperture"))
                 (default (PFloat 0) (params !! "exposure"))))
  | _ => None
  end.

(** ** [VRChatCameraPinSystem] *)

Definition get_current_camera_state (w : World) : option CameraState.t :=
  get_current_state w.

Definition save_current_state_to_pin (pin_number : Z) (description : string)
    (w : World) : bool * World :=
  match get_current_camera_state w with
  | None =>
      (false,
       print "現在状態が取得できません - Pin{pin_number}への保存をスキップ"
             [PInt pin_number] w)
  | Some current_state =>
      let '(success, w) := save_pin_state pin_number current_state description w in
      if success
      then (true, print "Pin{pin_number}に現在状態を保存しました" [PInt pin_number] w)
      else (false, w)
  end.

Definition load_pin_to_camera (pin_number : Z) (w : World) : bool * World :=
  match load_pin_state pin_number w with
  | None =>
      (false, print "Pin{pin_number}にデータが保存されていません" [PInt pin_number] w)
  | Some state =>
      let '(pose_success, w) := send_camera_pose (to_pose_list state) w in
      let c := CameraState.camera_params state in
      let '(params_success, w) :=
        send_camera_params (CameraParams.zoom c) (CameraParams.focal_distance c)
                           (CameraParams.aperture c) (CameraParams.exposure c) w in
      if pose_success && params_success
      then (true, print "Pin{pin_number}の状態をカメラに適用しました" [PInt pin_number] w)
      else (false,
            print "Pin{pin_number}の適用中にOSC送信エラーが発生しました"
                  [PInt pin_number] w)
  end.

Definition delete_pin (pin_number : Z) (w : World) : bool * World :=
  delete_pin_state pin_number w.

Definition copy_current_state_to_clipboard (w : World) : text :=
  match get_current_camera_state w with
  | None => PlainText ""
  | Some current_state => create_clipboard_data current_state None
  end.

Definition copy_pin_to_clipboard (pin_number : Z) (w : World) : text :=
  match load_pin_state pin_number w with
  | None => PlainText ""
  | Some state => create_clipboard_data state (Some pin_number)
  end.

Definition load_from_clipboard_data (clipboard_text : text) (w : World)
    : bool * World :=
  match parse_clipboard_data clipboard_text w with
  | (Raised e, w) => (false, print "クリップボード復元エラー: {e}" [exn_name e] w)
  | (Returned None, w) => (false, w)
  | (Returned (Some state), w) =>
      let '(pose_success, w) := send_camera_pose (to_pose_list state) w in
      let c := CameraState.camera_params state in
      let '(params_success, w) :=
        send_camera_params (CameraParams.zoom c) (CameraParams.focal_distance c)
                           (CameraParams.aperture c) (CameraParams.exposure c) w in
      (pose_success && params_success, w)
  end.

End with_builtins.

End pin_system.

(* ===================================================================== *)
(** * [keyboard_handler.py] *)
(* ===================================================================== *)

Module keyboard_handler.
Import camera_data_utils pin_system.
Import KeyboardHandler.

Section with_builtins.
Context `{Builtins}.

(** [self.f = v] for the handler inside the world. *)
Definition update (f : KeyboardHandler.t -> KeyboardHandler.t) (w : World) : World :=
  with_keyboard_handler (f (keyboard_handler w)) w.

(** A step that may raise after changing the world: [None] when it
    completes. *)
Definition step := World -> option exn * World.

Definition and_then (s1 s2 : step) : step := fun w =>
  match s1 w with
  | (None, w') => s2 w'
  | (Some e, w') => (Some e, w')
  end.

(** ** [save_config] and [setup_default_bindings] *)

(** The dictionary [save_config] writes. *)
Definition config_data_of (h : KeyboardHandler.t) : pyval :=
  PDict [("key_bindings_vk",
          PDict (od_of_list (map (fun kv => (py_str_of_int (fst kv), PInt (snd kv)))
                                 (key_bindings h))));
         ("special_key_bindings_vk",
          PDict (od_of_list (map (fun kv => (fst kv, PInt (snd kv)))
                                 (special_key_bindings h))));
         ("long_press_threshold", PFloat (long_press_threshold h));
         ("flight_mode_enabled", PBool (flight_mode_enabled h));
         ("lookatme_enabled", PBool (lookatme_enabled h));
         ("version", PStr "1.0")].

Definition save_config (w : World) : World :=
  let config_data := config_data_of (keyboard_handler w) in
  if disk_fails (faults w)
  then print "設定保存エラー: {e}" [exn_name OSError] w
  else with_config_file (Some (json_dumps config_data)) w.

(** [for pin in range(1, 10)]: numpad 1-9. *)
Definition default_pin_tables : odict Z Z * gmap Z Z :=
  fold_left (fun t pin =>
               let vk_code := 96 + pin in
               (od_set (fst t) pin vk_code, <[vk_code := pin]> (snd t)))
            (seqZ 1 9) ([], ∅).

Definition default_special_key_bindings : odict string Z :=
  [("copy_current", 110); ("move_clipboard", 96);
   ("toggle_flight", 111); ("toggle_lookatme", 106)].

(** [for action, vk in bindings.items(): vk_to_special[vk] = action]. *)
Definition reverse_specials (bindings : odict string Z) : gmap Z string :=
  fold_left (fun m kv => <[snd kv := fst kv]> m) bindings ∅.

Definition setup_default_bindings (w : World) : World :=
  let w := update (with_pins (fst default_pin_tables) (snd default_pin_tables)) w in
  let w := update (with_specials default_special_key_bindings
                     (reverse_specials default_special_key_bindings)) w in
  save_config w.

(** ** [load_config] *)

Definition load_threshold (config_data : pyval) : step := fun w =>
  match py_in "long_press_threshold" config_data with
  | Raised e => (Some e, w)
  | Returned false => (None, w)
  | Returned true =>
      match (v ← py_getitem config_data "long_press_threshold"; py_float v) with
      | Raised e => (Some e, w)
      | Returned f => (None, update (with_long_press_threshold f) w)
      end
  end.

(** One pass of the loop over [key_bindings.items()]. *)
Definition load_one_pin_binding (pin_str : string) (vk_code : pyval)
    (h : KeyboardHandler.t) : outcome KeyboardHandler.t :=
  pin_num ← py_int_of_str pin_str;
  vk ← py_int vk_code;
  if (1 <=? pin_num) && (pin_num <=? 9)
  then Returned (with_pins (od_set (key_bindings h) pin_num vk)
                           (<[vk := pin_num]> (vk_to_pin h)) h)
  else Returned h.

Fixpoint load_pin_bindings (items : list (string * pyval)) (h : KeyboardHandler.t)
    : option exn * KeyboardHandler.t :=
  match items with
  | [] => (None, h)
  | (pin_str, vk_code) :: rest =>
      match load_one_pin_binding pin_str vk_code h with
      | Returned h' => load_pin_bindings rest h'
      | Raised e =>
          if catches [ValueError; TypeError] e
          then load_pin_bindings rest h
          else (Some e, h)
      end
  end.

Definition load_one_special_binding (action : string) (vk_code : pyval)
    (h : KeyboardHandler.t) : outcome KeyboardHandler.t :=
  vk ← py_int vk_code;
  Returned (with_specials (od_set (special_key_bindings h) action vk)
                          (<[vk := action]> (vk_to_special h)) h).

Fixpoint load_special_bindings (items : list (string * pyval)) (h : KeyboardHandler.t)
    : option exn * KeyboardHandler.t :=
  match items with
  | [] => (None, h)
  | (action, vk_code) :: rest =>
      match load_one_special_binding action vk_code h with
      | Returned h' => load_special_bindings rest h'
      | Raised e =>
          if catches [ValueError; TypeError] e
          then load_special_bindings rest h
          else (Some e, h)
      end
  end.

(** A table of the configuration: the value is fetched, the handler's maps
    are emptied, and then the entries are read. *)
Definition load_table (key : string)
    (clear : KeyboardHandler.t -> KeyboardHandler.t)
    (loop : list (string * pyval) -> KeyboardHandler.t -> option exn * KeyboardHandler.t)
    (config_data : pyval) : step := fun w =>
  match py_in key config_data with
  | Raised e => (Some e, w)
  | Returned false => (None, w)
  | Returned true =>
      match py_getitem config_data key with
      | Raised e => (Some e, w)
      | Returned bindings =>
          let w := update clear w in
          match py_items bindings with
          | Raised e => (Some e, w)
          | Returned items =>
              let '(r, h) := loop items (keyboard_handler w) in
              (r, with_keyboard_handler h w)
          end
      end
  end.

Definition load_flag (key : string)
    (set : bool -> KeyboardHandler.t -> KeyboardHandler.t)
    (config_data : pyval) : step := fun w =>
  match py_in key config_data with
  | Raised e => (Some e, w)
  | Returned false => (None, w)
  | Returned true =>
      match py_getitem config_data key with
      | Raised e => (Some e, w)
      | Returned v => (None, update (set (py_bool v)) w)
      end
  end.

(** [if not self.key_bindings or not self.special_key_bindings]. *)
Definition default_if_incomplete : step := fun w =>
  let h := keyboard_handler w in
  match key_bindings h, special_key_bindings h with
  | _ :: _, _ :: _ => (None, w)
  | _, _ => (None, setup_default_bindings w)
  end.

(** [load_config] from the statement after the file has been read. *)
Definition load_config_data (config_data : pyval) : step :=
  and_then (load_threshold config_data)
  (and_then (load_table "key_bindings_vk" (with_pins [] ∅)
                        load_pin_bindings config_data)
  (and_then (load_table "special_key_bindings_vk" (with_specials [] ∅)
                        load_special_bindings config_data)
  (and_then (load_flag "flight_mode_enabled" with_flight_mode_enabled config_data)
  (and_then (load_flag "lookatme_enabled" with_lookatme_enabled config_data)
            default_if_incomplete)))).

Definition load_config (config_data : option pyval) : step := fun w =>
  match config_data with
  | Some data => load_config_data data w
  | None =>
      match config_file w with
      | Some content =>
          match json_loads content with
          | Returned data => load_config_data data w
          | Raised _ => (None, setup_default_bindings w)
          end
      | None => (None, setup_default_bindings w)
      end
  end.

(** [KeyboardHandler.__init__]. *)
Definition KeyboardHandler_init : step := fun w =>
  load_config None
    (with_keyboard_handler
       (KeyboardHandler.mk ∅ ∅ 0.8%float false [] ∅ [] ∅ false false) w).

(** ** Binding and unbinding *)

Definition _get_vk_code (key_obj : KeyObj) : option Z :=
  match key_obj with
  | KeyCode (Some vk) => Some vk
  | KeyCode None => None
  | Key _ => None
  end.

Definition set_key_binding (pin_number : Z) (key_obj : KeyObj) (w : World)
    : bool * World :=
  if negb ((1 <=? pin_number) && (pin_number <=? 9))
  then (false, w)
  else
    match _get_vk_code key_obj with
    | None => (false, w)
    | Some vk_code =>
        let h := keyboard_handler w in
        if bool_decide (is_Some (vk_to_special h !! vk_code))
        then (false,
              print "警告: VKコード {vk_code} は特殊機能キーと競合します"
                    [PInt vk_code] w)
        else
          let rev :=
            match od_get (key_bindings h) pin_number with
            | Some old_vk => delete old_vk (vk_to_pin h)
            | None => vk_to_pin h
            end in
          let w := update (with_pins (od_set (key_bindings h) pin_number vk_code)
                                     (<[vk_code := pin_number]> rev)) w in
          (true, save_config w)
    end.

Definition valid_actions : list string :=
  ["copy_current"; "move_clipboard"; "toggle_flight"; "toggle_lookatme"].

Definition set_special_key_binding (action : string) (key_obj : KeyObj) (w : World)
    : bool * World :=
  if negb (bool_decide (action ∈ valid_actions))
  then (false, w)
  else
    match _get_vk_code key_obj with
    | None => (false, w)
    | Some vk_code =>
        let h := keyboard_handler w in
        if bool_decide (is_Some (vk_to_pin h !! vk_code))
        then (false,
              print "警告: VKコード {vk_code} はPin操作キーと競合します"
                    [PInt vk_code] w)
        else
          let rev :=
            match od_get (special_key_bindings h) action with
            | Some old_vk => delete old_vk (vk_to_special h)
            | None => vk_to_special h
            end in
          let w := update (with_specials
                             (od_set (special_key_bindings h) action vk_code)
                             (<[vk_code := action]> rev)) w in
          (true, save_config w)
    end.

Definition remove_key_binding (pin_number : Z) (w : World) : bool * World :=
  let h := keyboard_handler w in
  match od_get (key_bindings h) pin_number with
  | Some vk_code =>
      let w := update (with_pins (od_del (key_bindings h) pin_number)
                                 (delete vk_code (vk_to_pin h))) w in
      (true, save_config w)
  | None => (false, w)
  end.

Definition remove_special_key_binding (action : string) (w : World) : bool * World :=
  let h := keyboard_handler w in
  match od_get (special_key_bindings h) action with
  | Some vk_code =>
      let w := update (with_specials (od_del (special_key_bindings h) action)
                                     (delete vk_code (vk_to_special h))) w in
      (true, save_config w)
  | None => (false, w)
  end.

(** ** The actions a key can trigger *)

Definition _save_pin (pin_number : Z) (w : World) : World :=
  let '(success, w) := save_current_state_to_pin pin_number "" w in
  if success
  then print "Pin {pin_number} に現在状態を保存しました" [PInt pin_number] w
  else print "Pin {pin_number} への保存に失敗しました" [PInt pin_number] w.

Definition _move_to_pin (pin_number : Z) (w : World) : World :=
  let '(success, w) := load_pin_to_camera pin_number w in
  if success
  then print "Pin {pin_number} に移動しました" [PInt pin_number] w
  else print "Pin {pin_number} への移動に失敗しました" [PInt pin_number] w.

(** [pyperclip.copy] and [pyperclip.paste]. *)
Definition pyperclip_copy (t : text) (w : World) : outcome unit * World :=
  if clipboard_fails (faults w)
  then (Raised PyperclipException, w)
  else (Returned tt, with_clipboard t w).

Definition pyperclip_paste (w : World) : outcome text :=
  if clipboard_fails (faults w)
  then Raised PyperclipException
  else Returned (clipboard w).

Definition _copy_current_state (w : World) : World :=
  let clipboard_text := copy_current_state_to_clipboard w in
  if text_bool clipboard_text
  then
    match pyperclip_copy clipboard_text w with
    | (Returned _, w) =>
        print "📋 現在カメラ状態をクリップボードに保存しました" [] w
    | (Raised e, w) => print "現在状態コピーエラー: {e}" [exn_name e] w
    end
  else print "❌ 現在状態が取得できません - VRChatでカメラを動かしてください" [] w.

Definition _move_from_clipboard (w : World) : World :=
  match pyperclip_paste w with
  | Raised e => print "クリップボード移動エラー: {e}" [exn_name e] w
  | Returned clipboard_text =>
      let '(success, w) := load_from_clipboard_data clipboard_text w in
      if success
      then print "📥 クリップボードの状態に移動しました" [] w
      else print "❌ クリップボードに有効な状態情報がありません" [] w
  end.

(** The pin system of the model always has its [osc_controller]; the send
    is attempted when the controller has a client.  [send_flying_mode]
    catches what the socket raises, so the [except] branch of the toggle,
    which would flip the flag back, is never entered from the send. *)
Definition _toggle_flight_mode (w : World) : World :=
  let w := update (fun h => with_flight_mode_enabled (negb (flight_mode_enabled h)) h) w in
  match OSCController.client (osc_controller w) with
  | Some _ =>
      let '(_, w) := send_flying_mode (flight_mode_enabled (keyboard_handler w)) w in
      let w := print "✈️ 飛行モード: {status}"
                     [on_off (flight_mode_enabled (keyboard_handler w))] w in
      save_config w
  | None =>
      let w := print "❌ OSC通信が利用できません" [] w in
      update (fun h => with_flight_mode_enabled (negb (flight_mode_enabled h)) h) w
  end.

Definition _toggle_lookatme (w : World) : World :=
  let w := update (fun h => with_lookatme_enabled (negb (lookatme_enabled h)) h) w in
  match OSCController.client (osc_controller w) with
  | Some _ =>
      let '(_, w) := send_lookatme (lookatme_enabled (keyboard_handler w)) w in
      let w := print "👁️ LookAtMe: {status}"
                     [on_off (lookatme_enabled (keyboard_handler w))] w in
      save_config w
  | None =>
      let w := print "❌ OSC通信が利用できません" [] w in
      update (fun h => with_lookatme_enabled (negb (lookatme_enabled h)) h) w
  end.

Definition _handle_special_action (action : string) (w : World) : World :=
  if String.eqb action "copy_current" then _copy_current_state w
  else if String.eqb action "move_clipboard" then _move_from_clipboard w
  else if String.eqb action "toggle_flight" then _toggle_flight_mode w
  else if String.eqb action "toggle_lookatme" then _toggle_lookatme w
  else print "未知のアクション: {action}" [PStr action] w.

(** ** Key events

    [now] is what [time.time()] returns during the call. *)

Definition _handle_key_press (vk_code : Z) (now : float) (w : World) : World :=
  let h := keyboard_handler w in
  if bool_decide (vk_code ∈ pressed_keys h)
  then w
  else update (with_pressed ({[vk_code]} ∪ pressed_keys h)
                            (<[vk_code := now]> (key_press_times h))) w.

Definition _handle_key_release (vk_code : Z) (now : float) (w : World) : World :=
  let h := keyboard_handler w in
  if bool_decide (vk_code ∈ pressed_keys h)
  then
    let w := update (with_pressed (pressed_keys h ∖ {[vk_code]}) (key_press_times h)) w in
    match key_press_times h !! vk_code with
    | Some pressed_at =>
        let press_duration := (now - pressed_at)%float in
        let w := update (fun h => with_pressed (pressed_keys h)
                                    (delete vk_code (key_press_times h)) h) w in
        let h := keyboard_handler w in
        match vk_to_pin h !! vk_code with
        | Some pin_number =>
            if (long_press_threshold h <=? press_duration)%float
            then _save_pin pin_number w
            else _move_to_pin pin_number w
        | None =>
            match vk_to_special h !! vk_code with
            | Some action => _handle_special_action action w
            | None => w
            end
        end
    | None => w
    end
  else w.

Definition _on_press (key : KeyObj) (now : float) (w : World) : World :=
  match _get_vk_code key with
  | Some vk_code => _handle_key_press vk_code now w
  | None => w
  end.

Definition _on_release (key : KeyObj) (now : float) (w : World) : World :=
  match _get_vk_code key with
  | Some vk_code => _handle_key_release vk_code now w
  | None => w
  end.

Definition stop_monitoring (w : World) : World :=
  let w := update (with_is_monitoring false) w in
  let w := update (with_pressed ∅ ∅) w in
  print "キーボード監視停止" [] w.

Definition shutdown (w : World) : World :=
  save_config (stop_monitoring w).

End with_builtins.

End keyboard_handler.

(* ===================================================================== *)
(** * The vocabulary of the properties *)
(* ===================================================================== *)

Import camera_data_utils pin_system keyboard_handler.

(** ** Camera parameters and the pin store *)

Definition is_number (v : pyval) : bool :=
  match as_number v with Some _ => true | None => false end.

(** [range[0] <= v <= range[1]], for a number [v]. *)
Definition in_range (range : float * float) (v : pyval) : bool :=
  match as_number v with
  | Some n => num_leb (NFloat (fst range)) n && num_leb n (NFloat (snd range))
  | None => false
  end.

Definition params_numeric (p : CameraParams.t) : bool :=
  is_number (CameraParams.zoom p) && is_number (CameraParams.focal_distance p)
  && is_number (CameraParams.aperture p) && is_number (CameraParams.exposure p).

Definition params_in_range (p : CameraParams.t) : bool :=
  in_range ZOOM_RANGE (CameraParams.zoom p)
  && in_range FOCAL_DISTANCE_RANGE (CameraParams.focal_distance p)
  && in_range APERTURE_RANGE (CameraParams.aperture p)
  && in_range EXPOSURE_RANGE (CameraParams.exposure p).

(** [p == q] as the dataclass compares: field by field with [==]. *)
Definition params_eqb (p q : CameraParams.t) : bool :=
  py_eqb (CameraParams.zoom p) (CameraParams.zoom q)
  && py_eqb (CameraParams.focal_distance p) (CameraParams.focal_distance q)
  && py_eqb (CameraParams.aperture p) (CameraParams.aperture q)
  && py_eqb (CameraParams.exposure p) (CameraParams.exposure q).

(** A range whose bounds are ordered numbers (neither is NaN). *)
Definition range_ok (range : float * float) : bool :=
  ((fst range <=? fst range) && (fst range <? snd range)
   && (snd range <=? snd range))%float.

Definition state_ok (s : CameraState.t) : bool :=
  params_in_range (CameraState.camera_params s).

(** Every state held in the pin store has its parameters in range. *)
Definition store_ok (w : World) : Prop :=
  Forall (fun kv : Z * CameraState.t => state_ok (snd kv) = true)
         (CameraDataManager.pin_states (data_manager w)).

(** ** Camera states on the clipboard *)

(** A field that holds a float holds a finite one. *)
Definition finite_float (v : pyval) : bool :=
  match v with
  | PFloat f =>
      match Prim2SF f with
      | S754_zero _ | S754_finite _ _ _ => true
      | S754_infinity _ | S754_nan => false
      end
  | _ => true
  end.

Definition state_fields (s : CameraState.t) : list pyval :=
  to_pose_list s
  ++ [CameraParams.zoom (CameraState.camera_params s);
      CameraParams.focal_distance (CameraState.camera_params s);
      CameraParams.aperture (CameraState.camera_params s);
      CameraParams.exposure (CameraState.camera_params s)].

Definition state_finite (s : CameraState.t) : bool :=
  forallb finite_float (state_fields s).

(** [a == b] on camera states: the dataclasses compare field by field. *)
Definition state_eqb (a b : CameraState.t) : bool :=
  forallb (fun xy => py_eqb (fst xy) (snd xy))
          (zip (state_fields a) (state_fields b)).

(** ** The binding table *)

(** The keys of a dictionary are distinct, and each reverse map is the
    inverse of its forward map: no key is shared inside a table. *)
Definition table_consistent (h : KeyboardHandler.t) : Prop :=
  NoDup (KeyboardHandler.key_bindings h).*1
  /\ NoDup (KeyboardHandler.special_key_bindings h).*1
  /\ (forall pin vk,
        od_get (KeyboardHandler.key_bindings h) pin = Some vk
        <-> KeyboardHandler.vk_to_pin h !! vk = Some pin)
  /\ (forall action vk,
        od_get (KeyboardHandler.special_key_bindings h) action = Some vk
        <-> KeyboardHandler.vk_to_special h !! vk = Some action).

Definition pins_in_slots (h : KeyboardHandler.t) : Prop :=
  Forall (fun kv : Z * Z => 1 <= fst kv <= 9) (KeyboardHandler.key_bindings h).

(** A logical action: a pin slot or a named special action. *)
Inductive LogicalAction :=
| Slot (n : Z)
| Named (action : string).

(** The key an action is bound to, by the forward maps. *)
Definition bound_key (h : KeyboardHandler.t) (a : LogicalAction) : option Z :=
  match a with
  | Slot n => od_get (KeyboardHandler.key_bindings h) n
  | Named action => od_get (KeyboardHandler.special_key_bindings h) action
  end.

(** The action a key is dispatched to on release, by the reverse maps. *)
Definition key_owner (h : KeyboardHandler.t) (vk : Z) : option LogicalAction :=
  match KeyboardHandler.vk_to_pin h !! vk with
  | Some n => Some (Slot n)
  | None =>
      match KeyboardHandler.vk_to_special h !! vk with
      | Some action => Some (Named action)
      | None => None
      end
  end.

(** The entries of a table as [save_config] writes them. *)
Definition enc_pin (kv : Z * Z) : string * pyval :=
  (py_str_of_int (fst kv), PInt (snd kv)).

Definition enc_special (kv : string * Z) : string * pyval :=
  (fst kv, PInt (snd kv)).

(** Filling a table and its reverse map from a list of entries, as both
    loops of [load_config] do. *)
Definition fill {K : Type} `{EqDecision K} (items : list (K * Z))
    (t : list (K * Z) * gmap Z K) : list (K * Z) * gmap Z K :=
  fold_left (fun t kv => (od_set (fst t) (fst kv) (snd kv),
                          <[snd kv := fst kv]> (snd t)))
            items t.

(** The dictionary [save_config] builds, with its two tables given. *)
Definition config_dict (pins specials : pyval) (h : KeyboardHandler.t)
    : list (string * pyval) :=
  [("key_bindings_vk", pins); ("special_key_bindings_vk", specials);
   ("long_press_threshold", PFloat (KeyboardHandler.long_press_threshold h));
   ("flight_mode_enabled", PBool (KeyboardHandler.flight_mode_enabled h));
   ("lookatme_enabled", PBool (KeyboardHandler.lookatme_enabled h));
   ("version", PStr "1.0")].

(** ** Printed lines that tell which action a release triggered *)

Definition long_press_lines : list string :=
  ["Pin {pin_number} に現在状態を保存しました";
   "Pin {pin_number} への保存に失敗しました"].

Definition short_press_lines : list string :=
  ["Pin {pin_number} に移動しました";
   "Pin {pin_number} への移動に失敗しました"].

Definition count_lines (fmts : list string) (out : list Msg) : nat :=
  length (filter (fun m : Msg => fst m ∈ fmts) out).

(** The world once [vk] is no longer held: the key has left [pressed_keys]
    and its press time has been deleted. *)
Definition released (vk : Z) (w : World) : World :=
  let h := keyboard_handler w in
  with_keyboard_handler
    (KeyboardHandler.with_pressed
       (KeyboardHandler.pressed_keys h ∖ {[vk]})
       (delete vk (KeyboardHandler.key_press_times h)) h) w.

(** ** Worlds for the examples *)

Definition no_faults : Faults :=
  {| disk_fails := false; udp_fails := false; clipboard_fails := false |}.

(** The program before any file exists, with its objects as their
    constructors leave them. *)
Definition blank_world : World :=
  {| keyboard_handler :=
       KeyboardHandler.mk ∅ ∅ 0.8%float false [] ∅ [] ∅ false false;
     keyboard_attached := true;
     data_manager := CameraDataManager.mk [] [];
     osc_controller :=
       OSCController.mk "127.0.0.1" 9000
         (Some (SimpleUDPClient.mk "127.0.0.1" 9000));
     osc_receiver := OSCReceiver.mk None ∅ 0%float;
     config_file := None;
     data_file := None;
     clipboard := PlainText "";
     stdout := [];
     udp_sent := [];
     faults := no_faults |}.

(** The handler with the default bindings. *)
Definition default_world : World := setup_default_bindings blank_world.

(** The default world on a network whose sends raise. *)
Definition unreachable_world : World :=
  mkWorld (keyboard_handler default_world) true (data_manager default_world)
          (osc_controller default_world) (osc_receiver default_world)
          (config_file default_world) None (PlainText "") [] []
          {| disk_fails := false; udp_fails := true; clipboard_fails := false |}.

(** The default world without python-osc: the controller has no client. *)
Definition offline_world : World :=
  mkWorld (keyboard_handler default_world) true (data_manager default_world)
          (OSCController.mk "127.0.0.1" 9000 None) (osc_receiver default_world)
          (config_file default_world) None (PlainText "") [] [] no_faults.

(** The default world after the four special bindings have been removed. *)
Definition no_specials_world : World :=
  fold_left (fun w action => snd (remove_special_key_binding action w))
            valid_actions default_world.

(** Numpad 1 (key 97, bound to slot 1) held down since time 0. *)
Definition holding_world : World := _handle_key_press 97 0%float default_world.

(** The default world after one full pose message has been received. *)
Definition posed_world : World :=
  _handle_pose [PFloat 1; PFloat 2.5; PFloat (-3); PFloat 0; PFloat 90; PFloat 0]
               10%float default_world.

(** Numpad decimal (key 110, bound to [copy_current]) held down since time
    0, with a pose received. *)
Definition holding_special_world : World :=
  _handle_key_press 110 0%float posed_world.

(** A stand-in for the interpreter in the closed examples: [float] of a
    string reads integer literals only, and [str] is exact on strings,
    integers, booleans and [None]. *)
Definition example_builtins : Builtins :=
  {| float_of_str := fun s =>
       match py_int_of_str s with
       | Returned z =>
           match py_float_of_int z with Returned f => Some f | Raised _ => None end
       | Raised _ => None
       end;
     py_str := fun v =>
       match v with
       | PStr s => s
       | PInt z => py_str_of_int z
       | PBool b => if b then "True" else "False"
       | PNone => "None"
       | _ => ""
       end |}.

(** Parameters at the edges: a zoom above its range, a NaN, an integer. *)
Definition edge_params : CameraParams.t :=
  CameraParams.mk (PFloat 200) (PFloat nan) (PInt 8) (PFloat (-0.5)).

Definition sample_state : CameraState.t :=
  CameraState.mk (Position.mk (PFloat 1) (PFloat 2.5) (PFloat (-3)))
                 (Rotation.mk (PFloat 0) (PFloat 90) (PFloat 0))
                 (CameraParams.mk (PFloat 45) (PFloat 1.5) (PFloat 15) (PFloat 0)).

(** ** Sequences of binding operations *)

(** What the settings dialog can ask of the handler. *)
Inductive BindOp :=
| OpSetKey (pin : Z) (key : KeyObj)
| OpSetSpecial (action : string) (key : KeyObj)
| OpRemoveKey (pin : Z)
| OpRemoveSpecial (action : string)
| OpResetDefaults.

Definition run_op (op : BindOp) (w : World) : World :=
  match op with
  | OpSetKey pin key => snd (set_key_binding pin key w)
  | OpSetSpecial action key => snd (set_special_key_binding action key w)
  | OpRemoveKey pin => snd (remove_key_binding pin w)
  | OpRemoveSpecial action => snd (remove_special_key_binding action w)
  | OpResetDefaults => setup_default_bindings w
  end.

Definition run_ops (ops : list BindOp) (w : World) : World :=
  fold_left (fun w op => run_op op w) ops w.

(** A reverse map is backed by its table when each of its entries is the
    swap of an entry of the table. *)
Definition backed {K : Type} `{EqDecision K} (kb : list (K * Z)) (rev : gmap Z K)
    : Prop :=
  forall vk k, rev !! vk = Some k -> od_get kb k = Some vk.

(** What the dispatch on release relies on: every key of a reverse map is
    the key its action is bound to, no key is dispatched by both reverse
    maps, and the tables name slots 1-9 and the four special actions only. *)
Definition dispatch_sound (h : KeyboardHandler.t) : Prop :=
  NoDup (KeyboardHandler.key_bindings h).*1
  /\ NoDup (KeyboardHandler.special_key_bindings h).*1
  /\ backed (KeyboardHandler.key_bindings h) (KeyboardHandler.vk_to_pin h)
  /\ backed (KeyboardHandler.special_key_bindings h) (KeyboardHandler.vk_to_special h)
  /\ (forall vk, is_Some (KeyboardHandler.vk_to_pin h !! vk) ->
                 KeyboardHandler.vk_to_special h !! vk = None)
  /\ pins_in_slots h
  /\ Forall (fun kv : string * Z => fst kv ∈ valid_actions)
            (KeyboardHandler.special_key_bindings h).

(** The two tables of a handler are those of another. *)
Definition same_tables (a b : KeyboardHandler.t) : Prop :=
  KeyboardHandler.key_bindings a = KeyboardHandler.key_bindings b
  /\ KeyboardHandler.vk_to_pin a = KeyboardHandler.vk_to_pin b
  /\ KeyboardHandler.special_key_bindings a = KeyboardHandler.special_key_bindings b
  /\ KeyboardHandler.vk_to_special a = KeyboardHandler.vk_to_special b.

(** The default world after slot 1 has been bound to the key of slot 2,
    unbound again, and that key given to [copy_current]. *)
Definition rebinding_ops : list BindOp :=
  [OpSetKey 1 (KeyCode (Some 98)); OpRemoveKey 1;
   OpSetSpecial "copy_current" (KeyCode (Some 98))].

(** ** Loading a configuration *)

(** A step keeps a relation between the handler before and after it,
    whether it completes or raises. *)
Definition keeps (R : KeyboardHandler.t -> KeyboardHandler.t -> Prop) (s : step)
    : Prop :=
  forall w, R (keyboard_handler w) (keyboard_handler (s w).2).

(** The configuration file gives no binding tables: it is absent, it is not
    a JSON document, or the document lacks one of the two tables. *)
Definition no_usable_tables (f : option text) : Prop :=
  match f with
  | None => True
  | Some content =>
      match json_loads content with
      | Raised _ => True
      | Returned data =>
          py_in "key_bindings_vk" data = Returned false
          \/ py_in "special_key_bindings_vk" data = Returned false
      end
  end.

(** A configuration as the settings dialog writes it: the tables are under
    other names and hold display names. *)
Definition dialog_items : list (string * pyval) :=
  [("key_bindings", PDict [("1", PStr "F1")]);
   ("special_key_bindings", PDict [("copy_current", PStr "F5")]);
   ("long_press_threshold", PFloat 1.2);
   ("version", PStr "3.0")].

Definition dialog_config : pyval := PDict dialog_items.

(** A first start on a disk that holds the dialog's file. *)
Definition dialog_file_world : World :=
  with_config_file (Some (json_dumps dialog_config)) blank_world.

(** A configuration whose pin table names a slot out of range, a slot that
    is not a number, and a key that is not a number. *)
Definition ragged_config : pyval :=
  PDict [("key_bindings_vk",
          PDict [("12", PInt 70); ("x", PInt 71); ("2", PStr "oops"); ("3", PInt 72)])].

(** ** Sequences of key events *)

(** What the listener delivers. *)
Inductive KeyEvent :=
| KeyPress (key : KeyObj) (now : float)
| KeyRelease (key : KeyObj) (now : float).

Definition run_event (ev : KeyEvent) (w : World) : World :=
  match ev with
  | KeyPress key now => _on_press key now w
  | KeyRelease key now => _on_release key now w
  end.

Definition run_events (evs : list KeyEvent) (w : World) : World :=
  fold_left (fun w ev => run_event ev w) evs w.

(** The keys that are held are the keys that have a press time. *)
Definition held_keys_timed (h : KeyboardHandler.t) : Prop :=
  forall vk, vk ∈ KeyboardHandler.pressed_keys h
             <-> is_Some (KeyboardHandler.key_press_times h !! vk).

(** Two handlers differ at most in the two feature flags. *)
Definition only_flags_differ (a b : KeyboardHandler.t) : Prop :=
  KeyboardHandler.pressed_keys a = KeyboardHandler.pressed_keys b
  /\ KeyboardHandler.key_press_times a = KeyboardHandler.key_press_times b
  /\ KeyboardHandler.long_press_threshold a = KeyboardHandler.long_press_threshold b
  /\ KeyboardHandler.is_monitoring a = KeyboardHandler.is_monitoring b
  /\ same_tables a b.

(** Numpad 1 and numpad decimal are pressed, numpad 1 is released after a
    long hold, a key without a VK code is released, and numpad 5 is
    tapped. *)
Definition sample_events : list KeyEvent :=
  [KeyPress (KeyCode (Some 97)) 0%float; KeyPress (KeyCode (Some 110)) 0.1%float;
   KeyRelease (KeyCode (Some 97)) 1%float; KeyRelease (Key "shift") 1.5%float;
   KeyPress (KeyCode (Some 101)) 2%float; KeyRelease (KeyCode (Some 101)) 2.2%float].

(** ** Inbound OSC messages *)

(** A message on one of the seven addresses that [_initialize_receiver]
    maps, with its arguments; a pose message carries the time of its
    arrival. *)
Inductive OscMessage :=
| OscPose (args : list pyval) (now : float)
| OscZoom (args : list pyval)
| OscFocalDistance (args : list pyval)
| OscAperture (args : list pyval)
| OscExposure (args : list pyval)
| OscFlying (args : list pyval)
| OscLookAtMe (args : list pyval).

Definition deliver `{Builtins} (m : OscMessage) (w : World) : World :=
  match m with
  | OscPose args now => _handle_pose args now w
  | OscZoom args => _handle_zoom args w
  | OscFocalDistance args => _handle_focal_distance args w
  | OscAperture args => _handle_aperture args w
  | OscExposure args => _handle_exposure args w
  | OscFlying args => _handle_flying args w
  | OscLookAtMe args => _handle_lookatme args w
  end.

Definition deliver_all `{Builtins} (ms : list OscMessage) (w : World) : World :=
  fold_left (fun w m => deliver m w) ms w.

(** A pose message that the receiver accepts. *)
Definition full_pose (m : OscMessage) : bool :=
  match m with
  | OscPose args _ => 6 <=? Z.of_nat (length args)
  | _ => false
  end.

(** A camera state with its parameters replaced. *)
Definition with_camera_params (f : CameraParams.t -> CameraParams.t)
    (s : CameraState.t) : CameraState.t :=
  CameraState.mk (CameraState.position s) (CameraState.rotation s)
                 (f (CameraState.camera_params s)).

Definition set_zoom (v : pyval) (c : CameraParams.t) : CameraParams.t :=
  CameraParams.mk v (CameraParams.focal_distance c) (CameraParams.aperture c)
                  (CameraParams.exposure c).

Definition set_focal_distance (v : pyval) (c : CameraParams.t) : CameraParams.t :=
  CameraParams.mk (CameraParams.zoom c) v (CameraParams.aperture c)
                  (CameraParams.exposure c).

Definition set_aperture (v : pyval) (c : CameraParams.t) : CameraParams.t :=
  CameraParams.mk (CameraParams.zoom c) (CameraParams.focal_distance c) v
                  (CameraParams.exposure c).

Definition set_exposure (v : pyval) (c : CameraParams.t) : CameraParams.t :=
  CameraParams.mk (CameraParams.zoom c) (CameraParams.focal_distance c)
                  (CameraParams.aperture c) v.

(** Parameter and flag messages before any pose, one of them malformed. *)
Definition early_messages : list OscMessage :=
  [OscZoom [PInt 60]; OscFlying [PBool true]; OscPose [PFloat 1; PFloat 2] 3%float;
   OscExposure [PStr "bright"]; OscAperture []].

(** ** Applying a state to the camera *)

(** The five messages that apply a state, in the order they are sent. *)
Definition state_messages (s : CameraState.t) : list (string * pyval) :=
  let c := CameraState.camera_params s in
  [("/usercamera/Pose", PList (to_pose_list s));
   ("/usercamera/Zoom", CameraParams.zoom c);
   ("/usercamera/FocalDistance", CameraParams.focal_distance c);
   ("/usercamera/Aperture", CameraParams.aperture c);
   ("/usercamera/Exposure", CameraParams.exposure c)].

(** The network can be reached: the controller has a client and its
    socket does not raise. *)
Definition can_send (w : World) : Prop :=
  OSCController.client (osc_controller w) <> None /\ udp_fails (faults w) = false.

(** A pose received with the zoom far out of range. *)
Definition zoomed_world : World :=
  @_handle_zoom example_builtins [PInt 500] posed_world.

(** ** The pin store and its file *)

(** A state the validator leaves as it is. *)
Definition validated (s : CameraState.t) : Prop :=
  validate_camera_params (CameraState.camera_params s)
  = Returned (CameraState.camera_params s).

(** The pin store as the manager's methods keep it: the slots are distinct
    and in 1-9, every stored state is validated, and so are the slots of
    the descriptions. *)
Definition store_wf (m : CameraDataManager.t) : Prop :=
  NoDup (CameraDataManager.pin_states m).*1
  /\ Forall (fun kv : Z * CameraState.t => 1 <= fst kv <= 9 /\ validated (snd kv))
            (CameraDataManager.pin_states m)
  /\ NoDup (CameraDataManager.descriptions m).*1
  /\ Forall (fun kv : Z * string => 1 <= fst kv <= 9)
            (CameraDataManager.descriptions m).

(** What the program asks of the manager. *)
Inductive StoreOp :=
| OpSavePin (pin : Z) (state : CameraState.t) (description : string)
| OpDeletePin (pin : Z)
| OpSetDescription (pin : Z) (description : string)
| OpLoadData.

Definition run_store_op `{Builtins} (op : StoreOp) (w : World) : World :=
  match op with
  | OpSavePin pin state description => snd (save_pin_state pin state description w)
  | OpDeletePin pin => snd (delete_pin_state pin w)
  | OpSetDescription pin description => set_description pin description w
  | OpLoadData => load_data w
  end.

Definition run_store_ops `{Builtins} (ops : list StoreOp) (w : World) : World :=
  fold_left (fun w op => run_store_op op w) ops w.

(** The entries of the pin file as [save_data] writes them. *)
Definition enc_state (kv : Z * CameraState.t) : string * pyval :=
  (py_str_of_int (fst kv), to_dict (snd kv)).

Definition enc_description (kv : Z * string) : string * pyval :=
  (py_str_of_int (fst kv), PStr (snd kv)).

(** A store with two pins, one of them described, then one deleted. *)
Definition sample_store_ops : list StoreOp :=
  [OpSavePin 3 (with_camera_params (set_zoom (PFloat 500)) sample_state) " gate ";
   OpSavePin 12 sample_state "out of range";
   OpSavePin 7 sample_state "";
   OpSetDescription 7 "tower";
   OpDeletePin 3].

Definition sample_store_world : World :=
  run_store_ops (H := example_builtins) sample_store_ops blank_world.

(** ** Received parameters *)

(** The four camera parameters the receiver has cached are floats. *)
Definition params_are_floats (w : World) : Prop :=
  forall key, key ∈ ["zoom"; "focal_distance"; "aperture"; "exposure"] ->
    forall v, OSCReceiver.current_params (osc_receiver w) !! key = Some v ->
      exists f, v = PFloat f.

(** Messages of every kind, the pose among them. *)
Definition mixed_messages : list OscMessage :=
  [OscZoom [PInt 500]; OscExposure [PStr "bright"]; OscFlying [PInt 1];
   OscPose [PFloat 1; PFloat 2.5; PFloat (-3); PFloat 0; PFloat 90; PFloat 0] 3%float;
   OscAperture [PBool true; PNone]].

(** The default world on a disk that cannot be written. *)
Definition read_only_world : World :=
  mkWorld (keyboard_handler default_world) true (data_manager default_world)
          (osc_controller default_world) (osc_receiver default_world)
          (config_file default_world) None (PlainText "") [] []
          {| disk_fails := true; udp_fails := false; clipboard_fails := false |}.

(* ===================================================================== *)
(** * Facts about the built-ins *)
(* ===================================================================== *)

(** ** Comparisons of doubles, through their specification *)

Lemma SFcompare_refl x : x <> S754_nan -> SFcompare x x = Some Eq.
Proof.
  destruct x as [s|s| |s m e]; simpl; intros Hn; try congruence.
  - destruct s; reflexivity.
  - rewrite Z.compare_refl, Pos.compare_cont_refl. destruct s; reflexivity.
Qed.

Lemma SFcompare_Eq_sym x y : SFcompare x y = Some Eq -> SFcompare y x = Some Eq.
Proof.
  destruct x as [s|s| |s m e], y as [s'|s'| |s' m' e']; simpl;
    try discriminate; try reflexivity;
    try (destruct s; discriminate); try (destruct s'; discriminate).
  - destruct s, s'; try discriminate; reflexivity.
  - intros Hc.
    assert (He : e = e' /\ m = m').
    { destruct s, s'; try discriminate;
        destruct (e ?= e') eqn:E; try discriminate;
        apply Z.compare_eq in E; split; auto.
      - injection Hc as Hc.
        destruct (Pos.compare_cont Eq m m') eqn:P; try discriminate.
        now apply Pos.compare_eq in P.
      - injection Hc as Hc. now apply Pos.compare_eq in Hc. }
    destruct He as [-> ->].
    rewrite Z.compare_refl, Pos.compare_cont_refl.
    destruct s, s'; try discriminate; reflexivity.
Qed.

Lemma float_ltb_leb x y : (x <? y)%float = true -> (x <=? y)%float = true.
Proof.
  rewrite FloatAxioms.ltb_spec, FloatAxioms.leb_spec. unfold SFltb, SFleb.
  destruct (SFcompare _ _) as [[]|]; congruence.
Qed.

Lemma float_leb_eqb x y :
  (x <=? y)%float = true -> (x <? y)%float = false -> (x =? y)%float = true.
Proof.
  rewrite FloatAxioms.ltb_spec, FloatAxioms.leb_spec, FloatAxioms.eqb_spec.
  unfold SFltb, SFleb, SFeqb.
  destruct (SFcompare _ _) as [[]|]; congruence.
Qed.

Lemma float_eqb_sym x y : (x =? y)%float = true -> (y =? x)%float = true.
Proof.
  rewrite !FloatAxioms.eqb_spec. unfold SFeqb.
  destruct (SFcompare (Prim2SF x) _) as [[]|] eqn:E; try discriminate.
  now rewrite (SFcompare_Eq_sym _ _ E).
Qed.

Lemma float_leb_refl_r x y : (x <=? y)%float = true -> (y =? y)%float = true.
Proof.
  rewrite FloatAxioms.leb_spec, FloatAxioms.eqb_spec. unfold SFleb, SFeqb.
  intros Hc. rewrite SFcompare_refl; auto.
  intros Hn. rewrite Hn in Hc. destruct (Prim2SF x); simpl in Hc; discriminate.
Qed.

Lemma finite_float_eqb v :
  finite_float v = true -> is_number v = true -> py_eqb v v = true.
Proof.
  destruct v as [|b|n|f| | |]; try discriminate; cbn.
  - intros _ _. apply Z.eqb_refl.
  - intros _ _. apply Z.eqb_refl.
  - rewrite FloatAxioms.eqb_spec. unfold SFeqb. intros Hf _.
    rewrite SFcompare_refl; [reflexivity|].
    intros Hn. now rewrite Hn in Hf.
Qed.

(** ** Comparisons of numbers *)

Lemma num_ltb_leb a b : num_ltb a b = true -> num_leb a b = true.
Proof.
  destruct a as [x|x], b as [y|y]; simpl.
  - rewrite Z.ltb_lt, Z.leb_le. lia.
  - destruct (cmp_int_float x y) as [[]|]; congruence.
  - destruct (cmp_int_float y x) as [[]|]; congruence.
  - apply float_ltb_leb.
Qed.

Lemma num_leb_eqb a b :
  num_leb a b = true -> num_ltb a b = false -> num_eqb a b = true.
Proof.
  destruct a as [x|x], b as [y|y]; simpl.
  - rewrite Z.leb_le, Z.ltb_ge, Z.eqb_eq. lia.
  - destruct (cmp_int_float x y) as [[]|]; congruence.
  - destruct (cmp_int_float y x) as [[]|]; congruence.
  - apply float_leb_eqb.
Qed.

Lemma num_eqb_sym a b : num_eqb a b = true -> num_eqb b a = true.
Proof.
  destruct a as [x|x], b as [y|y]; simpl; auto.
  - rewrite !Z.eqb_eq. auto.
  - apply float_eqb_sym.
Qed.

Lemma num_leb_refl_r a b : num_leb (NFloat a) b = true -> num_eqb b b = true.
Proof.
  destruct b as [y|y]; simpl.
  - intros _. apply Z.eqb_refl.
  - apply float_leb_refl_r.
Qed.

Lemma py_min_number a v n :
  as_number v = Some n ->
  py_min (PFloat a) v = Returned (if num_ltb n (NFloat a) then v else PFloat a).
Proof. intros En. unfold py_min, py_lt. rewrite En. reflexivity. Qed.

Lemma py_max_number a v n :
  as_number v = Some n ->
  py_max (PFloat a) v = Returned (if num_ltb (NFloat a) n then v else PFloat a).
Proof. intros En. unfold py_max, py_gt, py_lt. rewrite En. reflexivity. Qed.

(** ** [int(str(n))] on the pin slots *)

Lemma int_of_str_of_slot p :
  1 <= p <= 9 -> py_int_of_str (py_str_of_int p) = Returned p.
Proof.
  intros Hp.
  assert (Hc : p = 1 \/ p = 2 \/ p = 3 \/ p = 4 \/ p = 5
               \/ p = 6 \/ p = 7 \/ p = 8 \/ p = 9) by lia.
  repeat (destruct Hc as [->|Hc]; [reflexivity|]). subst. reflexivity.
Qed.

(** ** Ordered dictionaries *)

Section odict_facts.
Context {K V : Type} `{EqDecision K}.
Implicit Types (d items acc : list (K * V)) (k : K) (v : V).

Lemma od_get_elem_of d k v :
  NoDup d.*1 -> od_get d k = Some v <-> (k, v) ∈ d.
Proof.
  induction d as [|[k' v'] d IH]; cbn [od_get fmap list_fmap fst].
  - intros _. split; [discriminate|]. intros Hin. inversion Hin.
  - rewrite NoDup_cons. intros [Hk Hd]. case_decide as E.
    + subst k'. split.
      * intros [= ->]. left.
      * intros Hin. apply elem_of_cons in Hin as [[= ->]|Hin]; [done|].
        exfalso. apply Hk. apply list_elem_of_fmap. by exists (k, v).
    + rewrite (IH Hd). split.
      * by right.
      * intros Hin. apply elem_of_cons in Hin as [[= -> ->]|Hin]; done.
Qed.

Lemma od_get_set_eq d k v : od_get (od_set d k v) k = Some v.
Proof.
  induction d as [|[k' v'] d IH]; cbn [od_set od_get].
  - by rewrite decide_True.
  - destruct (decide (k = k')) as [->|Hne]; cbn [od_get].
    + by rewrite decide_True.
    + by rewrite decide_False.
Qed.

Lemma od_set_fresh d k v : k ∉ d.*1 -> od_set d k v = d ++ [(k, v)].
Proof.
  induction d as [|[k' v'] d IH]; cbn [od_set fmap list_fmap fst app]; [done|].
  rewrite not_elem_of_cons. intros [Hne Hd]. case_decide; [done|].
  by rewrite IH.
Qed.

Lemma od_fold_set_fresh items acc :
  NoDup (acc ++ items).*1 ->
  fold_left (fun d kv => od_set d (fst kv) (snd kv)) items acc = acc ++ items.
Proof.
  revert acc. induction items as [|[k v] items IH]; intros acc Hnd; cbn [fold_left].
  - by rewrite app_nil_r.
  - cbn [fst snd]. rewrite od_set_fresh.
    + rewrite IH; rewrite <- app_assoc; [done|]. exact Hnd.
    + rewrite fmap_app, NoDup_app in Hnd. destruct Hnd as (_ & Hdis & _).
      intros Hin. apply (Hdis _ Hin). left.
Qed.

Lemma od_of_list_NoDup items : NoDup items.*1 -> od_of_list items = items.
Proof. intros Hnd. unfold od_of_list. by rewrite od_fold_set_fresh. Qed.

Lemma Forall_od_set (P : K * V -> Prop) d k v :
  Forall P d -> P (k, v) -> Forall P (od_set d k v).
Proof.
  intros Hd Hv. induction Hd as [|[k' v'] d Hx Hd IH]; cbn [od_set].
  - by constructor.
  - case_decide; constructor; auto.
Qed.

Lemma Forall_od_del (P : K * V -> Prop) d k :
  Forall P d -> Forall P (od_del d k).
Proof.
  intros Hd. induction Hd as [|[k' v'] d Hx Hd IH]; cbn [od_del]; [constructor|].
  case_decide; [done|]. by constructor.
Qed.
End odict_facts.

(* ===================================================================== *)
(** * [CameraParamsValidator] and the pin store *)
(* ===================================================================== *)

(** The clamp of a number is in the range, and it is the number itself (up
    to [==]) when that was in the range already. *)
Lemma clamp_number range v :
  range_ok range = true -> is_number v = true ->
  exists r, clamp range v = Returned r
            /\ in_range range r = true
            /\ (in_range range v = true -> py_eqb r v = true).
Proof.
  destruct range as [lo hi]. unfold range_ok, is_number, in_range, clamp.
  cbn [fst snd]. rewrite !andb_true_iff. intros [[Hlo Hlt] Hhi] Hv.
  destruct (as_number v) as [n|] eqn:En; [|discriminate].
  assert (Hlh : (lo <=? hi)%float = true) by now apply float_ltb_leb.
  rewrite (py_min_number _ _ _ En). cbn [mbind outcome_bind].
  destruct (num_ltb n (NFloat hi)) eqn:E1.
  - rewrite (py_max_number _ _ _ En).
    destruct (num_ltb (NFloat lo) n) eqn:E2.
    + exists v. rewrite En. split; [reflexivity|]. split.
      * now rewrite (num_ltb_leb _ _ E1), (num_ltb_leb _ _ E2).
      * rewrite andb_true_iff. intros [Hl _]. unfold py_eqb. rewrite En.
        eapply num_leb_refl_r; eauto.
    + exists (PFloat lo). split; [reflexivity|]. split.
      * cbn. now rewrite Hlo, Hlh.
      * rewrite andb_true_iff. intros [Hl _]. unfold py_eqb.
        cbn [as_number]. rewrite En. now apply num_leb_eqb.
  - rewrite (py_max_number _ (PFloat hi) (NFloat hi) eq_refl).
    cbn [num_ltb]. rewrite Hlt.
    exists (PFloat hi). split; [reflexivity|]. split.
    + cbn. now rewrite Hlh, Hhi.
    + rewrite andb_true_iff. intros [_ Hh]. unfold py_eqb.
      cbn [as_number]. rewrite En. apply num_eqb_sym. now apply num_leb_eqb.
Qed.

(** A value that is not a number makes the comparison raise. *)
Lemma clamp_returns_number range v r :
  clamp range v = Returned r -> is_number v = true.
Proof.
  unfold clamp, py_min, py_lt, is_number.
  destruct (as_number v); [done|discriminate].
Qed.

Lemma clamp_in_range range v r :
  range_ok range = true -> clamp range v = Returned r -> in_range range r = true.
Proof.
  intros Hr Hc.
  destruct (clamp_number range v Hr (clamp_returns_number _ _ _ Hc))
    as (r' & Hc' & Hin & _).
  congruence.
Qed.

Lemma validate_returns_in_range p q :
  validate_camera_params p = Returned q -> params_in_range q = true.
Proof.
  unfold validate_camera_params, validate_zoom, validate_focal_distance,
    validate_aperture, validate_exposure.
  destruct (clamp ZOOM_RANGE _) as [z|] eqn:Ez; [|discriminate].
  destruct (clamp FOCAL_DISTANCE_RANGE _) as [f|] eqn:Ef; [|discriminate].
  destruct (clamp APERTURE_RANGE _) as [a|] eqn:Ea; [|discriminate].
  destruct (clamp EXPOSURE_RANGE _) as [e|] eqn:Ee; [|discriminate].
  cbn [mbind outcome_bind]. intros [= <-]. unfold params_in_range. cbn.
  by rewrite (clamp_in_range ZOOM_RANGE _ _ eq_refl Ez),
    (clamp_in_range FOCAL_DISTANCE_RANGE _ _ eq_refl Ef),
    (clamp_in_range APERTURE_RANGE _ _ eq_refl Ea),
    (clamp_in_range EXPOSURE_RANGE _ _ eq_refl Ee).
Qed.

(** C6. For every [CameraParams] whose fields are numbers (any [float],
    NaN and the infinities included, or an [int]),
    [validate_camera_params] returns the parameters with each field clamped
    on its own by its validator into its fixed range: zoom into [20, 150],
    focal distance into [0, 10], aperture into [1.4, 32], exposure into
    [-10, 4].  Every field of the result lies in its range, and the result
    equals the input when every input field was in range already. *)
Theorem validate_camera_params_clamps (p : CameraParams.t) :
  params_numeric p = true ->
  (ZOOM_RANGE, FOCAL_DISTANCE_RANGE, APERTURE_RANGE, EXPOSURE_RANGE)
  = ((20, 150), (0, 10), (1.4, 32), (-10, 4))%float
  /\ exists q,
      validate_camera_params p = Returned q
      /\ validate_zoom (CameraParams.zoom p) = Returned (CameraParams.zoom q)
      /\ validate_focal_distance (CameraParams.focal_distance p)
         = Returned (CameraParams.focal_distance q)
      /\ validate_aperture (CameraParams.aperture p)
         = Returned (CameraParams.aperture q)
      /\ validate_exposure (CameraParams.exposure p)
         = Returned (CameraParams.exposure q)
      /\ in_range ZOOM_RANGE (CameraParams.zoom q) = true
      /\ in_range FOCAL_DISTANCE_RANGE (CameraParams.focal_distance q) = true
      /\ in_range APERTURE_RANGE (CameraParams.aperture q) = true
      /\ in_range EXPOSURE_RANGE (CameraParams.exposure q) = true
      /\ (params_in_range p = true -> params_eqb q p = true).
Proof.
  unfold params_numeric. rewrite !andb_true_iff. intros [[[Hz Hf] Ha] He].
  split; [reflexivity|].
  destruct (clamp_number ZOOM_RANGE _ eq_refl Hz) as (z & Ez & Rz & Qz).
  destruct (clamp_number FOCAL_DISTANCE_RANGE _ eq_refl Hf) as (f & Ef & Rf & Qf).
  destruct (clamp_number APERTURE_RANGE _ eq_refl Ha) as (a & Ea & Ra & Qa).
  destruct (clamp_number EXPOSURE_RANGE _ eq_refl He) as (e & Ee & Re & Qe).
  exists (CameraParams.mk z f a e).
  unfold validate_camera_params, validate_zoom, validate_focal_distance,
    validate_aperture, validate_exposure.
  rewrite Ez, Ef, Ea, Ee.
  cbn [mbind outcome_bind CameraParams.zoom CameraParams.focal_distance
       CameraParams.aperture CameraParams.exposure].
  repeat split; try assumption.
  unfold params_in_range, params_eqb. rewrite !andb_true_iff.
  intros [[[? ?] ?] ?]. cbn. rewrite Qz, Qf, Qa, Qe; auto.
Qed.

Lemma validate_camera_params_clamps_witness :
  params_numeric edge_params = true
  /\ exists q, validate_camera_params edge_params = Returned q
               /\ in_range ZOOM_RANGE (CameraParams.zoom q) = true
               /\ in_range FOCAL_DISTANCE_RANGE (CameraParams.focal_distance q) = true.
Proof.
  split; [reflexivity|].
  destruct (validate_camera_params_clamps edge_params eq_refl)
    as (_ & q & Hq & _ & _ & _ & _ & Hz & Hf & _).
  exists q. repeat split; assumption.
Defined.

(** What the validator does at the edges: a zoom above the range and a NaN go
    to the upper bound, an integer in range is kept as it is. *)
Example validate_camera_params_edges :
  validate_camera_params edge_params
  = Returned (CameraParams.mk (PFloat 150) (PFloat 10) (PInt 8) (PFloat (-0.5))).
Proof. reflexivity. Qed.

Section store.
Context `{Builtins}.

Lemma data_manager_save_data w : data_manager (save_data w) = data_manager w.
Proof. unfold save_data. by destruct (disk_fails _). Qed.

Lemma store_ok_ext w w' :
  data_manager w' = data_manager w -> store_ok w -> store_ok w'.
Proof. unfold store_ok. by intros ->. Qed.

Lemma store_ok_set_descriptions ds w :
  store_ok w -> store_ok (set_descriptions ds w).
Proof. done. Qed.

Lemma save_pin_state_store_ok pin st desc w :
  store_ok w -> store_ok (save_pin_state pin st desc w).2.
Proof.
  intros Hw. unfold save_pin_state.
  destruct (negb _); [done|].
  destruct (validate_camera_params _) as [q|e] eqn:Ev; [|done].
  cbn [snd]. apply (store_ok_ext _ _ (data_manager_save_data _)).
  assert (Hs : store_ok (set_pin_states
     (od_set (CameraDataManager.pin_states (data_manager w)) pin
        (CameraState.mk (CameraState.position st) (CameraState.rotation st) q)) w)).
  { unfold store_ok. cbn. apply Forall_od_set; [done|].
    cbn. unfold state_ok. cbn. by eapply validate_returns_in_range. }
  destruct (negb (String.eqb _ _)); [by apply store_ok_set_descriptions|done].
Qed.

Lemma save_pin_state_rejects pin st desc w :
  ~ (1 <= pin <= 9) -> save_pin_state pin st desc w = (false, w).
Proof.
  intros Hp. unfold save_pin_state.
  replace ((1 <=? pin) && (pin <=? 9)) with false; [done|].
  symmetry. apply andb_false_iff. lia.
Qed.

Lemma save_pin_state_stored pin st desc w w' :
  save_pin_state pin st desc w = (true, w') ->
  exists q, validate_camera_params (CameraState.camera_params st) = Returned q
    /\ load_pin_state pin w'
       = Some (CameraState.mk (CameraState.position st) (CameraState.rotation st) q).
Proof.
  unfold save_pin_state. destruct (negb _); [discriminate|].
  destruct (validate_camera_params _) as [q|e]; [|discriminate].
  intros [= <-]. exists q. split; [done|].
  unfold load_pin_state. rewrite data_manager_save_data.
  destruct (negb (String.eqb _ _)); cbn; apply od_get_set_eq.
Qed.

Lemma delete_pin_state_store_ok pin w :
  store_ok w -> store_ok (delete_pin_state pin w).2.
Proof.
  intros Hw. unfold delete_pin_state. destruct (od_mem _ _); [|done].
  cbn [snd]. apply (store_ok_ext _ _ (data_manager_save_data _)).
  apply store_ok_set_descriptions. unfold store_ok. cbn. by apply Forall_od_del.
Qed.

Lemma load_one_pin_store_ok pin_str state_data w w' :
  store_ok w -> load_one_pin pin_str state_data w = Returned w' -> store_ok w'.
Proof.
  intros Hw. unfold load_one_pin.
  destruct (py_int_of_str pin_str) as [pin|]; [|discriminate].
  cbn [mbind outcome_bind].
  destruct ((1 <=? pin) && (pin <=? 9)); [|by intros [= <-]].
  destruct (from_dict state_data) as [st|]; [|discriminate].
  cbn [mbind outcome_bind].
  destruct (validate_camera_params _) as [q|] eqn:Ev; [|discriminate].
  cbn [mbind outcome_bind].
  intros [= <-]. unfold store_ok. cbn. apply Forall_od_set; [done|].
  cbn. unfold state_ok. cbn. by eapply validate_returns_in_range.
Qed.

Lemma load_pins_store_ok items w :
  store_ok w -> store_ok (load_pins items w).2.
Proof.
  revert w. induction items as [|[pin_str state_data] items IH]; intros w Hw; [done|].
  cbn [load_pins]. destruct (load_one_pin _ _ _) as [w'|e] eqn:E.
  - apply IH. by eapply load_one_pin_store_ok.
  - destruct (catches _ e); [by apply IH|done].
Qed.

Lemma load_one_description_store_ok pin_str desc w w' :
  store_ok w -> load_one_description pin_str desc w = Returned w' -> store_ok w'.
Proof.
  intros Hw. unfold load_one_description.
  destruct (py_int_of_str pin_str) as [pin|]; [|discriminate].
  cbn [mbind outcome_bind].
  destruct ((1 <=? pin) && (pin <=? 9)); by intros [= <-].
Qed.

Lemma load_descriptions_store_ok items w :
  store_ok w -> store_ok (load_descriptions items w).2.
Proof.
  revert w. induction items as [|[pin_str desc] items IH]; intros w Hw; [done|].
  cbn [load_descriptions]. destruct (load_one_description _ _ _) as [w'|e] eqn:E.
  - apply IH. by eapply load_one_description_store_ok.
  - destruct (catches _ e); [by apply IH|done].
Qed.

Lemma load_data_store_ok w : store_ok w -> store_ok (load_data w).
Proof.
  intros Hw. unfold load_data.
  assert (Hb : store_ok (load_data_body w).2).
  { unfold load_data_body. destruct (data_file w); [|done].
    destruct (json_loads _) as [data|]; [|done].
    destruct (_ ≫= _) as [poses|]; [|done].
    pose proof (load_pins_store_ok poses w Hw) as Hp.
    destruct (load_pins poses w) as [[e|] w1]; [done|]. cbn [snd] in Hp.
    destruct (_ ≫= _) as [descs|]; [|done].
    by apply load_descriptions_store_ok. }
  destruct (load_data_body w) as [[e|] w1]; done.
Qed.

(** C10. Every state held in the pin store has camera parameters within the
    validation ranges, and every operation that mutates the store keeps it
    so: [save_pin_state] stores the state with its parameters clamped (and
    its position and rotation as given), and leaves the world as it was for
    a pin number outside 1-9; [load_data] clamps every pin it loads;
    [delete_pin_state] only removes; the constructor starts from the empty
    store and loads. *)
Theorem pin_store_stays_in_range (w : World) :
  store_ok w ->
  (forall pin st desc,
      store_ok (save_pin_state pin st desc w).2
      /\ (~ (1 <= pin <= 9) -> save_pin_state pin st desc w = (false, w))
      /\ (forall w', save_pin_state pin st desc w = (true, w') ->
            exists st',
              load_pin_state pin w' = Some st'
              /\ state_ok st' = true
              /\ CameraState.position st' = CameraState.position st
              /\ CameraState.rotation st' = CameraState.rotation st
              /\ validate_camera_params (CameraState.camera_params st)
                 = Returned (CameraState.camera_params st')))
  /\ store_ok (load_data w)
  /\ (forall pin, store_ok (delete_pin_state pin w).2)
  /\ (forall w0, store_ok (CameraDataManager_init w0)).
Proof.
  intros Hw. repeat split.
  - by apply save_pin_state_store_ok.
  - apply save_pin_state_rejects.
  - intros w' Hs. destruct (save_pin_state_stored _ _ _ _ _ Hs) as (q & Hq & Hl).
    eexists. split; [exact Hl|]. repeat split; try done.
    unfold state_ok. cbn. by eapply validate_returns_in_range.
  - by apply load_data_store_ok.
  - intros pin. by apply delete_pin_state_store_ok.
  - intros w0. apply load_data_store_ok. constructor.
Qed.

End store.

Lemma pin_store_stays_in_range_witness :
  store_ok blank_world
  /\ store_ok (save_pin_state 3 sample_state "" blank_world).2
  /\ store_ok (@load_data example_builtins blank_world).
Proof.
  assert (Hw : store_ok blank_world) by constructor.
  destruct (@pin_store_stays_in_range example_builtins blank_world Hw)
    as (Hsave & Hload & _).
  split; [exact Hw|]. split; [|exact Hload].
  exact (proj1 (Hsave 3 sample_state "")).
Defined.

(* ===================================================================== *)
(** * The binding table and its configuration file *)
(* ===================================================================== *)

Import KeyboardHandler.

Section tables.
Context {K : Type} `{EqDecision K}.
Implicit Types (items : list (K * Z)) (rev : gmap Z K).

Lemma fill_fst items t :
  (fill items t).1
  = fold_left (fun d kv => od_set d (fst kv) (snd kv)) items t.1.
Proof.
  revert t. induction items as [|kv items IH]; intros t; [done|].
  change (fill (kv :: items) t)
    with (fill items (od_set t.1 kv.1 kv.2, <[kv.2 := kv.1]> t.2)).
  by rewrite IH.
Qed.

Lemma fill_snd items t :
  (fill items t).2
  = fold_left (fun m kv => <[snd kv := fst kv]> m) items t.2.
Proof.
  revert t. induction items as [|kv items IH]; intros t; [done|].
  change (fill (kv :: items) t)
    with (fill items (od_set t.1 kv.1 kv.2, <[kv.2 := kv.1]> t.2)).
  by rewrite IH.
Qed.

(** When no value occurs under two keys, the reverse map built from the
    entries holds exactly the swapped entries. *)
Lemma reverse_lookup items :
  (forall k k' v, (k, v) ∈ items -> (k', v) ∈ items -> k = k') ->
  forall v k,
    fold_left (fun m kv => <[snd kv := fst kv]> m) items (∅ : gmap Z K) !! v
    = Some k
    <-> (k, v) ∈ items.
Proof.
  induction items as [|[k0 v0] items IH] using rev_ind; intros Hinj v k.
  - cbn. rewrite lookup_empty. split; [done|]. intros Hin; inversion Hin.
  - rewrite fold_left_app. cbn [fold_left fst snd].
    destruct (decide (v = v0)) as [->|Hne].
    + rewrite lookup_insert_eq. split.
      * intros [= ->]. apply elem_of_app. right. left.
      * intros Hin. f_equal. apply (Hinj _ _ v0); [|done].
        apply elem_of_app. right. left.
    + rewrite lookup_insert_ne by done. rewrite IH.
      * rewrite elem_of_app, list_elem_of_singleton. split; [tauto|].
        intros [Hin|[= -> ->]]; [exact Hin|done].
      * intros a b c Ha Hb. apply (Hinj a b c); apply elem_of_app; by left.
Qed.

Lemma NoDup_values_inj items :
  NoDup items.*2 ->
  forall k k' v, (k, v) ∈ items -> (k', v) ∈ items -> k = k'.
Proof.
  induction items as [|[k0 v0] items IH]; cbn [fmap list_fmap snd].
  - intros _ k k' v Hin. inversion Hin.
  - rewrite NoDup_cons. intros [Hv Hnd] k k' v Hin Hin'.
    apply elem_of_cons in Hin as [Hin|Hin];
      apply elem_of_cons in Hin' as [Hin'|Hin'].
    + congruence.
    + injection Hin as -> ->. exfalso. apply Hv.
      apply list_elem_of_fmap. by exists (k', v0).
    + injection Hin' as -> ->. exfalso. apply Hv.
      apply list_elem_of_fmap. by exists (k, v0).
    + by eapply IH.
Qed.

(** A table with distinct keys and distinct values, and the reverse map
    built from it, are inverse to each other. *)
Lemma fill_consistent items :
  NoDup items.*1 -> NoDup items.*2 ->
  forall k v,
    od_get items k = Some v
    <-> fold_left (fun m kv => <[snd kv := fst kv]> m) items (∅ : gmap Z K) !! v
        = Some k.
Proof.
  intros Hk Hv k v.
  rewrite reverse_lookup by (by apply NoDup_values_inj).
  by apply od_get_elem_of.
Qed.

Lemma reverse_rebuilt items rev :
  NoDup items.*1 ->
  (forall k v, od_get items k = Some v <-> rev !! v = Some k) ->
  fold_left (fun m kv => <[snd kv := fst kv]> m) items ∅ = rev.
Proof.
  intros Hnd Hcons. apply map_eq. intros v. apply option_eq. intros k.
  rewrite reverse_lookup.
  - by rewrite <- od_get_elem_of, Hcons.
  - intros a b c Ha Hb.
    apply od_get_elem_of in Ha, Hb; try done.
    apply Hcons in Ha, Hb. congruence.
Qed.
End tables.

Lemma load_pin_bindings_saved items h :
  Forall (fun kv : Z * Z => 1 <= fst kv <= 9) items ->
  load_pin_bindings (map enc_pin items) h
  = (None, let t := fill items (key_bindings h, vk_to_pin h) in
           with_pins (fst t) (snd t) h).
Proof.
  intros Hall. revert h. induction Hall as [|[p v] items Hp _ IH]; intros h.
  - destruct h; reflexivity.
  - cbn [map enc_pin fst snd load_pin_bindings]. cbn [fst] in Hp.
    unfold load_one_pin_binding. rewrite (int_of_str_of_slot p Hp).
    cbn [mbind outcome_bind py_int].
    replace ((1 <=? p) && (p <=? 9)) with true
      by (symmetry; apply andb_true_iff; lia).
    rewrite IH. reflexivity.
Qed.

Lemma load_special_bindings_saved items h :
  load_special_bindings (map enc_special items) h
  = (None, let t := fill items (special_key_bindings h, vk_to_special h) in
           with_specials (fst t) (snd t) h).
Proof.
  revert h. induction items as [|[a v] items IH]; intros h.
  - destruct h; reflexivity.
  - cbn [map enc_special fst snd load_special_bindings].
    unfold load_one_special_binding. cbn [mbind outcome_bind py_int].
    rewrite IH. reflexivity.
Qed.

(** [str] is injective on the pin slots, so the dictionary comprehension of
    [save_config] keeps every entry. *)
Lemma enc_pin_keys_NoDup items :
  Forall (fun kv : Z * Z => 1 <= fst kv <= 9) items ->
  NoDup items.*1 -> NoDup (map enc_pin items).*1.
Proof.
  intros Hall Hnd. induction Hall as [|[p v] items Hp Hall IH]; [constructor|].
  cbn in *. apply NoDup_cons in Hnd as [Hnotin Hnd]. apply NoDup_cons.
  split; [|auto].
  intros Hin. apply Hnotin.
  apply list_elem_of_fmap in Hin as [[s x] [Hs Hin]].
  apply list_elem_of_fmap in Hin as [[q u] [[= -> ->] Hin]]. cbn in Hs.
  rewrite Forall_forall in Hall. pose proof (Hall _ Hin) as Hq. cbn in Hq.
  assert (Returned p = Returned q) as [= ->].
  { rewrite <- (int_of_str_of_slot p Hp), <- (int_of_str_of_slot q Hq).
    by rewrite Hs. }
  apply list_elem_of_fmap. by exists (q, u).
Qed.

Lemma enc_special_keys items : (map enc_special items).*1 = items.*1.
Proof. induction items as [|[a v] items IH]; [done|]. cbn. by rewrite IH. Qed.

Lemma config_dict_get pins specials h :
  od_get (config_dict pins specials h) "long_press_threshold"
  = Some (PFloat (long_press_threshold h))
  /\ od_get (config_dict pins specials h) "key_bindings_vk" = Some pins
  /\ od_get (config_dict pins specials h) "special_key_bindings_vk" = Some specials
  /\ od_get (config_dict pins specials h) "flight_mode_enabled"
     = Some (PBool (flight_mode_enabled h))
  /\ od_get (config_dict pins specials h) "lookatme_enabled"
     = Some (PBool (lookatme_enabled h)).
Proof. repeat split; reflexivity. Qed.

Lemma keyboard_handler_save_config w :
  keyboard_handler (save_config w) = keyboard_handler w.
Proof. unfold save_config. by destruct (disk_fails _). Qed.

Section roundtrip.
Context `{Builtins}.

(** Loading the dictionary that [save_config] builds leaves the handler, and
    the world, exactly as they are. *)
Lemma load_saved_config_data w :
  let h := keyboard_handler w in
  table_consistent h -> pins_in_slots h ->
  key_bindings h <> [] -> special_key_bindings h <> [] ->
  load_config_data (config_data_of h) w = (None, w).
Proof.
  intros h (Hnd1 & Hnd2 & Hc1 & Hc2) Hslots Hne1 Hne2.
  unfold config_data_of. fold enc_pin. fold enc_special.
  rewrite (od_of_list_NoDup (map enc_pin _)) by (by apply enc_pin_keys_NoDup).
  rewrite (od_of_list_NoDup (map enc_special _)) by (by rewrite enc_special_keys).
  fold (config_dict (PDict (map enc_pin (key_bindings h)))
                    (PDict (map enc_special (special_key_bindings h))) h).
  destruct (config_dict_get (PDict (map enc_pin (key_bindings h)))
              (PDict (map enc_special (special_key_bindings h))) h)
    as (Gt & Gp & Gs & Gf & Gl).
  unfold load_config_data, and_then, load_threshold, load_table, load_flag,
    py_in, py_getitem, od_mem.
  rewrite Gt. cbn [mbind outcome_bind py_float].
  rewrite Gp. cbn [py_items]. rewrite load_pin_bindings_saved by done.
  rewrite Gs. cbn [py_items]. rewrite load_special_bindings_saved.
  rewrite Gf, Gl.
  subst h. destruct w as [h att dm ctl rcv cf df cb out sent fl].
  destruct h as [pk kt thr mon kb rev skb srev fm la].
  cbn -[fill] in Hnd1, Hnd2, Hc1, Hc2, Hne1, Hne2 |- *.
  rewrite !fill_fst, !fill_snd. cbn [fst snd].
  rewrite !od_fold_set_fresh by done. cbn [app].
  rewrite (reverse_rebuilt kb rev) by done.
  rewrite (reverse_rebuilt skb srev) by done.
  unfold default_if_incomplete. cbn.
  destruct kb; [done|]. destruct skb; [done|]. reflexivity.
Qed.

(** C5, amended.  For every binding table (the keys of each dictionary
    distinct, every reverse map the inverse of its forward map, pins over
    the slots 1-9) that has at least one pin binding and at least one
    special binding, and whatever the threshold and the two flags:
    [save_config], when the file can be written, followed by [load_config]
    from that file returns normally and leaves the handler exactly as it
    was, so both forward maps, both reverse maps, the threshold and the
    flags are reproduced. *)
Theorem config_save_then_load (w : World) :
  table_consistent (keyboard_handler w) ->
  pins_in_slots (keyboard_handler w) ->
  key_bindings (keyboard_handler w) <> [] ->
  special_key_bindings (keyboard_handler w) <> [] ->
  disk_fails (faults w) = false ->
  config_file (save_config w)
  = Some (json_dumps (config_data_of (keyboard_handler w)))
  /\ load_config None (save_config w) = (None, save_config w)
  /\ keyboard_handler (load_config None (save_config w)).2 = keyboard_handler w.
Proof.
  intros Hc Hs Hn1 Hn2 Hd.
  pose proof (keyboard_handler_save_config w) as Hk.
  assert (Hf : config_file (save_config w)
               = Some (json_dumps (config_data_of (keyboard_handler w)))).
  { unfold save_config. by rewrite Hd. }
  assert (Hl : load_config None (save_config w) = (None, save_config w)).
  { unfold load_config. rewrite Hf. cbn [json_loads json_dumps].
    pose proof (load_saved_config_data (save_config w)) as L.
    cbv zeta in L. rewrite Hk in L. by apply L. }
  split; [exact Hf|]. split; [exact Hl|]. by rewrite Hl.
Qed.

End roundtrip.

Lemma default_table_consistent : table_consistent (keyboard_handler default_world).
Proof.
  repeat split.
  - apply (bool_decide_unpack _). by vm_compute.
  - apply (bool_decide_unpack _). by vm_compute.
  - apply (fill_consistent (key_bindings (keyboard_handler default_world)));
      apply (bool_decide_unpack _); by vm_compute.
  - apply (fill_consistent (key_bindings (keyboard_handler default_world)));
      apply (bool_decide_unpack _); by vm_compute.
  - apply (fill_consistent (special_key_bindings (keyboard_handler default_world)));
      apply (bool_decide_unpack _); by vm_compute.
  - apply (fill_consistent (special_key_bindings (keyboard_handler default_world)));
      apply (bool_decide_unpack _); by vm_compute.
Qed.

Lemma default_pins_in_slots : pins_in_slots (keyboard_handler default_world).
Proof. apply (bool_decide_unpack _). by vm_compute. Qed.

Lemma config_save_then_load_witness :
  table_consistent (keyboard_handler default_world)
  /\ pins_in_slots (keyboard_handler default_world)
  /\ key_bindings (keyboard_handler default_world) <> []
  /\ special_key_bindings (keyboard_handler default_world) <> []
  /\ disk_fails (faults default_world) = false
  /\ @load_config example_builtins None (save_config default_world)
     = (None, save_config default_world).
Proof.
  pose proof default_table_consistent as Hc.
  pose proof default_pins_in_slots as Hs.
  assert (Hn1 : key_bindings (keyboard_handler default_world) <> []) by discriminate.
  assert (Hn2 : special_key_bindings (keyboard_handler default_world) <> [])
    by discriminate.
  split; [exact Hc|]. split; [exact Hs|]. split; [exact Hn1|].
  split; [exact Hn2|]. split; [reflexivity|].
  exact (proj1 (proj2 (@config_save_then_load example_builtins default_world
                         Hc Hs Hn1 Hn2 eq_refl))).
Defined.

Lemma no_specials_table_consistent :
  table_consistent (keyboard_handler no_specials_world).
Proof.
  split; [|split; [|split]].
  - apply (bool_decide_unpack _). by vm_compute.
  - constructor.
  - apply (fill_consistent (key_bindings (keyboard_handler no_specials_world)));
      apply (bool_decide_unpack _); by vm_compute.
  - intros action vk. split; [discriminate|].
    intros Hl. exfalso. revert Hl. vm_compute. discriminate.
Qed.

(** C5 as stated fails.  After the four special bindings have been removed
    the table has pin bindings only; [save_config] writes it, and
    [load_config] from that file puts the default bindings back, so the
    special bindings that were saved (none) are not the ones loaded. *)
Lemma config_roundtrip_counterexample :
  table_consistent (keyboard_handler no_specials_world)
  /\ pins_in_slots (keyboard_handler no_specials_world)
  /\ special_key_bindings (keyboard_handler no_specials_world) = []
  /\ special_key_bindings
       (keyboard_handler
          (@load_config example_builtins None (save_config no_specials_world)).2)
     = default_special_key_bindings
  /\ keyboard_handler
       (@load_config example_builtins None (save_config no_specials_world)).2
     <> keyboard_handler no_specials_world.
Proof.
  split; [exact no_specials_table_consistent|].
  split; [apply (bool_decide_unpack _); by vm_compute|].
  split; [reflexivity|]. split; [reflexivity|].
  intros Heq. apply (f_equal special_key_bindings) in Heq.
  revert Heq. vm_compute. discriminate.
Qed.

(** ** Binding a key that another action owns *)

(** A key owned by the other table is refused: the bind returns [False] and
    the handler and the configuration file stay as they are. *)
Lemma bind_refused_across_tables (w : World) (vk : Z) :
  (forall pin action,
     vk_to_special (keyboard_handler w) !! vk = Some action ->
     let r := set_key_binding pin (KeyCode (Some vk)) w in
     r.1 = false
     /\ keyboard_handler r.2 = keyboard_handler w
     /\ config_file r.2 = config_file w)
  /\ (forall action pin,
        vk_to_pin (keyboard_handler w) !! vk = Some pin ->
        let r := set_special_key_binding action (KeyCode (Some vk)) w in
        r.1 = false
        /\ keyboard_handler r.2 = keyboard_handler w
        /\ config_file r.2 = config_file w).
Proof.
  split.
  - intros pin action Ho. unfold set_key_binding.
    destruct (negb _); [done|]. cbn [_get_vk_code].
    rewrite bool_decide_eq_true_2; [done|]. by rewrite Ho.
  - intros action pin Ho. unfold set_special_key_binding.
    destruct (negb _); [done|]. cbn [_get_vk_code].
    rewrite bool_decide_eq_true_2; [done|]. by rewrite Ho.
Qed.

(** C1, the code at the failing input.  From the default bindings, where
    slot 2 is bound to key 98, binding slot 1 to key 98 returns [True] and
    leaves the two distinct actions slot 1 and slot 2 bound to the same key;
    the table is also written to the configuration file in that state. *)
Theorem rebinding_shares_a_key :
  let r := set_key_binding 1 (KeyCode (Some 98)) default_world in
  bound_key (keyboard_handler default_world) (Slot 1) = Some 97
  /\ bound_key (keyboard_handler default_world) (Slot 2) = Some 98
  /\ r.1 = true
  /\ bound_key (keyboard_handler r.2) (Slot 1) = Some 98
  /\ bound_key (keyboard_handler r.2) (Slot 2) = Some 98
  /\ config_file r.2 = Some (json_dumps (config_data_of (keyboard_handler r.2))).
Proof. vm_compute. repeat split. Qed.

(** The stale entry outlives the slot that took the key: after slot 1 is
    unbound again, key 98 is free in both reverse maps, so a special action
    can take it while slot 2 still names it. *)
Example stale_binding_crosses_tables :
  let w1 := (set_key_binding 1 (KeyCode (Some 98)) default_world).2 in
  let w2 := (remove_key_binding 1 w1).2 in
  let r := set_special_key_binding "copy_current" (KeyCode (Some 98)) w2 in
  r.1 = true
  /\ bound_key (keyboard_handler r.2) (Slot 2) = Some 98
  /\ bound_key (keyboard_handler r.2) (Named "copy_current") = Some 98.
Proof. vm_compute. repeat split. Qed.

(** C2, the code at the failing input.  In the default bindings key 98 is
    owned by slot 2.  The request to bind slot 1 to key 98 does not fail: it
    returns [True], key 98 is now dispatched to slot 1 instead of slot 2,
    and the requesting slot's own binding has changed from key 97 to 98. *)
Theorem bind_evicts_the_owner :
  let r := set_key_binding 1 (KeyCode (Some 98)) default_world in
  key_owner (keyboard_handler default_world) 98 = Some (Slot 2)
  /\ bound_key (keyboard_handler default_world) (Slot 1) = Some 97
  /\ r.1 = true
  /\ key_owner (keyboard_handler r.2) 98 = Some (Slot 1)
  /\ key_owner (keyboard_handler r.2) 97 = None
  /\ bound_key (keyboard_handler r.2) (Slot 1) = Some 98.
Proof. vm_compute. repeat split. Qed.

(** The same holds between two special actions. *)
Example special_bind_evicts_the_owner :
  let r := set_special_key_binding "copy_current" (KeyCode (Some 111)) default_world in
  key_owner (keyboard_handler default_world) 111 = Some (Named "toggle_flight")
  /\ r.1 = true
  /\ key_owner (keyboard_handler r.2) 111 = Some (Named "copy_current")
  /\ bound_key (keyboard_handler r.2) (Named "toggle_flight") = Some 111
  /\ bound_key (keyboard_handler r.2) (Named "copy_current") = Some 111.
Proof. vm_compute. repeat split. Qed.

(* ===================================================================== *)
(** * The toggles *)
(* ===================================================================== *)

(** Without a client the toggle prints that OSC is unavailable, sends and
    saves nothing, and leaves the flag as it was. *)
Lemma toggle_without_client (w : World) :
  OSCController.client (osc_controller w) = None ->
  _toggle_flight_mode w = print "❌ OSC通信が利用できません" [] w
  /\ _toggle_lookatme w = print "❌ OSC通信が利用できません" [] w.
Proof.
  intros Hc. unfold _toggle_flight_mode, _toggle_lookatme, update.
  destruct w as [h att dm ctl rcv cf df cb out sent fl].
  destruct h as [pk kt thr mon kb rev skb srev fm la].
  cbn in Hc |- *. rewrite Hc. cbn. unfold print. cbn.
  by rewrite !negb_involutive.
Qed.

(** C3, the code at the failing input.  With a client whose socket raises,
    [send_flying_mode] reports [False] and nothing is sent, yet the toggle
    leaves the flight flag flipped (from [False] to [True]), prints the mode
    as ON and saves it; the look-at-me toggle does the same. *)
Theorem toggle_keeps_flag_after_failed_send :
  let w := unreachable_world in
  flight_mode_enabled (keyboard_handler w) = false
  /\ lookatme_enabled (keyboard_handler w) = false
  /\ (send_flying_mode true w).1 = false
  /\ (send_lookatme true w).1 = false
  /\ flight_mode_enabled (keyboard_handler (_toggle_flight_mode w)) = true
  /\ udp_sent (_toggle_flight_mode w) = []
  /\ stdout (_toggle_flight_mode w)
     = [("飛行モード送信エラー: {e}", [PStr "OSError"]);
        ("✈️ 飛行モード: {status}", [PStr "ON"])]
  /\ lookatme_enabled (keyboard_handler (_toggle_lookatme w)) = true
  /\ udp_sent (_toggle_lookatme w) = [].
Proof. vm_compute. repeat split. Qed.

(* ===================================================================== *)
(** * Key events *)
(* ===================================================================== *)

#[local] Arguments count_lines : simpl never.

Lemma count_lines_app fmts a b :
  count_lines fmts (a ++ b) = (count_lines fmts a + count_lines fmts b)%nat.
Proof. unfold count_lines. by rewrite filter_app, length_app. Qed.

(** Evaluate the count of a single printed line. *)
Ltac count_closed :=
  repeat match goal with
  | |- context [count_lines ?f [?m]] =>
      let v := eval vm_compute in (count_lines f [m]) in
      change (count_lines f [m]) with v
  end.

Lemma stdout_save_data w :
  exists extra, stdout (save_data w) = stdout w ++ extra
    /\ count_lines long_press_lines extra = 0%nat
    /\ count_lines short_press_lines extra = 0%nat.
Proof.
  unfold save_data. destruct (disk_fails _).
  - eexists. split; [reflexivity|]. split; reflexivity.
  - exists []. cbn. by rewrite app_nil_r.
Qed.

(** [_save_pin] prints exactly one line of a long press, whatever the pin
    system does and prints, and none of a short press. *)
Lemma _save_pin_lines pin w :
  count_lines long_press_lines (stdout (_save_pin pin w))
  = S (count_lines long_press_lines (stdout w))
  /\ count_lines short_press_lines (stdout (_save_pin pin w))
     = count_lines short_press_lines (stdout w).
Proof.
  unfold _save_pin, save_current_state_to_pin, get_current_camera_state.
  destruct (get_current_state w) as [st|].
  - unfold save_pin_state.
    destruct (negb _).
    + cbn. rewrite !count_lines_app. count_closed. lia.
    + destruct (validate_camera_params _).
      * match goal with |- context [save_data ?x] =>
          destruct (stdout_save_data x) as (extra & He & H1 & H2) end.
        cbn [fst snd]. cbn [stdout print with_stdout].
        rewrite He.
        destruct (negb (String.eqb _ _));
          cbn [stdout set_descriptions set_pin_states with_data_manager];
          rewrite !count_lines_app, H1, H2; count_closed; lia.
      * cbn. rewrite !count_lines_app. count_closed. lia.
  - cbn. rewrite !count_lines_app. count_closed. lia.
Qed.

Lemma to_pose_list_length st :
  (Z.of_nat (length (to_pose_list st)) <? 6) = false.
Proof. reflexivity. Qed.

(** [_move_to_pin] prints exactly one line of a short press and none of a
    long press. *)
Lemma _move_to_pin_lines pin w :
  count_lines short_press_lines (stdout (_move_to_pin pin w))
  = S (count_lines short_press_lines (stdout w))
  /\ count_lines long_press_lines (stdout (_move_to_pin pin w))
     = count_lines long_press_lines (stdout w).
Proof.
  unfold _move_to_pin, load_pin_to_camera.
  destruct (load_pin_state pin w) as [st|].
  - unfold send_camera_pose, send_camera_params, send_messages, send_message.
    rewrite to_pose_list_length.
    destruct w as [h att dm ctl rcv cf df cb out sent fl].
    destruct ctl as [ip port [c|]], fl as [dfl [|] cfl]; cbn;
      rewrite !count_lines_app; count_closed; lia.
  - cbn. rewrite !count_lines_app. count_closed. lia.
Qed.

(** The release of a held key that is bound to a pin slot: the key stops
    being held, and the duration since the recorded press time is compared
    with the threshold the handler has at that moment. *)
Lemma release_of_held_pin_key (w : World) (vk pin : Z) (pressed_at now : float) :
  vk ∈ pressed_keys (keyboard_handler w) ->
  key_press_times (keyboard_handler w) !! vk = Some pressed_at ->
  vk_to_pin (keyboard_handler w) !! vk = Some pin ->
  _handle_key_release vk now w
  = if (long_press_threshold (keyboard_handler w) <=? now - pressed_at)%float
    then _save_pin pin (released vk w)
    else _move_to_pin pin (released vk w).
Proof.
  intros Hp Ht Hb. unfold _handle_key_release.
  rewrite bool_decide_eq_true_2 by exact Hp. rewrite Ht.
  destruct w as [h att dm ctl rcv cf df cb out sent fl].
  destruct h as [pk kt thr mon kb rev skb srev fm la].
  cbn in Hb |- *. rewrite Hb. reflexivity.
Qed.

(** A key bound to a special action is not classified: its release runs the
    action whatever the duration. *)
Lemma release_of_held_special_key (w : World) (vk : Z) (action : string)
    (pressed_at now : float) :
  vk ∈ pressed_keys (keyboard_handler w) ->
  key_press_times (keyboard_handler w) !! vk = Some pressed_at ->
  vk_to_pin (keyboard_handler w) !! vk = None ->
  vk_to_special (keyboard_handler w) !! vk = Some action ->
  _handle_key_release vk now w = _handle_special_action action (released vk w).
Proof.
  intros Hp Ht Hb Hs. unfold _handle_key_release.
  rewrite bool_decide_eq_true_2 by exact Hp. rewrite Ht.
  destruct w as [h att dm ctl rcv cf df cb out sent fl].
  destruct h as [pk kt thr mon kb rev skb srev fm la].
  cbn in Hb, Hs |- *. rewrite Hb, Hs. reflexivity.
Qed.

(** C4, amended.  For every release of a held key that [vk_to_pin] maps to
    a pin slot, exactly one action runs, chosen with the threshold the
    handler has at the release: when the held duration is at least
    [long_press_threshold] the release is a single call of [_save_pin] (one
    line of a long press is printed, none of a short press), otherwise it
    is a single call of [_move_to_pin] (one line of a short press, none of
    a long press).  With threshold 0.8 and a press at time 0, a release at
    0.5 is the short press and a release at 1.0 is the long press.  A held
    key that [vk_to_special] maps to a special action is not classified:
    its release runs that action once, whatever the duration. *)
Theorem release_classifies_pin_keys
    (w : World) (vk : Z) (pressed_at now : float) :
  vk ∈ pressed_keys (keyboard_handler w) ->
  key_press_times (keyboard_handler w) !! vk = Some pressed_at ->
  let threshold := long_press_threshold (keyboard_handler w) in
  let w' := _handle_key_release vk now w in
  (forall pin,
     vk_to_pin (keyboard_handler w) !! vk = Some pin ->
     ((threshold <=? now - pressed_at)%float = true ->
        w' = _save_pin pin (released vk w)
        /\ count_lines long_press_lines (stdout w')
           = S (count_lines long_press_lines (stdout w))
        /\ count_lines short_press_lines (stdout w')
           = count_lines short_press_lines (stdout w))
     /\ ((threshold <=? now - pressed_at)%float = false ->
           w' = _move_to_pin pin (released vk w)
           /\ count_lines short_press_lines (stdout w')
              = S (count_lines short_press_lines (stdout w))
           /\ count_lines long_press_lines (stdout w')
              = count_lines long_press_lines (stdout w))
     /\ (threshold = 0.8%float -> pressed_at = 0%float ->
           _handle_key_release vk 0.5%float w = _move_to_pin pin (released vk w)
           /\ _handle_key_release vk 1%float w = _save_pin pin (released vk w)))
  /\ (forall action,
        vk_to_pin (keyboard_handler w) !! vk = None ->
        vk_to_special (keyboard_handler w) !! vk = Some action ->
        w' = _handle_special_action action (released vk w)).
Proof.
  intros Hp Ht threshold w'. subst w'. split.
  - intros pin Hb. split; [|split].
    + intros Hlong.
      rewrite (release_of_held_pin_key w vk pin pressed_at now Hp Ht Hb).
      fold threshold. rewrite Hlong. split; [reflexivity|].
      apply (_save_pin_lines pin (released vk w)).
    + intros Hshort.
      rewrite (release_of_held_pin_key w vk pin pressed_at now Hp Ht Hb).
      fold threshold. rewrite Hshort. split; [reflexivity|].
      apply (_move_to_pin_lines pin (released vk w)).
    + intros Hthr H0.
      rewrite !(release_of_held_pin_key w vk pin pressed_at _ Hp Ht Hb).
      fold threshold. rewrite Hthr, H0. split; reflexivity.
  - intros action Hb Hs. by eapply release_of_held_special_key.
Qed.

Lemma release_classifies_pin_keys_witness :
  (97 ∈ pressed_keys (keyboard_handler holding_world))
  /\ key_press_times (keyboard_handler holding_world) !! 97 = Some 0%float
  /\ vk_to_pin (keyboard_handler holding_world) !! 97 = Some 1
  /\ long_press_threshold (keyboard_handler holding_world) = 0.8%float
  /\ _handle_key_release 97 0.5%float holding_world
     = _move_to_pin 1 (released 97 holding_world)
  /\ _handle_key_release 97 1%float holding_world
     = _save_pin 1 (released 97 holding_world).
Proof.
  assert (Hp : 97 ∈ pressed_keys (keyboard_handler holding_world))
    by (apply (bool_decide_unpack _); by vm_compute).
  assert (Ht : key_press_times (keyboard_handler holding_world) !! 97 = Some 0%float)
    by reflexivity.
  assert (Hb : vk_to_pin (keyboard_handler holding_world) !! 97 = Some 1)
    by reflexivity.
  split; [exact Hp|]. split; [exact Ht|]. split; [exact Hb|].
  split; [reflexivity|].
  exact (proj2 (proj2 (proj1 (release_classifies_pin_keys
                                holding_world 97 0%float 0.5%float Hp Ht)
                             1 Hb))
               eq_refl eq_refl).
Defined.

(** C4 as stated fails on a key bound to a special action.  Key 110 is
    bound to [copy_current]; held from time 0 to time 1.0 with threshold
    0.8 it has been held for at least the threshold, yet its release saves
    no pin: it runs [_copy_current_state], which puts the current state on
    the clipboard, prints no line of a long press and leaves the pin store
    as it was. *)
Lemma long_hold_of_special_key_counterexample :
  bound_key (keyboard_handler holding_special_world) (Named "copy_current")
  = Some 110
  /\ (110 ∈ pressed_keys (keyboard_handler holding_special_world))
  /\ key_press_times (keyboard_handler holding_special_world) !! 110 = Some 0%float
  /\ (long_press_threshold (keyboard_handler holding_special_world) <=? 1 - 0)%float
     = true
  /\ _handle_key_release 110 1%float holding_special_world
     = _copy_current_state (released 110 holding_special_world)
  /\ count_lines long_press_lines
       (stdout (_handle_key_release 110 1%float holding_special_world)) = 0%nat
  /\ data_manager (_handle_key_release 110 1%float holding_special_world)
     = data_manager holding_special_world
  /\ clipboard (_handle_key_release 110 1%float holding_special_world)
     = create_clipboard_data sample_state None.
Proof.
  split; [reflexivity|].
  split; [apply (bool_decide_unpack _); by vm_compute|].
  repeat split; by vm_compute.
Qed.

(** C8. A second press of a key that is delivered without a release in
    between changes nothing: the world after it is the world after the
    first press, so the recorded press time is that of the first press and
    a later release behaves, and measures the duration, as if the second
    press had not happened. *)
Theorem repeated_press_is_ignored (w : World) (vk : Z) (t1 t2 t3 : float) :
  let w1 := _handle_key_press vk t1 w in
  let w2 := _handle_key_press vk t2 w1 in
  w2 = w1
  /\ _handle_key_release vk t3 w2 = _handle_key_release vk t3 w1
  /\ (vk ∉ pressed_keys (keyboard_handler w) ->
      key_press_times (keyboard_handler w2) !! vk = Some t1
      /\ forall pin,
          vk_to_pin (keyboard_handler w) !! vk = Some pin ->
          _handle_key_release vk t3 w2
          = if (long_press_threshold (keyboard_handler w) <=? t3 - t1)%float
            then _save_pin pin (released vk w1)
            else _move_to_pin pin (released vk w1)).
Proof.
  intros w1 w2.
  assert (Hheld : vk ∈ pressed_keys (keyboard_handler w1)).
  { subst w1. unfold _handle_key_press.
    destruct (bool_decide (vk ∈ _)) eqn:E.
    - by apply bool_decide_eq_true_1 in E.
    - cbn. set_solver. }
  assert (Heq : w2 = w1).
  { subst w2. unfold _handle_key_press at 1.
    by rewrite bool_decide_eq_true_2. }
  split; [exact Heq|]. split; [by rewrite Heq|].
  intros Hfree. rewrite Heq.
  assert (Ht : key_press_times (keyboard_handler w1) !! vk = Some t1).
  { subst w1. unfold _handle_key_press.
    rewrite bool_decide_eq_false_2 by exact Hfree.
    cbn. apply lookup_insert_eq. }
  split; [exact Ht|]. intros pin Hb.
  assert (Hw1 : vk_to_pin (keyboard_handler w1) = vk_to_pin (keyboard_handler w)
                /\ long_press_threshold (keyboard_handler w1)
                   = long_press_threshold (keyboard_handler w)).
  { subst w1. unfold _handle_key_press. by destruct (bool_decide _). }
  destruct Hw1 as [Hv Hthr].
  rewrite (release_of_held_pin_key w1 vk pin t1 t3 Hheld Ht) by (by rewrite Hv).
  by rewrite Hthr.
Qed.

Lemma repeated_press_is_ignored_witness :
  (97 ∉ pressed_keys (keyboard_handler default_world))
  /\ key_press_times
       (keyboard_handler
          (_handle_key_press 97 0.3%float (_handle_key_press 97 0%float default_world)))
     !! 97 = Some 0%float.
Proof.
  assert (Hfree : 97 ∉ pressed_keys (keyboard_handler default_world))
    by (apply (bool_decide_unpack _); by vm_compute).
  split; [exact Hfree|].
  exact (proj1 (proj2 (proj2 (repeated_press_is_ignored
                                default_world 97 0%float 0.3%float 1%float))
                      Hfree)).
Defined.

(* ===================================================================== *)
(** * Inbound pose messages *)
(* ===================================================================== *)

(** C7. A pose message with fewer than 6 arguments is dropped: the
    statements guarded by the handler's [try] return normally without
    changing anything (so no exception reaches the [except] clause, let
    alone the caller), the handler leaves the world, and with it the cached
    pose, as it was, and a read of the current state afterwards returns what
    it returned before. *)
Theorem short_pose_message_is_dropped (args : list pyval) (now : float) (w : World) :
  (length args < 6)%nat ->
  _handle_pose_body args now w = Returned w
  /\ _handle_pose args now w = w
  /\ OSCReceiver.current_pose (osc_receiver (_handle_pose args now w))
     = OSCReceiver.current_pose (osc_receiver w)
  /\ get_current_state (_handle_pose args now w) = get_current_state w.
Proof.
  intros Hlen.
  assert (Hbody : _handle_pose_body args now w = Returned w).
  { unfold _handle_pose_body.
    destruct (Z.leb_spec 6 (Z.of_nat (length args))) as [Hge|Hlt]; [lia|reflexivity]. }
  assert (Hdrop : _handle_pose args now w = w).
  { unfold _handle_pose. now rewrite Hbody. }
  rewrite Hdrop. auto.
Qed.

Lemma short_pose_message_is_dropped_witness :
  (length [PFloat 7; PFloat 8; PFloat 9] < 6)%nat
  /\ get_current_state
       (_handle_pose [PFloat 7; PFloat 8; PFloat 9] 11%float posed_world)
     = get_current_state posed_world
  /\ get_current_state posed_world = Some sample_state.
Proof.
  assert (Hlen : (length [PFloat 7; PFloat 8; PFloat 9] < 6)%nat) by (cbn; lia).
  split; [exact Hlen|]. split; [|reflexivity].
  exact (proj2 (proj2 (proj2 (short_pose_message_is_dropped
                                [PFloat 7; PFloat 8; PFloat 9] 11%float
                                posed_world Hlen)))).
Defined.

(** A message with six arguments or more replaces the cached pose by its
    first six. *)
Lemma full_pose_message_is_cached (args : list pyval) (now : float) (w : World) :
  (6 <= length args)%nat ->
  OSCReceiver.current_pose (osc_receiver (_handle_pose args now w))
  = Some (take 6 args).
Proof.
  intros Hlen. unfold _handle_pose, _handle_pose_body.
  destruct (Z.leb_spec 6 (Z.of_nat (length args))) as [Hge|Hlt]; [reflexivity|lia].
Qed.

(* ===================================================================== *)
(** * The clipboard encoding *)
(* ===================================================================== *)

Lemma forallb_finite_eqb (l : list pyval) :
  forallb finite_float l = true -> forallb is_number l = true ->
  forallb (fun xy => py_eqb (fst xy) (snd xy)) (zip l l) = true.
Proof.
  induction l as [|v l IH]; [reflexivity|].
  cbn [forallb zip zip_with fst snd]. rewrite !andb_true_iff.
  intros [Hv Hl] [Nv Nl]. split; [now apply finite_float_eqb|auto].
Qed.

(** C9. For every camera state whose float fields are finite, decoding the
    clipboard text that [create_clipboard_data] makes of it (with or without
    a pin number) returns that state: [parse_clipboard_data] returns
    normally, prints nothing, and its result is the state, field for field;
    when the fields are numbers the result also compares equal to the
    original with [==]. *)
Theorem clipboard_roundtrip (s : CameraState.t) (pin_number : option Z) (w : World) :
  state_finite s = true ->
  exists r,
    parse_clipboard_data (create_clipboard_data s pin_number) w
    = (Returned (Some r), w)
    /\ r = s
    /\ (forallb is_number (state_fields s) = true -> state_eqb r s = true).
Proof.
  intros Hfin. exists s. split; [|split; [reflexivity|]].
  - destruct s as [[x y z] [rx ry rz] [zoom focal aperture exposure]].
    destruct pin_number as [n|]; reflexivity.
  - intros Hnum. unfold state_eqb. now apply forallb_finite_eqb.
Qed.

Lemma clipboard_roundtrip_witness :
  state_finite sample_state = true
  /\ exists r,
      parse_clipboard_data (create_clipboard_data sample_state None) blank_world
      = (Returned (Some r), blank_world)
      /\ r = sample_state
      /\ state_eqb r sample_state = true.
Proof.
  split; [reflexivity|].
  destruct (clipboard_roundtrip sample_state None blank_world eq_refl)
    as (r & Hr & Heq & Hb).
  exists r. split; [exact Hr|]. split; [exact Heq|]. exact (Hb eq_refl).
Defined.

(** Text that is not a JSON document, and a document of another type, are
    not camera states. *)
Example parse_clipboard_data_rejects :
  parse_clipboard_data (PlainText "hello") blank_world
  = (Returned None,
     print "クリップボードデータ解析エラー: {e}" [PStr "JSONDecodeError"] blank_world)
  /\ parse_clipboard_data (JsonText (PDict [("type", PStr "note")])) blank_world
     = (Returned None, blank_world).
Proof. split; reflexivity. Qed.

(* ===================================================================== *)
(** * The pin store across key events *)
(* ===================================================================== *)

(** Functions that leave the data manager alone. *)
Ltac faults_cases w :=
  destruct w as [h att dm ctl rcv cf df cb out sent fl];
  destruct ctl as [ip port [client|]], fl as [[|] [|] [|]].

Lemma dm_send_camera_pose pose w : data_manager (send_camera_pose pose w).2 = data_manager w.
Proof.
  unfold send_camera_pose, send_message.
  destruct (Z.of_nat (length pose) <? 6); faults_cases w; reflexivity.
Qed.

Lemma dm_send_camera_params z f a e w :
  data_manager (send_camera_params z f a e w).2 = data_manager w.
Proof. unfold send_camera_params, send_messages, send_message. faults_cases w; reflexivity. Qed.

Lemma dm_save_config w : data_manager (save_config w) = data_manager w.
Proof. unfold save_config. by destruct (disk_fails _). Qed.

Lemma dm_toggles w :
  data_manager (_toggle_flight_mode w) = data_manager w
  /\ data_manager (_toggle_lookatme w) = data_manager w.
Proof.
  unfold _toggle_flight_mode, _toggle_lookatme, send_flying_mode, send_lookatme,
    send_message, save_config.
  faults_cases w; split; reflexivity.
Qed.

Lemma dm_move_to_pin pin w : data_manager (_move_to_pin pin w) = data_manager w.
Proof.
  unfold _move_to_pin, load_pin_to_camera.
  destruct (load_pin_state pin w) as [st|]; [|reflexivity].
  destruct (send_camera_pose _ w) as [ok1 w1] eqn:E1.
  destruct (send_camera_params _ _ _ _ w1) as [ok2 w2] eqn:E2.
  assert (data_manager w2 = data_manager w) as <-.
  { change w2 with (ok2, w2).2. rewrite <- E2, dm_send_camera_params.
    change w1 with (ok1, w1).2. by rewrite <- E1, dm_send_camera_pose. }
  by destruct (ok1 && ok2).
Qed.

Lemma dm_copy_current_state w : data_manager (_copy_current_state w) = data_manager w.
Proof.
  unfold _copy_current_state, pyperclip_copy.
  destruct (text_bool _); [|reflexivity].
  by destruct (clipboard_fails _).
Qed.

Lemma dm_parse_clipboard_data t w : data_manager (parse_clipboard_data t w).2 = data_manager w.
Proof.
  unfold parse_clipboard_data. destruct (parse_clipboard_body t); [done|].
  by destruct (catches _ _).
Qed.

Lemma dm_move_from_clipboard w : data_manager (_move_from_clipboard w) = data_manager w.
Proof.
  unfold _move_from_clipboard. destruct (pyperclip_paste w) as [t|]; [|reflexivity].
  unfold load_from_clipboard_data.
  pose proof (dm_parse_clipboard_data t w) as Hp.
  destruct (parse_clipboard_data t w) as [[[st|]|e] w0]; cbn [snd] in Hp.
  - destruct (send_camera_pose _ w0) as [ok1 w1] eqn:E1.
    destruct (send_camera_params _ _ _ _ w1) as [ok2 w2] eqn:E2.
    assert (data_manager w2 = data_manager w) as <-.
    { change w2 with (ok2, w2).2. rewrite <- E2, dm_send_camera_params.
      change w1 with (ok1, w1).2. by rewrite <- E1, dm_send_camera_pose. }
    by destruct (ok1 && ok2).
  - done.
  - done.
Qed.

Lemma dm_handle_special_action action w :
  data_manager (_handle_special_action action w) = data_manager w.
Proof.
  unfold _handle_special_action.
  repeat (destruct (String.eqb action _));
    auto using dm_copy_current_state, dm_move_from_clipboard.
  - apply dm_toggles.
  - apply dm_toggles.
Qed.

Lemma save_pin_store_ok pin w : store_ok w -> store_ok (_save_pin pin w).
Proof.
  intros Hw. unfold _save_pin, save_current_state_to_pin, get_current_camera_state.
  destruct (get_current_state w) as [st|]; [|done].
  pose proof (save_pin_state_store_ok pin st "" w Hw) as Hs.
  destruct (save_pin_state pin st "" w) as [[|] w1]; exact Hs.
Qed.

Lemma key_release_store_ok vk now w : store_ok w -> store_ok (_handle_key_release vk now w).
Proof.
  intros Hw. unfold _handle_key_release.
  destruct (bool_decide _); [|done].
  destruct (key_press_times _ !! vk); [|done].
  match goal with |- context [vk_to_pin ?h !! vk] => destruct (vk_to_pin h !! vk) as [pin|] end.
  - match goal with |- context [(?a <=? ?b)%float] => destruct (a <=? b)%float end.
    + by apply save_pin_store_ok.
    + eapply store_ok_ext; [apply dm_move_to_pin|done].
  - match goal with |- context [vk_to_special ?h !! vk] => destruct (vk_to_special h !! vk) as [a|] end; [|done].
    eapply store_ok_ext; [apply dm_handle_special_action|done].
Qed.

(* ===================================================================== *)
(** * The binding tables under the operations of the settings dialog *)
(* ===================================================================== *)

Section odict_more.
Context {K V : Type} `{EqDecision K}.
Implicit Types (d : list (K * V)) (k : K) (v : V).

Lemma od_set_keys d k v x : x ∈ (od_set d k v).*1 <-> x = k \/ x ∈ d.*1.
Proof.
  induction d as [|[k' v'] d IH]; cbn [od_set fmap list_fmap fst].
  - rewrite list_elem_of_singleton, elem_of_nil. tauto.
  - case_decide as E; cbn [fmap list_fmap fst]; rewrite !elem_of_cons.
    + subst. tauto.
    + rewrite IH. tauto.
Qed.

Lemma od_set_NoDup d k v : NoDup d.*1 -> NoDup (od_set d k v).*1.
Proof.
  induction d as [|[k' v'] d IH]; cbn [od_set fmap list_fmap fst].
  - intros _. apply NoDup_singleton.
  - rewrite NoDup_cons. intros [Hk Hd].
    case_decide as E; cbn [fmap list_fmap fst]; apply NoDup_cons.
    + subst. done.
    + split; [|auto]. rewrite od_set_keys. intros [->|Hin]; done.
Qed.

Lemma od_get_set d k v k' :
  od_get (od_set d k v) k' = if decide (k' = k) then Some v else od_get d k'.
Proof.
  induction d as [|[k0 v0] d IH]; cbn [od_set od_get].
  - destruct (decide (k' = k)); done.
  - destruct (decide (k = k0)) as [->|Hne]; cbn [od_get].
    + destruct (decide (k' = k0)); done.
    + rewrite IH. destruct (decide (k' = k0)) as [->|]; [|done].
      by rewrite decide_False.
Qed.

Lemma od_del_keys d k x : x ∈ (od_del d k).*1 -> x ∈ d.*1.
Proof.
  induction d as [|[k' v'] d IH]; cbn [od_del fmap list_fmap fst]; [done|].
  case_decide; cbn [fmap list_fmap fst]; rewrite !elem_of_cons; tauto.
Qed.

Lemma od_del_NoDup d k : NoDup d.*1 -> NoDup (od_del d k).*1.
Proof.
  induction d as [|[k' v'] d IH]; cbn [od_del fmap list_fmap fst]; [done|].
  rewrite NoDup_cons. intros [Hk Hd]. case_decide; [done|].
  cbn [fmap list_fmap fst]. apply NoDup_cons. split; [|auto].
  intros Hin. by apply od_del_keys in Hin.
Qed.

Lemma od_get_None d k : od_get d k = None <-> k ∉ d.*1.
Proof.
  induction d as [|[k' v'] d IH]; cbn [od_get fmap list_fmap fst].
  - split; [|done]. intros _ Hin. inversion Hin.
  - case_decide as E.
    + subst. split; [discriminate|]. intros Hn. exfalso. apply Hn. left.
    + rewrite IH, not_elem_of_cons. tauto.
Qed.

Lemma od_get_del d k k' :
  NoDup d.*1 ->
  od_get (od_del d k) k' = if decide (k' = k) then None else od_get d k'.
Proof.
  induction d as [|[k0 v0] d IH]; cbn [od_del od_get fmap list_fmap fst].
  - intros _. by destruct (decide (k' = k)).
  - rewrite NoDup_cons. intros [Hk Hd].
    destruct (decide (k = k0)) as [->|Hne].
    + destruct (decide (k' = k0)) as [->|]; [|done].
      by apply od_get_None.
    + cbn [od_get]. rewrite IH by done.
      destruct (decide (k' = k0)) as [->|]; [|done].
      by rewrite decide_False.
Qed.
End odict_more.


Section backed_facts.
Context {K : Type} `{EqDecision K}.
Implicit Types (kb : list (K * Z)) (rev : gmap Z K).

Lemma backed_set kb rev k vk :
  backed kb rev ->
  backed (od_set kb k vk)
         (<[vk := k]> match od_get kb k with
                      | Some old_vk => delete old_vk rev
                      | None => rev
                      end).
Proof.
  intros Hb v k' Hl. rewrite od_get_set.
  destruct (decide (v = vk)) as [->|Hv].
  - rewrite lookup_insert_eq in Hl. injection Hl as <-. by rewrite decide_True.
  - rewrite lookup_insert_ne in Hl by done.
    destruct (decide (k' = k)) as [->|Hk].
    + exfalso. destruct (od_get kb k) as [old|] eqn:E.
      * apply lookup_delete_Some in Hl as [Hne Hl]. apply Hb in Hl. congruence.
      * apply Hb in Hl. congruence.
    + destruct (od_get kb k) as [old|].
      * apply lookup_delete_Some in Hl as [_ Hl]. by apply Hb.
      * by apply Hb.
Qed.

Lemma backed_del kb rev k vk :
  NoDup kb.*1 -> backed kb rev -> od_get kb k = Some vk ->
  backed (od_del kb k) (delete vk rev).
Proof.
  intros Hnd Hb Hk v k' Hl.
  apply lookup_delete_Some in Hl as [Hne Hl]. apply Hb in Hl.
  rewrite od_get_del by done. rewrite decide_False; [done|].
  intros ->. congruence.
Qed.

Lemma set_rev_dom kb rev k vk v :
  is_Some ((<[vk := k]> match od_get kb k with
                        | Some old_vk => delete old_vk rev
                        | None => rev
                        end) !! v) ->
  v = vk \/ is_Some (rev !! v).
Proof.
  intros Hs. destruct (decide (v = vk)) as [->|Hv]; [by left|]. right.
  rewrite lookup_insert_ne in Hs by done.
  destruct (od_get kb k); [|done].
  destruct Hs as [x Hx]. apply lookup_delete_Some in Hx as [_ Hx]. by exists x.
Qed.
End backed_facts.



Lemma set_key_binding_sound pin key w :
  dispatch_sound (keyboard_handler w) ->
  dispatch_sound (keyboard_handler (set_key_binding pin key w).2).
Proof.
  intros Hs. unfold set_key_binding.
  destruct (negb _) eqn:Hr; [done|].
  destruct (_get_vk_code key) as [vk|]; [|done].
  destruct (bool_decide _) eqn:Hc; [done|].
  cbn [snd]. rewrite keyboard_handler_save_config.
  apply bool_decide_eq_false_1 in Hc.
  apply negb_false_iff, andb_true_iff in Hr as [H1 H9].
  destruct Hs as (N1 & N2 & B1 & B2 & D & P & A).
  destruct w as [h att dm ctl rcv cf df cb out sent fl].
  destruct h as [pk kt thr mon kb rev skb srev fm la].
  unfold dispatch_sound, pins_in_slots in *. cbn in *.
  repeat split; try done.
  - by apply od_set_NoDup.
  - by apply backed_set.
  - intros v Hv. apply set_rev_dom in Hv as [->|Hv]; [|by apply D].
    destruct (srev !! vk) eqn:E; [|done]. exfalso. apply Hc. by eexists.
  - apply Forall_od_set; [done|]. cbn. lia.
Qed.

Lemma set_special_key_binding_sound action key w :
  dispatch_sound (keyboard_handler w) ->
  dispatch_sound (keyboard_handler (set_special_key_binding action key w).2).
Proof.
  intros Hs. unfold set_special_key_binding.
  destruct (negb _) eqn:Hr; [done|].
  destruct (_get_vk_code key) as [vk|]; [|done].
  destruct (bool_decide (is_Some _)) eqn:Hc; [done|].
  cbn [snd]. rewrite keyboard_handler_save_config.
  apply bool_decide_eq_false_1 in Hc.
  apply negb_false_iff, bool_decide_eq_true_1 in Hr.
  destruct Hs as (N1 & N2 & B1 & B2 & D & P & A).
  destruct w as [h att dm ctl rcv cf df cb out sent fl].
  destruct h as [pk kt thr mon kb rev skb srev fm la].
  unfold dispatch_sound, pins_in_slots in *. cbn in *.
  repeat split; try done.
  - by apply od_set_NoDup.
  - by apply backed_set.
  - intros v Hv. destruct (decide (v = vk)) as [->|Hne]; [done|].
    rewrite lookup_insert_ne by done.
    pose proof (D v Hv) as Hn.
    destruct (od_get skb action); [|done].
    apply lookup_delete_None. by right.
  - by apply Forall_od_set.
Qed.

Lemma remove_key_binding_sound pin w :
  dispatch_sound (keyboard_handler w) ->
  dispatch_sound (keyboard_handler (remove_key_binding pin w).2).
Proof.
  intros Hs. unfold remove_key_binding.
  destruct (od_get _ pin) as [vk|] eqn:E; [|done].
  cbn [snd]. rewrite keyboard_handler_save_config.
  destruct Hs as (N1 & N2 & B1 & B2 & D & P & A).
  destruct w as [h att dm ctl rcv cf df cb out sent fl].
  destruct h as [pk kt thr mon kb rev skb srev fm la].
  unfold dispatch_sound, pins_in_slots in *. cbn in *.
  repeat split; try done.
  - by apply od_del_NoDup.
  - by apply backed_del.
  - intros v [x Hx]. apply lookup_delete_Some in Hx as [_ Hx]. apply D. by exists x.
  - by apply Forall_od_del.
Qed.

Lemma remove_special_key_binding_sound action w :
  dispatch_sound (keyboard_handler w) ->
  dispatch_sound (keyboard_handler (remove_special_key_binding action w).2).
Proof.
  intros Hs. unfold remove_special_key_binding.
  destruct (od_get _ action) as [vk|] eqn:E; [|done].
  cbn [snd]. rewrite keyboard_handler_save_config.
  destruct Hs as (N1 & N2 & B1 & B2 & D & P & A).
  destruct w as [h att dm ctl rcv cf df cb out sent fl].
  destruct h as [pk kt thr mon kb rev skb srev fm la].
  unfold dispatch_sound, pins_in_slots in *. cbn in *.
  repeat split; try done.
  - by apply od_del_NoDup.
  - by apply backed_del.
  - intros v Hv. apply lookup_delete_None. right. by apply D.
  - by apply Forall_od_del.
Qed.

Lemma setup_default_bindings_sound w :
  dispatch_sound (keyboard_handler (setup_default_bindings w)).
Proof.
  unfold setup_default_bindings. rewrite keyboard_handler_save_config.
  destruct w as [h att dm ctl rcv cf df cb out sent fl].
  destruct h as [pk kt thr mon kb rev skb srev fm la].
  unfold dispatch_sound, pins_in_slots, update. cbn.
  assert (N1 : NoDup (default_pin_tables.1).*1)
    by (apply (bool_decide_unpack _); by vm_compute).
  assert (N2 : NoDup default_special_key_bindings.*1)
    by (apply (bool_decide_unpack _); by vm_compute).
  assert (B1 : backed default_pin_tables.1 default_pin_tables.2).
  { intros vk pin.
    apply (fill_consistent default_pin_tables.1);
      [exact N1|apply (bool_decide_unpack _); by vm_compute]. }
  split; [exact N1|]. split; [exact N2|]. split; [exact B1|]. split; [|split; [|split]].
  - intros vk a.
    apply (fill_consistent default_special_key_bindings);
      [exact N2|apply (bool_decide_unpack _); by vm_compute].
  - intros vk [pin Hp]. apply B1 in Hp.
    apply od_get_elem_of in Hp; [|exact N1].
    replace default_pin_tables.1
      with [(1, 97); (2, 98); (3, 99); (4, 100); (5, 101);
            (6, 102); (7, 103); (8, 104); (9, 105)] in Hp by reflexivity.
    rewrite !elem_of_cons, elem_of_nil in Hp.
    repeat (destruct Hp as [[= -> ->]|Hp]; [reflexivity|]). done.
  - apply (bool_decide_unpack _). by vm_compute.
  - apply (bool_decide_unpack _). by vm_compute.
Qed.

Lemma dispatch_sound_owner h :
  dispatch_sound h ->
  forall vk a, key_owner h vk = Some a -> bound_key h a = Some vk.
Proof.
  intros (_ & _ & B1 & B2 & _) vk a. unfold key_owner, bound_key.
  destruct (vk_to_pin h !! vk) as [pin|] eqn:E1.
  - intros [= <-]. by apply B1.
  - destruct (vk_to_special h !! vk) as [action|] eqn:E2; [|done].
    intros [= <-]. by apply B2.
Qed.

Lemma run_ops_sound (ops : list BindOp) (w : World) :
  dispatch_sound (keyboard_handler w) ->
  dispatch_sound (keyboard_handler (run_ops ops w)).
Proof.
  revert w. induction ops as [|op ops IH]; intros w Hw; [exact Hw|].
  cbn [run_ops fold_left]. apply IH. destruct op; cbn [run_op].
  - by apply set_key_binding_sound.
  - by apply set_special_key_binding_sound.
  - by apply remove_key_binding_sound.
  - by apply remove_special_key_binding_sound.
  - apply setup_default_bindings_sound.
Qed.

Lemma dispatch_sound_targets h :
  dispatch_sound h ->
  forall vk a, key_owner h vk = Some a ->
    match a with
    | Slot pin => 1 <= pin <= 9
    | Named action => action ∈ valid_actions
    end.
Proof.
  intros Hs vk a Ho. pose proof (dispatch_sound_owner h Hs vk a Ho) as Hb.
  destruct Hs as (N1 & N2 & _ & _ & _ & P & A).
  destruct a as [pin|action]; cbn [bound_key] in Hb.
  - apply od_get_elem_of in Hb; [|exact N1].
    unfold pins_in_slots in P. rewrite Forall_forall in P. exact (P _ Hb).
  - apply od_get_elem_of in Hb; [|exact N2].
    rewrite Forall_forall in A. exact (A _ Hb).
Qed.

(** X1. Whatever sequence of bind, unbind and reset-to-default requests the
    handler serves, accepted or refused, the dispatch on release stays
    sound: a key that a reverse map dispatches to an action is the key that
    action is bound to in the forward map, no key is dispatched both to a
    pin slot and to a special action, and a release can only reach the
    slots 1-9 and the four special actions. *)
Theorem bind_sequences_keep_dispatch_sound (ops : list BindOp) (w : World) :
  dispatch_sound (keyboard_handler w) ->
  let h' := keyboard_handler (run_ops ops w) in
  dispatch_sound h'
  /\ (forall vk a, key_owner h' vk = Some a -> bound_key h' a = Some vk)
  /\ (forall vk pin, key_owner h' vk = Some (Slot pin) -> 1 <= pin <= 9)
  /\ (forall vk action, key_owner h' vk = Some (Named action) ->
        action ∈ valid_actions).
Proof.
  intros Hw h'. pose proof (run_ops_sound ops w Hw) as Hs. fold h' in Hs.
  split; [exact Hs|]. split; [by apply dispatch_sound_owner|]. split.
  - intros vk pin Ho. exact (dispatch_sound_targets h' Hs vk _ Ho).
  - intros vk action Ho. exact (dispatch_sound_targets h' Hs vk _ Ho).
Qed.

Lemma bind_sequences_keep_dispatch_sound_witness :
  dispatch_sound (keyboard_handler default_world)
  /\ dispatch_sound (keyboard_handler (run_ops rebinding_ops default_world))
  /\ key_owner (keyboard_handler (run_ops rebinding_ops default_world)) 98
     = Some (Named "copy_current").
Proof.
  pose proof (setup_default_bindings_sound blank_world) as Hd.
  split; [exact Hd|]. split; [|reflexivity].
  exact (proj1 (bind_sequences_keep_dispatch_sound rebinding_ops default_world Hd)).
Defined.

(** X2. [set_key_binding] succeeds exactly when the slot is in 1-9, the
    key object has a VK code and no special action is dispatched from that
    code.  A refused request leaves the handler and the configuration file
    as they were.  An accepted one binds the slot to the key in both maps,
    leaves the other slots and the special table alone, and writes the new
    table to the configuration file when the disk allows. *)
Theorem set_key_binding_outcome (pin : Z) (key : KeyObj) (w : World) :
  let h := keyboard_handler w in
  let r := set_key_binding pin key w in
  let h' := keyboard_handler r.2 in
  (r.1 = true <->
     1 <= pin <= 9
     /\ exists vk, _get_vk_code key = Some vk /\ vk_to_special h !! vk = None)
  /\ (r.1 = false -> h' = h /\ config_file r.2 = config_file w)
  /\ (forall vk, r.1 = true -> _get_vk_code key = Some vk ->
        bound_key h' (Slot pin) = Some vk
        /\ key_owner h' vk = Some (Slot pin)
        /\ (forall p, p <> pin -> bound_key h' (Slot p) = bound_key h (Slot p))
        /\ special_key_bindings h' = special_key_bindings h
        /\ vk_to_special h' = vk_to_special h
        /\ (disk_fails (faults w) = false ->
            config_file r.2 = Some (json_dumps (config_data_of h')))).
Proof.
  intros h r h'. subst h r h'. unfold set_key_binding.
  destruct (negb _) eqn:Hr.
  { apply negb_true_iff, andb_false_iff in Hr.
    split; [|split]; cbn; try done.
    split; [done|]. intros [Hp _]. destruct Hr as [Hr|Hr]; lia. }
  apply negb_false_iff, andb_true_iff in Hr as [H1 H9].
  destruct (_get_vk_code key) as [vk|].
  2:{ split; [|split]; cbn; try done. split; [done|]. by intros [_ [vk [? _]]]. }
  destruct (bool_decide _) eqn:Hc.
  { apply bool_decide_eq_true_1 in Hc as [a Ha].
    split; [|split]; cbn; try done.
    split; [done|]. intros [_ [vk' [[= <-] Hn]]]. congruence. }
  apply bool_decide_eq_false_1 in Hc.
  assert (Hn : vk_to_special (keyboard_handler w) !! vk = None).
  { destruct (vk_to_special _ !! vk) eqn:E; [|done]. exfalso. apply Hc. by eexists. }
  cbn [fst snd]. rewrite keyboard_handler_save_config.
  split; [|split; [done|]].
  - split; [|done]. intros _. split; [lia|]. by exists vk.
  - intros vk' _ [= <-].
    destruct w as [h att dm ctl rcv cf df cb out sent fl].
    destruct h as [pk kt thr mon kb rev skb srev fm la].
    unfold key_owner, bound_key, save_config, update. cbn in Hn |- *.
    rewrite od_get_set_eq, lookup_insert_eq.
    repeat split; try done.
    + intros p Hp. rewrite od_get_set. by rewrite decide_False.
    + by intros ->.
Qed.

(** X3. [set_special_key_binding] succeeds exactly when the action is one
    of the four special actions, the key object has a VK code and no pin
    slot is dispatched from that code.  A refused request leaves the handler
    and the configuration file as they were.  An accepted one binds the
    action to the key in both maps, leaves the other actions and the pin
    table alone, and writes the new table to the configuration file when
    the disk allows. *)
Theorem set_special_key_binding_outcome (action : string) (key : KeyObj) (w : World) :
  let h := keyboard_handler w in
  let r := set_special_key_binding action key w in
  let h' := keyboard_handler r.2 in
  (r.1 = true <->
     action ∈ valid_actions
     /\ exists vk, _get_vk_code key = Some vk /\ vk_to_pin h !! vk = None)
  /\ (r.1 = false -> h' = h /\ config_file r.2 = config_file w)
  /\ (forall vk, r.1 = true -> _get_vk_code key = Some vk ->
        bound_key h' (Named action) = Some vk
        /\ key_owner h' vk = Some (Named action)
        /\ (forall a, a <> action -> bound_key h' (Named a) = bound_key h (Named a))
        /\ key_bindings h' = key_bindings h
        /\ vk_to_pin h' = vk_to_pin h
        /\ (disk_fails (faults w) = false ->
            config_file r.2 = Some (json_dumps (config_data_of h')))).
Proof.
  intros h r h'. subst h r h'. unfold set_special_key_binding.
  destruct (negb _) eqn:Hr.
  { apply negb_true_iff, bool_decide_eq_false_1 in Hr.
    split; [|split]; cbn; try done.
    split; [done|]. by intros [Hp _]. }
  apply negb_false_iff, bool_decide_eq_true_1 in Hr.
  destruct (_get_vk_code key) as [vk|].
  2:{ split; [|split]; cbn; try done. split; [done|]. by intros [_ [vk [? _]]]. }
  destruct (bool_decide (is_Some _)) eqn:Hc.
  { apply bool_decide_eq_true_1 in Hc as [a Ha].
    split; [|split]; cbn; try done.
    split; [done|]. intros [_ [vk' [[= <-] Hn]]]. congruence. }
  apply bool_decide_eq_false_1 in Hc.
  assert (Hn : vk_to_pin (keyboard_handler w) !! vk = None).
  { destruct (vk_to_pin _ !! vk) eqn:E; [|done]. exfalso. apply Hc. by eexists. }
  cbn [fst snd]. rewrite keyboard_handler_save_config.
  split; [|split; [done|]].
  - split; [|done]. intros _. split; [done|]. by exists vk.
  - intros vk' _ [= <-].
    destruct w as [h att dm ctl rcv cf df cb out sent fl].
    destruct h as [pk kt thr mon kb rev skb srev fm la].
    unfold key_owner, bound_key, save_config, update. cbn in Hn |- *.
    rewrite od_get_set_eq, lookup_insert_eq, Hn.
    repeat split; try done.
    + intros p Hp. rewrite od_get_set. by rewrite decide_False.
    + by intros ->.
Qed.


(** X4. [remove_key_binding] succeeds exactly when the slot is bound; a
    request for an unbound slot changes nothing at all.  After a removal the
    slot is unbound, its key no longer reaches a pin slot, the other slots
    and the special table are as before, the table is written to the
    configuration file when the disk allows, and a second removal of the
    same slot is refused. *)
Theorem remove_key_binding_outcome (pin : Z) (w : World) :
  NoDup (key_bindings (keyboard_handler w)).*1 ->
  let h := keyboard_handler w in
  let r := remove_key_binding pin w in
  let h' := keyboard_handler r.2 in
  (r.1 = true <-> is_Some (bound_key h (Slot pin)))
  /\ (r.1 = false -> r.2 = w)
  /\ bound_key h' (Slot pin) = None
  /\ (forall p, p <> pin -> bound_key h' (Slot p) = bound_key h (Slot p))
  /\ (forall vk, bound_key h (Slot pin) = Some vk ->
        vk_to_pin h' !! vk = None
        /\ (forall v, v <> vk -> key_owner h' v = key_owner h v)
        /\ (disk_fails (faults w) = false ->
            config_file r.2 = Some (json_dumps (config_data_of h'))))
  /\ special_key_bindings h' = special_key_bindings h
  /\ (remove_key_binding pin r.2).1 = false.
Proof.
  intros Hnd h r h'. subst h r h'. cbn [bound_key].
  destruct (od_get (key_bindings (keyboard_handler w)) pin) as [vk|] eqn:E.
  2:{ assert (R : remove_key_binding pin w = (false, w))
        by (unfold remove_key_binding; by rewrite E).
      rewrite R. cbn [fst snd]. rewrite R.
      repeat split; try done; by intros [x Hx]. }
  assert (R : remove_key_binding pin w
              = (true, save_config
                         (update (with_pins
                                    (od_del (key_bindings (keyboard_handler w)) pin)
                                    (delete vk (vk_to_pin (keyboard_handler w)))) w)))
    by (unfold remove_key_binding; by rewrite E).
  rewrite R. cbn [fst snd]. rewrite keyboard_handler_save_config.
  assert (Hgone : od_get (od_del (key_bindings (keyboard_handler w)) pin) pin = None).
  { rewrite od_get_del by done. by rewrite decide_True. }
  split; [split; [by eexists|done]|]. split; [done|].
  clear R.
  destruct w as [h att dm ctl rcv cf df cb out sent fl].
  destruct h as [pk kt thr mon kb rev skb srev fm la].
  unfold remove_key_binding, save_config, update, key_owner.
  cbn in Hnd, E, Hgone |- *.
  split; [exact Hgone|]. split.
  { intros p Hp. rewrite od_get_del by done. by rewrite decide_False. }
  split.
  { intros vk' [= <-]. split; [apply lookup_delete_eq|]. split.
    - intros v Hv. by rewrite lookup_delete_ne.
    - by intros ->. }
  split; [done|].
  destruct (disk_fails fl); cbn; by rewrite Hgone.
Qed.

Lemma remove_key_binding_outcome_witness :
  NoDup (key_bindings (keyboard_handler default_world)).*1
  /\ bound_key (keyboard_handler default_world) (Slot 3) = Some 99
  /\ bound_key (keyboard_handler (remove_key_binding 3 default_world).2) (Slot 3)
     = None.
Proof.
  assert (Hnd : NoDup (key_bindings (keyboard_handler default_world)).*1)
    by (apply (bool_decide_unpack _); by vm_compute).
  split; [exact Hnd|]. split; [reflexivity|].
  exact (proj1 (proj2 (proj2 (remove_key_binding_outcome 3 default_world Hnd)))).
Defined.

(** X5. [remove_special_key_binding] succeeds exactly when the action is
    bound; a request for an unbound action changes nothing at all.  After a
    removal the action is unbound, its key no longer reaches a special
    action, the other actions and the pin table are as before, the table is
    written to the configuration file when the disk allows, and a second
    removal of the same action is refused. *)
Theorem remove_special_key_binding_outcome (action : string) (w : World) :
  NoDup (special_key_bindings (keyboard_handler w)).*1 ->
  let h := keyboard_handler w in
  let r := remove_special_key_binding action w in
  let h' := keyboard_handler r.2 in
  (r.1 = true <-> is_Some (bound_key h (Named action)))
  /\ (r.1 = false -> r.2 = w)
  /\ bound_key h' (Named action) = None
  /\ (forall a, a <> action -> bound_key h' (Named a) = bound_key h (Named a))
  /\ (forall vk, bound_key h (Named action) = Some vk ->
        vk_to_special h' !! vk = None
        /\ (forall v, v <> vk -> key_owner h' v = key_owner h v)
        /\ (disk_fails (faults w) = false ->
            config_file r.2 = Some (json_dumps (config_data_of h'))))
  /\ key_bindings h' = key_bindings h
  /\ (remove_special_key_binding action r.2).1 = false.
Proof.
  intros Hnd h r h'. subst h r h'. cbn [bound_key].
  destruct (od_get (special_key_bindings (keyboard_handler w)) action)
    as [vk|] eqn:E.
  2:{ assert (R : remove_special_key_binding action w = (false, w))
        by (unfold remove_special_key_binding; by rewrite E).
      rewrite R. cbn [fst snd]. rewrite R.
      repeat split; try done; by intros [x Hx]. }
  assert (R : remove_special_key_binding action w
              = (true, save_config
                         (update (with_specials
                                    (od_del (special_key_bindings (keyboard_handler w))
                                            action)
                                    (delete vk (vk_to_special (keyboard_handler w))))
                                 w)))
    by (unfold remove_special_key_binding; by rewrite E).
  rewrite R. cbn [fst snd]. rewrite keyboard_handler_save_config.
  assert (Hgone : od_get (od_del (special_key_bindings (keyboard_handler w)) action)
                         action = None).
  { rewrite od_get_del by done. by rewrite decide_True. }
  split; [split; [by eexists|done]|]. split; [done|].
  clear R.
  destruct w as [h att dm ctl rcv cf df cb out sent fl].
  destruct h as [pk kt thr mon kb rev skb srev fm la].
  unfold remove_special_key_binding, save_config, update, key_owner.
  cbn in Hnd, E, Hgone |- *.
  split; [exact Hgone|]. split.
  { intros p Hp. rewrite od_get_del by done. by rewrite decide_False. }
  split.
  { intros vk' [= <-]. split; [apply lookup_delete_eq|]. split.
    - intros v Hv. by rewrite lookup_delete_ne.
    - by intros ->. }
  split; [done|].
  destruct (disk_fails fl); cbn; by rewrite Hgone.
Qed.

Lemma remove_special_key_binding_outcome_witness :
  NoDup (special_key_bindings (keyboard_handler default_world)).*1
  /\ bound_key (keyboard_handler default_world) (Named "toggle_flight") = Some 111
  /\ bound_key (keyboard_handler
                  (remove_special_key_binding "toggle_flight" default_world).2)
               (Named "toggle_flight")
     = None.
Proof.
  assert (Hnd : NoDup (special_key_bindings (keyboard_handler default_world)).*1)
    by (apply (bool_decide_unpack _); by vm_compute).
  split; [exact Hnd|]. split; [reflexivity|].
  exact (proj1 (proj2 (proj2 (remove_special_key_binding_outcome
                                "toggle_flight" default_world Hnd)))).
Defined.

(* ===================================================================== *)
(** * Loading a configuration *)
(* ===================================================================== *)

Section loading.
Context `{Builtins}.

Lemma and_then_None (s1 s2 : step) w w' :
  and_then s1 s2 w = (None, w') ->
  exists w1, s1 w = (None, w1) /\ s2 w1 = (None, w').
Proof.
  unfold and_then. destruct (s1 w) as [[e|] w1]; [discriminate|].
  intros Hs. by exists w1.
Qed.

Lemma and_then_keeps R (s1 s2 : step) :
  (forall a b c, R a b -> R b c -> R a c) ->
  keeps R s1 -> keeps R s2 -> keeps R (and_then s1 s2).
Proof.
  intros Ht K1 K2 w. unfold and_then.
  pose proof (K1 w) as H1. destruct (s1 w) as [[e|] w1]; [exact H1|].
  cbn [snd] in H1. exact (Ht _ _ _ H1 (K2 w1)).
Qed.

Lemma same_tables_refl h : same_tables h h.
Proof. by repeat split. Qed.

Lemma same_tables_trans a b c : same_tables a b -> same_tables b c -> same_tables a c.
Proof.
  intros (A1 & A2 & A3 & A4) (B1 & B2 & B3 & B4).
  repeat split; congruence.
Qed.

Lemma load_threshold_tables data :
  keeps (fun a b => same_tables b a) (load_threshold data).
Proof.
  intros w. unfold load_threshold.
  destruct (py_in _ data) as [[|]|e]; try apply same_tables_refl.
  destruct (_ ← py_getitem data _; py_float _);
    [by repeat split|apply same_tables_refl].
Qed.

Lemma load_flag_tables key set data :
  (forall b h, same_tables (set b h) h) ->
  keeps (fun a b => same_tables b a) (load_flag key set data).
Proof.
  intros Hset w. unfold load_flag.
  destruct (py_in _ data) as [[|]|e]; try apply same_tables_refl.
  destruct (py_getitem data _); [apply Hset|apply same_tables_refl].
Qed.

Lemma load_table_absent key clear loop data w :
  py_in key data = Returned false -> load_table key clear loop data w = (None, w).
Proof. intros Hin. unfold load_table. by rewrite Hin. Qed.

Lemma load_pin_bindings_specials items h :
  special_key_bindings (load_pin_bindings items h).2 = special_key_bindings h
  /\ vk_to_special (load_pin_bindings items h).2 = vk_to_special h.
Proof.
  revert h. induction items as [|[pin_str vk_code] items IH]; intros h; [done|].
  cbn [load_pin_bindings]. unfold load_one_pin_binding.
  destruct (py_int_of_str pin_str) as [pin|e]; cbn [mbind outcome_bind].
  - destruct (py_int vk_code) as [vk|e]; cbn [mbind outcome_bind].
    + destruct ((1 <=? pin) && (pin <=? 9)); [|apply IH].
      destruct (IH (with_pins (od_set (key_bindings h) pin vk)
                              (<[vk := pin]> (vk_to_pin h)) h)) as [-> ->].
      done.
    + destruct (catches _ e); [apply IH|done].
  - destruct (catches _ e); [apply IH|done].
Qed.

Lemma load_special_bindings_pins items h :
  key_bindings (load_special_bindings items h).2 = key_bindings h
  /\ vk_to_pin (load_special_bindings items h).2 = vk_to_pin h.
Proof.
  revert h. induction items as [|[action vk_code] items IH]; intros h; [done|].
  cbn [load_special_bindings]. unfold load_one_special_binding.
  destruct (py_int vk_code) as [vk|e]; cbn [mbind outcome_bind].
  - destruct (IH (with_specials (od_set (special_key_bindings h) action vk)
                                (<[vk := action]> (vk_to_special h)) h)) as [-> ->].
    done.
  - destruct (catches _ e); [apply IH|done].
Qed.

Lemma load_pin_bindings_in_slots items h :
  pins_in_slots h -> pins_in_slots (load_pin_bindings items h).2.
Proof.
  revert h. induction items as [|[pin_str vk_code] items IH]; intros h Hh; [done|].
  cbn [load_pin_bindings]. unfold load_one_pin_binding.
  destruct (py_int_of_str pin_str) as [pin|e]; cbn [mbind outcome_bind].
  - destruct (py_int vk_code) as [vk|e]; cbn [mbind outcome_bind].
    + destruct ((1 <=? pin) && (pin <=? 9)) eqn:Hr; [|by apply IH].
      apply IH. unfold pins_in_slots. cbn.
      apply Forall_od_set; [exact Hh|]. cbn.
      apply andb_true_iff in Hr. lia.
    + destruct (catches _ e); [by apply IH|done].
  - destruct (catches _ e); [by apply IH|done].
Qed.

(** The pin table loader leaves the special table alone, and the special
    table loader the pin table. *)
Lemma load_pin_table_specials data w :
  let w' := (load_table "key_bindings_vk" (with_pins [] ∅) load_pin_bindings data w).2 in
  special_key_bindings (keyboard_handler w') = special_key_bindings (keyboard_handler w)
  /\ vk_to_special (keyboard_handler w') = vk_to_special (keyboard_handler w).
Proof.
  unfold load_table. destruct (py_in _ data) as [[|]|e]; try done.
  destruct (py_getitem data _) as [bindings|e]; [|done].
  destruct (py_items bindings) as [items|e]; [|done].
  pose proof (load_pin_bindings_specials items
                (keyboard_handler (update (with_pins [] ∅) w))) as Hl.
  destruct (load_pin_bindings items _) as [r h']. exact Hl.
Qed.

Lemma load_special_table_pins data w :
  let w' := (load_table "special_key_bindings_vk" (with_specials [] ∅)
                        load_special_bindings data w).2 in
  key_bindings (keyboard_handler w') = key_bindings (keyboard_handler w)
  /\ vk_to_pin (keyboard_handler w') = vk_to_pin (keyboard_handler w).
Proof.
  unfold load_table. destruct (py_in _ data) as [[|]|e]; try done.
  destruct (py_getitem data _) as [bindings|e]; [|done].
  destruct (py_items bindings) as [items|e]; [|done].
  pose proof (load_special_bindings_pins items
                (keyboard_handler (update (with_specials [] ∅) w))) as Hl.
  destruct (load_special_bindings items _) as [r h']. exact Hl.
Qed.

Lemma setup_default_bindings_tables w :
  same_tables (keyboard_handler (setup_default_bindings w))
              (keyboard_handler default_world).
Proof.
  unfold default_world, setup_default_bindings.
  rewrite !keyboard_handler_save_config. by repeat split.
Qed.

Lemma default_if_incomplete_tables w w' :
  default_if_incomplete w = (None, w') ->
  key_bindings (keyboard_handler w) = []
  \/ special_key_bindings (keyboard_handler w) = [] ->
  same_tables (keyboard_handler w') (keyboard_handler default_world).
Proof.
  unfold default_if_incomplete. intros Hd Hempty.
  destruct (key_bindings (keyboard_handler w)) as [|kv kb];
    [injection Hd as <-; apply setup_default_bindings_tables|].
  destruct (special_key_bindings (keyboard_handler w)) as [|skv skb];
    [injection Hd as <-; apply setup_default_bindings_tables|].
  by destruct Hempty.
Qed.

End loading.

Section loading_results.
Context `{Builtins}.

Lemma flag_setters_tables :
  (forall b h, same_tables (with_flight_mode_enabled b h) h)
  /\ (forall b h, same_tables (with_lookatme_enabled b h) h).
Proof. split; intros b h; by repeat split. Qed.

Lemma default_bindings_by_slot h n :
  same_tables h (keyboard_handler default_world) ->
  1 <= n <= 9 ->
  bound_key h (Slot n) = Some (96 + n) /\ key_owner h (96 + n) = Some (Slot n).
Proof.
  intros (E1 & E2 & _ & _) Hn. unfold bound_key, key_owner. rewrite E1, E2.
  assert (Hc : n = 1 \/ n = 2 \/ n = 3 \/ n = 4 \/ n = 5
               \/ n = 6 \/ n = 7 \/ n = 8 \/ n = 9) by lia.
  repeat (destruct Hc as [->|Hc]; [split; reflexivity|]). subst. split; reflexivity.
Qed.

(** X6. When the configuration file is absent, is not a JSON document, or
    is a document without one of the two [..._vk] tables (the file the
    settings dialog writes is one), a constructor that returns normally
    leaves the handler with the default tables: slot n on key 96+n in both
    maps, and the four default special keys. *)
Theorem init_without_tables_gives_defaults (w w' : World) :
  no_usable_tables (config_file w) ->
  KeyboardHandler_init w = (None, w') ->
  same_tables (keyboard_handler w') (keyboard_handler default_world)
  /\ (forall n, 1 <= n <= 9 ->
        bound_key (keyboard_handler w') (Slot n) = Some (96 + n)
        /\ key_owner (keyboard_handler w') (96 + n) = Some (Slot n))
  /\ special_key_bindings (keyboard_handler w') = default_special_key_bindings.
Proof.
  intros Hfile Hinit.
  assert (Hs : same_tables (keyboard_handler w') (keyboard_handler default_world)).
  { unfold KeyboardHandler_init, load_config in Hinit.
    set (w0 := with_keyboard_handler _ w) in Hinit.
    change (config_file w0) with (config_file w) in Hinit.
    unfold no_usable_tables in Hfile.
    destruct (config_file w) as [content|];
      [|injection Hinit as <-; apply setup_default_bindings_tables].
    destruct (json_loads content) as [data|e];
      [|injection Hinit as <-; apply setup_default_bindings_tables].
    unfold load_config_data in Hinit.
    apply and_then_None in Hinit as (w1 & S1 & Hinit).
    apply and_then_None in Hinit as (w2 & S2 & Hinit).
    apply and_then_None in Hinit as (w3 & S3 & Hinit).
    apply and_then_None in Hinit as (w4 & S4 & Hinit).
    apply and_then_None in Hinit as (w5 & S5 & Hinit).
    pose proof (load_threshold_tables data w0) as T1. rewrite S1 in T1.
    pose proof (load_pin_table_specials data w1) as T2. cbv zeta in T2.
    rewrite S2 in T2.
    pose proof (load_special_table_pins data w2) as T3. cbv zeta in T3.
    rewrite S3 in T3.
    pose proof (load_flag_tables "flight_mode_enabled" with_flight_mode_enabled
                  data (proj1 flag_setters_tables) w3) as T4.
    rewrite S4 in T4.
    pose proof (load_flag_tables "lookatme_enabled" with_lookatme_enabled
                  data (proj2 flag_setters_tables) w4) as T5.
    rewrite S5 in T5.
    cbn [snd] in T1, T2, T3, T4, T5.
    destruct T1 as (A1 & A2 & A3 & A4), T2 as (B3 & B4), T3 as (C1 & C2),
             T4 as (D1 & D2 & D3 & D4), T5 as (E1 & E2 & E3 & E4).
    apply (default_if_incomplete_tables _ _ Hinit).
    destruct Hfile as [Hp|Hp].
    - left. rewrite (load_table_absent _ _ _ _ _ Hp) in S2. injection S2 as <-.
      rewrite E1, D1, C1, A1. reflexivity.
    - right. rewrite (load_table_absent _ _ _ _ _ Hp) in S3. injection S3 as <-.
      rewrite E3, D3, B3, A3. reflexivity. }
  split; [exact Hs|]. split.
  - intros n Hn. by apply default_bindings_by_slot.
  - destruct Hs as (_ & _ & -> & _). reflexivity.
Qed.

End loading_results.

Lemma init_without_tables_gives_defaults_witness :
  no_usable_tables (config_file dialog_file_world)
  /\ (@KeyboardHandler_init example_builtins dialog_file_world).1 = None
  /\ bound_key (keyboard_handler
                  (@KeyboardHandler_init example_builtins dialog_file_world).2)
               (Slot 1)
     = Some 97.
Proof.
  assert (Hf : no_usable_tables (config_file dialog_file_world)) by (by left).
  split; [exact Hf|]. split; [reflexivity|].
  exact (proj1 (proj1 (proj2 (@init_without_tables_gives_defaults example_builtins
                                dialog_file_world
                                (@KeyboardHandler_init example_builtins
                                   dialog_file_world).2
                                Hf eq_refl))
                      1 ltac:(lia))).
Defined.

Section loading_into_a_running_handler.
Context `{Builtins}.

Lemma load_config_data_keeps R data :
  (forall a b c, R a b -> R b c -> R a c) ->
  keeps R (load_threshold data) ->
  keeps R (load_table "key_bindings_vk" (with_pins [] ∅) load_pin_bindings data) ->
  keeps R (load_table "special_key_bindings_vk" (with_specials [] ∅)
                      load_special_bindings data) ->
  keeps R (load_flag "flight_mode_enabled" with_flight_mode_enabled data) ->
  keeps R (load_flag "lookatme_enabled" with_lookatme_enabled data) ->
  keeps R default_if_incomplete ->
  keeps R (load_config_data data).
Proof.
  intros Ht K1 K2 K3 K4 K5 K6. unfold load_config_data.
  repeat (apply and_then_keeps; [exact Ht|try assumption|]). exact K6.
Qed.

(** X7. A configuration dictionary without the two [..._vk] tables, which
    is what the settings dialog passes to [load_config] when its settings
    are saved, leaves the bindings of a handler that has some in both
    tables exactly as they are, whether the call returns or raises; when
    the dictionary holds a float threshold the call returns normally and
    the handler has that threshold. *)
Theorem load_config_without_tables_keeps_bindings
    (d : list (string * pyval)) (w : World) :
  od_mem d "key_bindings_vk" = false ->
  od_mem d "special_key_bindings_vk" = false ->
  key_bindings (keyboard_handler w) <> [] ->
  special_key_bindings (keyboard_handler w) <> [] ->
  let r := load_config (Some (PDict d)) w in
  same_tables (keyboard_handler r.2) (keyboard_handler w)
  /\ (forall f, od_get d "long_press_threshold" = Some (PFloat f) ->
        r.1 = None /\ long_press_threshold (keyboard_handler r.2) = f).
Proof.
  intros Hp Hs Hn1 Hn2 r. subst r. cbn [load_config].
  assert (P2 : forall w, load_table "key_bindings_vk" (with_pins [] ∅)
                           load_pin_bindings (PDict d) w = (None, w)).
  { intros w0. apply load_table_absent. cbn. by rewrite Hp. }
  assert (P3 : forall w, load_table "special_key_bindings_vk" (with_specials [] ∅)
                           load_special_bindings (PDict d) w = (None, w)).
  { intros w0. apply load_table_absent. cbn. by rewrite Hs. }
  assert (P6 : forall w0, same_tables (keyboard_handler w0) (keyboard_handler w) ->
                 default_if_incomplete w0 = (None, w0)).
  { intros w0 (E1 & _ & E3 & _). unfold default_if_incomplete. rewrite E1, E3.
    destruct (key_bindings (keyboard_handler w)); [done|].
    by destruct (special_key_bindings (keyboard_handler w)). }
  split.
  - unfold load_config_data, and_then.
    pose proof (load_threshold_tables (PDict d) w) as T1.
    destruct (load_threshold (PDict d) w) as [[e|] w1]; [exact T1|].
    cbn [snd] in T1. rewrite P2, P3.
    pose proof (load_flag_tables "flight_mode_enabled" with_flight_mode_enabled
                  (PDict d) (proj1 flag_setters_tables) w1) as T4.
    destruct (load_flag _ _ _ w1) as [[e|] w4];
      [exact (same_tables_trans _ _ _ T4 T1)|].
    cbn [snd] in T4.
    pose proof (load_flag_tables "lookatme_enabled" with_lookatme_enabled
                  (PDict d) (proj2 flag_setters_tables) w4) as T5.
    destruct (load_flag _ _ _ w4) as [[e|] w5];
      [exact (same_tables_trans _ _ _ T5 (same_tables_trans _ _ _ T4 T1))|].
    cbn [snd] in T5.
    pose proof (same_tables_trans _ _ _ T5 (same_tables_trans _ _ _ T4 T1)) as T.
    by rewrite (P6 w5 T).
  - intros f Hf.
    enough (exists w5, load_config_data (PDict d) w = (None, w5)
                       /\ long_press_threshold (keyboard_handler w5) = f)
      as (w5 & -> & L); [done|].
    unfold load_config_data, and_then.
    unfold load_threshold, py_in, py_getitem, od_mem. rewrite Hf.
    cbn [mbind outcome_bind py_float]. rewrite P2, P3.
    set (w1 := update (with_long_press_threshold f) w).
    assert (T1 : same_tables (keyboard_handler w1) (keyboard_handler w))
      by (by repeat split).
    assert (L1 : long_press_threshold (keyboard_handler w1) = f) by reflexivity.
    assert (F : forall key set w0,
              (forall b h, same_tables (set b h) h
                           /\ long_press_threshold (set b h) = long_press_threshold h) ->
              exists w2, load_flag key set (PDict d) w0 = (None, w2)
                /\ same_tables (keyboard_handler w2) (keyboard_handler w0)
                /\ long_press_threshold (keyboard_handler w2)
                   = long_press_threshold (keyboard_handler w0)).
    { intros key set w0 Hset. unfold load_flag, py_in, py_getitem, od_mem.
      destruct (od_get d key) as [v|].
      - eexists. split; [reflexivity|]. apply Hset.
      - exists w0. split; [reflexivity|]. split; [apply same_tables_refl|done]. }
    destruct (F "flight_mode_enabled" with_flight_mode_enabled w1)
      as (w4 & -> & T4 & L4); [intros b h; by repeat split|].
    destruct (F "lookatme_enabled" with_lookatme_enabled w4)
      as (w5 & -> & T5 & L5); [intros b h; by repeat split|].
    pose proof (same_tables_trans _ _ _ T5 (same_tables_trans _ _ _ T4 T1)) as T.
    rewrite (P6 w5 T). exists w5. split; [reflexivity|]. congruence.
Qed.

Lemma in_slots_trans (a b c : KeyboardHandler.t) :
  (pins_in_slots a -> pins_in_slots b) -> (pins_in_slots b -> pins_in_slots c) ->
  pins_in_slots a -> pins_in_slots c.
Proof. auto. Qed.

Lemma same_tables_in_slots a b : same_tables b a -> pins_in_slots a -> pins_in_slots b.
Proof. intros (E & _). unfold pins_in_slots. by rewrite E. Qed.

Lemma setup_default_bindings_in_slots w :
  pins_in_slots (keyboard_handler (setup_default_bindings w)).
Proof.
  destruct (setup_default_bindings_tables w) as (E & _).
  unfold pins_in_slots. rewrite E. apply default_pins_in_slots.
Qed.

Lemma load_config_data_in_slots data :
  keeps (fun a b => pins_in_slots a -> pins_in_slots b) (load_config_data data).
Proof.
  apply load_config_data_keeps.
  - intros a b c. apply in_slots_trans.
  - intros w. apply same_tables_in_slots, load_threshold_tables.
  - intros w Hw. unfold load_table.
    destruct (py_in _ data) as [[|]|e]; [|exact Hw|exact Hw].
    destruct (py_getitem data _) as [bindings|e]; [|exact Hw].
    destruct (py_items bindings) as [items|e]; [|constructor].
    pose proof (load_pin_bindings_in_slots items
                  (keyboard_handler (update (with_pins [] ∅) w))) as Hl.
    destruct (load_pin_bindings items _) as [r h']. apply Hl. constructor.
  - intros w. destruct (load_special_table_pins data w) as [E _].
    unfold pins_in_slots. by rewrite E.
  - intros w. apply same_tables_in_slots, load_flag_tables, flag_setters_tables.
  - intros w. apply same_tables_in_slots, load_flag_tables, flag_setters_tables.
  - intros w Hw. unfold default_if_incomplete.
    destruct (key_bindings (keyboard_handler w)) as [|kv kb] eqn:E1;
      [apply setup_default_bindings_in_slots|].
    destruct (special_key_bindings (keyboard_handler w)) as [|skv skb];
      [apply setup_default_bindings_in_slots|exact Hw].
Qed.

Lemma default_if_incomplete_nonempty w w' :
  default_if_incomplete w = (None, w') ->
  key_bindings (keyboard_handler w') <> []
  /\ special_key_bindings (keyboard_handler w') <> [].
Proof.
  unfold default_if_incomplete. intros Hd.
  assert (Hdef : forall w0, key_bindings (keyboard_handler (setup_default_bindings w0)) <> []
                   /\ special_key_bindings
                        (keyboard_handler (setup_default_bindings w0)) <> []).
  { intros w0. destruct (setup_default_bindings_tables w0) as (-> & _ & -> & _).
    split; discriminate. }
  destruct (key_bindings (keyboard_handler w)) as [|kv kb] eqn:E1;
    [injection Hd as <-; apply Hdef|].
  destruct (special_key_bindings (keyboard_handler w)) as [|skv skb] eqn:E2;
    [injection Hd as <-; apply Hdef|].
  injection Hd as <-. rewrite E1, E2. split; discriminate.
Qed.

(** X8. Whatever [load_config] is given, from the file or from a
    dictionary, well formed or not, the pin table it leaves names slots 1-9
    only, also when the call raises; and when the call returns normally
    both tables hold at least one binding. *)
Theorem load_config_leaves_usable_tables (config_data : option pyval) (w : World) :
  pins_in_slots (keyboard_handler w) ->
  let r := load_config config_data w in
  pins_in_slots (keyboard_handler r.2)
  /\ (r.1 = None ->
      key_bindings (keyboard_handler r.2) <> []
      /\ special_key_bindings (keyboard_handler r.2) <> []).
Proof.
  intros Hw r. subst r.
  assert (Hdata : forall data,
            pins_in_slots (keyboard_handler (load_config_data data w).2)
            /\ ((load_config_data data w).1 = None ->
                key_bindings (keyboard_handler (load_config_data data w).2) <> []
                /\ special_key_bindings
                     (keyboard_handler (load_config_data data w).2) <> [])).
  { intros data. split; [by apply load_config_data_in_slots|].
    destruct (load_config_data data w) as [[e|] w'] eqn:E; [discriminate|].
    intros _. cbn [snd]. unfold load_config_data in E.
    do 5 (apply and_then_None in E as (? & _ & E)).
    by eapply default_if_incomplete_nonempty. }
  assert (Hdef : pins_in_slots (keyboard_handler (setup_default_bindings w))
            /\ (@None exn = None ->
                key_bindings (keyboard_handler (setup_default_bindings w)) <> []
                /\ special_key_bindings
                     (keyboard_handler (setup_default_bindings w)) <> [])).
  { split; [apply setup_default_bindings_in_slots|]. intros _.
    destruct (setup_default_bindings_tables w) as (-> & _ & -> & _).
    split; discriminate. }
  unfold load_config. destruct config_data as [data|]; [apply Hdata|].
  destruct (config_file w) as [content|]; [|exact Hdef].
  destruct (json_loads content) as [data|e]; [apply Hdata|exact Hdef].
Qed.

End loading_into_a_running_handler.

Lemma load_config_without_tables_keeps_bindings_witness :
  od_mem dialog_items "key_bindings_vk" = false
  /\ od_mem dialog_items "special_key_bindings_vk" = false
  /\ key_bindings (keyboard_handler default_world) <> []
  /\ special_key_bindings (keyboard_handler default_world) <> []
  /\ same_tables
       (keyboard_handler
          (@load_config example_builtins (Some dialog_config) default_world).2)
       (keyboard_handler default_world).
Proof.
  assert (Hn1 : key_bindings (keyboard_handler default_world) <> []) by discriminate.
  assert (Hn2 : special_key_bindings (keyboard_handler default_world) <> [])
    by discriminate.
  split; [reflexivity|]. split; [reflexivity|]. split; [exact Hn1|].
  split; [exact Hn2|].
  exact (proj1 (@load_config_without_tables_keeps_bindings example_builtins
                  dialog_items default_world eq_refl eq_refl Hn1 Hn2)).
Defined.

Lemma load_config_leaves_usable_tables_witness :
  pins_in_slots (keyboard_handler default_world)
  /\ pins_in_slots
       (keyboard_handler
          (@load_config example_builtins (Some ragged_config) default_world).2)
  /\ key_bindings
       (keyboard_handler
          (@load_config example_builtins (Some ragged_config) default_world).2)
     = [(3, 72)].
Proof.
  split; [exact default_pins_in_slots|]. split; [|reflexivity].
  exact (proj1 (@load_config_leaves_usable_tables example_builtins
                  (Some ragged_config) default_world default_pins_in_slots)).
Defined.

(* ===================================================================== *)
(** * The handler across key events *)
(* ===================================================================== *)


Lemma only_flags_differ_refl h : only_flags_differ h h.
Proof. by repeat split. Qed.

Lemma only_flags_differ_trans a b c :
  only_flags_differ a b -> only_flags_differ b c -> only_flags_differ a c.
Proof.
  intros (A1 & A2 & A3 & A4 & A5) (B1 & B2 & B3 & B4 & B5).
  split; [congruence|]. split; [congruence|]. split; [congruence|].
  split; [congruence|]. by eapply same_tables_trans.
Qed.

Lemma kh_send_camera_pose pose w :
  keyboard_handler (send_camera_pose pose w).2 = keyboard_handler w.
Proof.
  unfold send_camera_pose, send_message.
  destruct (Z.of_nat (length pose) <? 6); faults_cases w; reflexivity.
Qed.

Lemma kh_send_camera_params z f a e w :
  keyboard_handler (send_camera_params z f a e w).2 = keyboard_handler w.
Proof. unfold send_camera_params, send_messages, send_message. faults_cases w; reflexivity. Qed.

Lemma kh_save_data w : keyboard_handler (save_data w) = keyboard_handler w.
Proof. unfold save_data. by destruct (disk_fails _). Qed.

Lemma kh_save_pin_state pin st desc w :
  keyboard_handler (save_pin_state pin st desc w).2 = keyboard_handler w.
Proof.
  unfold save_pin_state. destruct (negb _); [done|].
  destruct (validate_camera_params _); [|done].
  cbn [snd]. rewrite kh_save_data. by destruct (negb (String.eqb _ _)).
Qed.

Lemma kh_save_pin pin w : keyboard_handler (_save_pin pin w) = keyboard_handler w.
Proof.
  unfold _save_pin, save_current_state_to_pin, get_current_camera_state.
  destruct (get_current_state w) as [st|]; [|done].
  pose proof (kh_save_pin_state pin st "" w) as Hs.
  by destruct (save_pin_state pin st "" w) as [[|] w1].
Qed.

Lemma kh_send_state st w :
  keyboard_handler
    (send_camera_params
       (CameraParams.zoom (CameraState.camera_params st))
       (CameraParams.focal_distance (CameraState.camera_params st))
       (CameraParams.aperture (CameraState.camera_params st))
       (CameraParams.exposure (CameraState.camera_params st))
       (send_camera_pose (to_pose_list st) w).2).2
  = keyboard_handler w.
Proof. by rewrite kh_send_camera_params, kh_send_camera_pose. Qed.

Lemma kh_move_to_pin pin w : keyboard_handler (_move_to_pin pin w) = keyboard_handler w.
Proof.
  unfold _move_to_pin, load_pin_to_camera.
  destruct (load_pin_state pin w) as [st|]; [|reflexivity].
  pose proof (kh_send_state st w) as Hs.
  destruct (send_camera_pose _ w) as [ok1 w1]. cbn [snd] in Hs.
  destruct (send_camera_params _ _ _ _ w1) as [ok2 w2]. cbn [snd] in Hs.
  destruct (ok1 && ok2); exact Hs.
Qed.

Lemma kh_copy_current_state w :
  keyboard_handler (_copy_current_state w) = keyboard_handler w.
Proof.
  unfold _copy_current_state, pyperclip_copy.
  destruct (text_bool _); [|reflexivity].
  by destruct (clipboard_fails _).
Qed.

Lemma kh_parse_clipboard_data t w :
  keyboard_handler (parse_clipboard_data t w).2 = keyboard_handler w.
Proof.
  unfold parse_clipboard_data. destruct (parse_clipboard_body t); [done|].
  by destruct (catches _ _).
Qed.

Lemma kh_move_from_clipboard w :
  keyboard_handler (_move_from_clipboard w) = keyboard_handler w.
Proof.
  unfold _move_from_clipboard. destruct (pyperclip_paste w) as [t|]; [|reflexivity].
  unfold load_from_clipboard_data.
  pose proof (kh_parse_clipboard_data t w) as Hp.
  destruct (parse_clipboard_data t w) as [[[st|]|e] w0]; cbn [snd] in Hp; try done.
  pose proof (kh_send_state st w0) as Hs.
  destruct (send_camera_pose _ w0) as [ok1 w1]. cbn [snd] in Hs.
  destruct (send_camera_params _ _ _ _ w1) as [ok2 w2]. cbn [snd] in Hs.
  rewrite <- Hp, <- Hs. by destruct (ok1 && ok2).
Qed.

Lemma toggles_only_flags w :
  only_flags_differ (keyboard_handler (_toggle_flight_mode w)) (keyboard_handler w)
  /\ only_flags_differ (keyboard_handler (_toggle_lookatme w)) (keyboard_handler w).
Proof.
  unfold _toggle_flight_mode, _toggle_lookatme, send_flying_mode, send_lookatme,
    send_message, save_config.
  faults_cases w; split; by repeat split.
Qed.

Lemma special_action_only_flags action w :
  only_flags_differ (keyboard_handler (_handle_special_action action w))
                    (keyboard_handler w).
Proof.
  unfold _handle_special_action.
  repeat (destruct (String.eqb action _)).
  - rewrite kh_copy_current_state. apply only_flags_differ_refl.
  - rewrite kh_move_from_clipboard. apply only_flags_differ_refl.
  - apply toggles_only_flags.
  - apply toggles_only_flags.
  - apply only_flags_differ_refl.
Qed.

(** What a release leaves of the handler: the key is no longer held and has
    no press time, and nothing else but the flags has changed. *)
Lemma release_only_flags vk now w :
  only_flags_differ (keyboard_handler (_handle_key_release vk now w))
                    (keyboard_handler w)
  \/ only_flags_differ (keyboard_handler (_handle_key_release vk now w))
                       (keyboard_handler (released vk w))
     /\ vk ∈ pressed_keys (keyboard_handler w)
     /\ is_Some (key_press_times (keyboard_handler w) !! vk)
  \/ vk ∈ pressed_keys (keyboard_handler w)
     /\ key_press_times (keyboard_handler w) !! vk = None
     /\ _handle_key_release vk now w
        = update (with_pressed (pressed_keys (keyboard_handler w) ∖ {[vk]})
                               (key_press_times (keyboard_handler w))) w.
Proof.
  unfold _handle_key_release.
  destruct (bool_decide _) eqn:Hp; [|left; apply only_flags_differ_refl].
  apply bool_decide_eq_true_1 in Hp.
  destruct (key_press_times _ !! vk) as [t|] eqn:Ht; [|right; right; done].
  right. left. split; [|split; [done|by eexists]].
  change (update (fun h => with_pressed (pressed_keys h)
                             (delete vk (key_press_times h)) h)
            (update (with_pressed (pressed_keys (keyboard_handler w) ∖ {[vk]})
                                  (key_press_times (keyboard_handler w))) w))
    with (released vk w).
  change (vk_to_pin (keyboard_handler (released vk w)))
    with (vk_to_pin (keyboard_handler w)).
  change (vk_to_special (keyboard_handler (released vk w)))
    with (vk_to_special (keyboard_handler w)).
  destruct (vk_to_pin _ !! vk) as [pin|].
  - match goal with |- context [(?a <=? ?b)%float] => destruct (a <=? b)%float end.
    + rewrite kh_save_pin. apply only_flags_differ_refl.
    + rewrite kh_move_to_pin. apply only_flags_differ_refl.
  - destruct (vk_to_special _ !! vk) as [a|].
    + apply special_action_only_flags.
    + apply only_flags_differ_refl.
Qed.



Lemma press_only_flags vk now w :
  long_press_threshold (keyboard_handler (_handle_key_press vk now w))
  = long_press_threshold (keyboard_handler w)
  /\ is_monitoring (keyboard_handler (_handle_key_press vk now w))
     = is_monitoring (keyboard_handler w)
  /\ same_tables (keyboard_handler (_handle_key_press vk now w)) (keyboard_handler w).
Proof. unfold _handle_key_press. destruct (bool_decide _); by repeat split. Qed.

Lemma press_keeps_held_keys_timed vk now w :
  held_keys_timed (keyboard_handler w) ->
  held_keys_timed (keyboard_handler (_handle_key_press vk now w)).
Proof.
  intros Hw. unfold _handle_key_press. destruct (bool_decide _); [exact Hw|].
  intros v. cbn. rewrite elem_of_union, elem_of_singleton.
  destruct (decide (v = vk)) as [->|Hne].
  - rewrite lookup_insert_eq. split; [by eexists|by left].
  - rewrite lookup_insert_ne by done. rewrite <- (Hw v).
    split; [by intros [?|?]|by right].
Qed.

Lemma held_keys_timed_released vk w :
  held_keys_timed (keyboard_handler w) ->
  held_keys_timed (keyboard_handler (released vk w)).
Proof.
  intros Hw v. cbn. rewrite elem_of_difference, elem_of_singleton.
  destruct (decide (v = vk)) as [->|Hne].
  - rewrite lookup_delete_eq. split; [by intros [_ Hn]|by intros [x Hx]].
  - rewrite lookup_delete_ne by done. rewrite <- (Hw v).
    split; [by intros [? _]|done].
Qed.

Lemma release_keeps_held_keys_timed vk now w :
  held_keys_timed (keyboard_handler w) ->
  held_keys_timed (keyboard_handler (_handle_key_release vk now w)).
Proof.
  intros Hw.
  destruct (release_only_flags vk now w)
    as [(E1 & E2 & _)|[[(E1 & E2 & _) _]|(Hp & Ht & _)]].
  - intros v. rewrite E1, E2. apply Hw.
  - intros v. rewrite E1, E2. by apply held_keys_timed_released.
  - apply Hw in Hp as [x Hx]. congruence.
Qed.

Lemma release_keeps_settings vk now w :
  long_press_threshold (keyboard_handler (_handle_key_release vk now w))
  = long_press_threshold (keyboard_handler w)
  /\ is_monitoring (keyboard_handler (_handle_key_release vk now w))
     = is_monitoring (keyboard_handler w)
  /\ same_tables (keyboard_handler (_handle_key_release vk now w)) (keyboard_handler w).
Proof.
  destruct (release_only_flags vk now w)
    as [(_ & _ & E3 & E4 & E5)|[[(_ & _ & E3 & E4 & E5) _]|(_ & _ & ->)]].
  - split; [exact E3|]. split; [exact E4|exact E5].
  - split; [exact E3|]. split; [exact E4|exact E5].
  - by repeat split.
Qed.

(** Whatever a release runs, the key is not held afterwards. *)
Lemma release_unpresses vk now w :
  pressed_keys (keyboard_handler (_handle_key_release vk now w))
  = pressed_keys (keyboard_handler w) ∖ {[vk]}.
Proof.
  destruct (decide (vk ∈ pressed_keys (keyboard_handler w))) as [Hp|Hp].
  - destruct (release_only_flags vk now w)
      as [(E1 & _)|[[(E1 & _) _]|(_ & _ & ->)]]; [|by rewrite E1|done].
    unfold _handle_key_release in *.
    rewrite bool_decide_eq_true_2 in * by done.
    destruct (key_press_times (keyboard_handler w) !! vk) as [t|] eqn:Ht; [|done].
    revert E1.
    change (update (fun h => with_pressed (pressed_keys h)
                               (delete vk (key_press_times h)) h)
              (update (with_pressed (pressed_keys (keyboard_handler w) ∖ {[vk]})
                                    (key_press_times (keyboard_handler w))) w))
      with (released vk w).
    change (vk_to_pin (keyboard_handler (released vk w)))
      with (vk_to_pin (keyboard_handler w)).
    change (vk_to_special (keyboard_handler (released vk w)))
      with (vk_to_special (keyboard_handler w)).
    intros _.
    destruct (vk_to_pin _ !! vk) as [pin|].
    + match goal with |- context [(?a <=? ?b)%float] => destruct (a <=? b)%float end.
      * by rewrite kh_save_pin.
      * by rewrite kh_move_to_pin.
    + destruct (vk_to_special _ !! vk) as [a|]; [|done].
      by destruct (special_action_only_flags a (released vk w)) as (-> & _).
  - unfold _handle_key_release. rewrite bool_decide_eq_false_2 by done.
    apply set_eq. intros v. rewrite elem_of_difference, elem_of_singleton.
    split; [|by intros [? _]]. intros Hv. split; [done|]. by intros ->.
Qed.

Lemma run_event_step ev w :
  held_keys_timed (keyboard_handler w) ->
  held_keys_timed (keyboard_handler (run_event ev w))
  /\ long_press_threshold (keyboard_handler (run_event ev w))
     = long_press_threshold (keyboard_handler w)
  /\ is_monitoring (keyboard_handler (run_event ev w))
     = is_monitoring (keyboard_handler w)
  /\ same_tables (keyboard_handler (run_event ev w)) (keyboard_handler w).
Proof.
  intros Hw. destruct ev as [key now|key now]; cbn [run_event];
    unfold _on_press, _on_release; destruct (_get_vk_code key) as [vk|];
    try (split; [exact Hw|by repeat split]).
  - split; [by apply press_keeps_held_keys_timed|apply press_only_flags].
  - split; [by apply release_keeps_held_keys_timed|apply release_keeps_settings].
Qed.

(** X9. Whatever presses and releases the listener delivers, and whatever
    the actions they trigger do, the handler keeps its two binding tables,
    its threshold and its monitoring flag, and every held key keeps a press
    time, so the release of a held key always finds the time its duration
    is measured from. *)
Theorem key_events_keep_bindings_and_press_times (evs : list KeyEvent) (w : World) :
  held_keys_timed (keyboard_handler w) ->
  let h' := keyboard_handler (run_events evs w) in
  held_keys_timed h'
  /\ same_tables h' (keyboard_handler w)
  /\ long_press_threshold h' = long_press_threshold (keyboard_handler w)
  /\ is_monitoring h' = is_monitoring (keyboard_handler w).
Proof.
  revert w. induction evs as [|ev evs IH]; intros w Hw;
    [split; [exact Hw|by repeat split]|].
  change (run_events (ev :: evs) w) with (run_events evs (run_event ev w)).
  destruct (run_event_step ev w Hw) as (S1 & S2 & S3 & S4).
  destruct (IH (run_event ev w) S1) as (I1 & I2 & I3 & I4).
  split; [exact I1|]. split; [by eapply same_tables_trans|].
  split; congruence.
Qed.

(** X10. A press followed by the release of a key that is not held and is
    bound to nothing leaves the whole world as it was: no action runs and
    no trace of the key stays in the handler. *)
Theorem tap_of_unbound_key_changes_nothing (vk : Z) (t1 t2 : float) (w : World) :
  held_keys_timed (keyboard_handler w) ->
  vk ∉ pressed_keys (keyboard_handler w) ->
  key_owner (keyboard_handler w) vk = None ->
  _handle_key_release vk t2 (_handle_key_press vk t1 w) = w.
Proof.
  intros Hw Hp Ho.
  assert (Ht : key_press_times (keyboard_handler w) !! vk = None).
  { destruct (key_press_times (keyboard_handler w) !! vk) eqn:E; [|done].
    exfalso. apply Hp, Hw. by eexists. }
  unfold key_owner in Ho.
  destruct (vk_to_pin (keyboard_handler w) !! vk) eqn:E1; [done|].
  destruct (vk_to_special (keyboard_handler w) !! vk) eqn:E2; [done|].
  unfold _handle_key_press. rewrite bool_decide_eq_false_2 by done.
  unfold _handle_key_release.
  destruct w as [h att dm ctl rcv cf df cb out sent fl].
  destruct h as [pk kt thr mon kb rev skb srev fm la].
  cbn in Hp, Ht, E1, E2 |- *.
  rewrite bool_decide_eq_true_2
    by (apply elem_of_union; left; by apply elem_of_singleton).
  rewrite lookup_insert_eq. cbn. rewrite E1, E2.
  unfold update. cbn. rewrite delete_insert_id by done.
  replace (({[vk]} ∪ pk) ∖ {[vk]}) with pk; [done|].
  apply set_eq. intros v.
  rewrite elem_of_difference, elem_of_union, elem_of_singleton.
  split; [|by intros [[->|?] ?]]. intros Hv. split; [by right|]. by intros ->.
Qed.

(** X11. A release that no press is waiting for does nothing: the key is
    not held (so a second release of the same key after the first is
    ignored, whatever the first one ran), monitoring has been stopped in
    between, or the key object has no VK code. *)
Theorem release_without_press_is_ignored
    (vk : Z) (name : string) (t1 t2 : float) (w : World) :
  (vk ∉ pressed_keys (keyboard_handler w) -> _handle_key_release vk t1 w = w)
  /\ _handle_key_release vk t2 (_handle_key_release vk t1 w)
     = _handle_key_release vk t1 w
  /\ _handle_key_release vk t1 (stop_monitoring w) = stop_monitoring w
  /\ _on_release (Key name) t1 w = w
  /\ _on_release (KeyCode None) t1 w = w.
Proof.
  assert (Hidle : forall t w0, vk ∉ pressed_keys (keyboard_handler w0) ->
                    _handle_key_release vk t w0 = w0).
  { intros t w0 Hp. unfold _handle_key_release.
    by rewrite bool_decide_eq_false_2. }
  split; [apply Hidle|]. split; [|split; [|done]].
  - apply Hidle. rewrite release_unpresses, elem_of_difference, elem_of_singleton.
    by intros [_ Hn].
  - apply Hidle. cbn. apply not_elem_of_empty.
Qed.


Lemma held_keys_timed_default : held_keys_timed (keyboard_handler default_world).
Proof.
  intros vk. cbn. rewrite lookup_empty. split; [|by intros [x Hx]].
  intros Hin. by apply not_elem_of_empty in Hin.
Qed.

Lemma key_events_keep_bindings_and_press_times_witness :
  held_keys_timed (keyboard_handler default_world)
  /\ held_keys_timed
       (keyboard_handler (run_events sample_events default_world))
  /\ key_press_times
       (keyboard_handler (run_events sample_events default_world))
     !! 110 = Some 0.1%float.
Proof.
  split; [exact held_keys_timed_default|]. split; [|reflexivity].
  exact (proj1 (key_events_keep_bindings_and_press_times
                  sample_events default_world held_keys_timed_default)).
Defined.

Lemma tap_of_unbound_key_changes_nothing_witness :
  held_keys_timed (keyboard_handler default_world)
  /\ (65 ∉ pressed_keys (keyboard_handler default_world))
  /\ key_owner (keyboard_handler default_world) 65 = None
  /\ _handle_key_release 65 0.3%float
       (_handle_key_press 65 0%float default_world)
     = default_world.
Proof.
  assert (Hp : 65 ∉ pressed_keys (keyboard_handler default_world))
    by apply not_elem_of_empty.
  split; [exact held_keys_timed_default|]. split; [exact Hp|].
  split; [reflexivity|].
  exact (tap_of_unbound_key_changes_nothing 65 0%float 0.3%float
           default_world held_keys_timed_default Hp eq_refl).
Defined.

(* ===================================================================== *)
(** * The toggles when the send goes through *)
(* ===================================================================== *)

(** X12. With a client whose socket works, a toggle flips its flag and
    leaves the other one, sends exactly one message, the new value of the
    flag on the feature's address, prints the new mode, and saves the
    configuration with the new flag when the disk allows; a second toggle
    puts the flag back. *)
Theorem toggle_sends_the_new_flag (w : World) :
  OSCController.client (osc_controller w) <> None ->
  udp_fails (faults w) = false ->
  let h := keyboard_handler w in
  let wf := _toggle_flight_mode w in
  let wl := _toggle_lookatme w in
  (flight_mode_enabled (keyboard_handler wf) = negb (flight_mode_enabled h)
   /\ lookatme_enabled (keyboard_handler wf) = lookatme_enabled h
   /\ udp_sent wf
      = udp_sent w ++ [("/usercamera/Flying", PBool (negb (flight_mode_enabled h)))]
   /\ (disk_fails (faults w) = false ->
       stdout wf = stdout w ++ [("✈️ 飛行モード: {status}",
                                 [on_off (negb (flight_mode_enabled h))])]
       /\ config_file wf = Some (json_dumps (config_data_of (keyboard_handler wf))))
   /\ flight_mode_enabled (keyboard_handler (_toggle_flight_mode wf))
      = flight_mode_enabled h)
  /\ (lookatme_enabled (keyboard_handler wl) = negb (lookatme_enabled h)
      /\ flight_mode_enabled (keyboard_handler wl) = flight_mode_enabled h
      /\ udp_sent wl
         = udp_sent w ++ [("/usercamera/LookAtMe", PBool (negb (lookatme_enabled h)))]
      /\ (disk_fails (faults w) = false ->
          stdout wl = stdout w ++ [("👁️ LookAtMe: {status}",
                                    [on_off (negb (lookatme_enabled h))])]
          /\ config_file wl = Some (json_dumps (config_data_of (keyboard_handler wl))))
      /\ lookatme_enabled (keyboard_handler (_toggle_lookatme wl))
         = lookatme_enabled h).
Proof.
  intros Hc Hu h wf wl. subst h wf wl.
  unfold _toggle_flight_mode, _toggle_lookatme, send_flying_mode, send_lookatme,
    send_message, save_config, update.
  destruct w as [h att dm ctl rcv cf df cb out sent fl].
  destruct h as [pk kt thr mon kb rev skb srev fm la].
  destruct ctl as [ip port [client|]]; [|done].
  destruct fl as [dfl ufl cfl]. cbn in Hu. subst ufl.
  destruct dfl; cbn; rewrite ?negb_involutive; repeat split; done.
Qed.

Lemma toggle_sends_the_new_flag_witness :
  OSCController.client (osc_controller default_world) <> None
  /\ udp_fails (faults default_world) = false
  /\ udp_sent (_toggle_flight_mode default_world)
     = [("/usercamera/Flying", PBool true)]
  /\ flight_mode_enabled
       (keyboard_handler (_toggle_flight_mode (_toggle_flight_mode default_world)))
     = false.
Proof.
  assert (Hc : OSCController.client (osc_controller default_world) <> None)
    by discriminate.
  split; [exact Hc|]. split; [reflexivity|].
  pose proof (proj1 (toggle_sends_the_new_flag default_world Hc eq_refl))
    as (_ & _ & Hs & _ & Hb).
  split; [exact Hs|exact Hb].
Defined.

(* ===================================================================== *)
(** * The receiver's cache *)
(* ===================================================================== *)

Section receiver.
Context `{Builtins}.

Lemma handle_float_param_pose key errfmt args w :
  OSCReceiver.current_pose (osc_receiver (handle_float_param key errfmt args w))
  = OSCReceiver.current_pose (osc_receiver w).
Proof.
  unfold handle_float_param. destruct args as [|a rest]; [done|].
  by destruct (py_float a).
Qed.

Lemma handle_flags_pose args w :
  OSCReceiver.current_pose (osc_receiver (_handle_flying args w))
  = OSCReceiver.current_pose (osc_receiver w)
  /\ OSCReceiver.current_pose (osc_receiver (_handle_lookatme args w))
     = OSCReceiver.current_pose (osc_receiver w).
Proof.
  unfold _handle_flying, _handle_lookatme. destruct args as [|a rest]; [done|].
  cbn. by destruct (keyboard_attached w).
Qed.

Lemma deliver_pose m w :
  full_pose m = false ->
  OSCReceiver.current_pose (osc_receiver (deliver m w))
  = OSCReceiver.current_pose (osc_receiver w).
Proof.
  destruct m as [args now|args|args|args|args|args|args]; cbn [full_pose deliver];
    intros Hm; try apply handle_float_param_pose; try apply handle_flags_pose.
  unfold _handle_pose, _handle_pose_body. by rewrite Hm.
Qed.

Lemma get_current_state_pose w w' :
  OSCReceiver.current_pose (osc_receiver w') = OSCReceiver.current_pose (osc_receiver w) ->
  get_current_state w = None -> get_current_state w' = None.
Proof.
  unfold get_current_state. intros ->.
  destruct (OSCReceiver.current_pose (osc_receiver w))
    as [[|p0 [|p1 [|p2 [|p3 [|p4 [|p5 rest]]]]]]|]; done.
Qed.

(** X13. Only a pose message with at least six arguments changes the
    cached pose: after any sequence of other messages (parameters, flags,
    short poses, malformed arguments) the cached pose is the one from
    before, so as long as none has arrived the receiver has no current
    state, and saving the current state to a pin fails and leaves the pin
    store as it was. *)
Theorem only_full_pose_messages_change_the_pose (ms : list OscMessage) (w : World) :
  forallb (fun m => negb (full_pose m)) ms = true ->
  let w' := deliver_all ms w in
  OSCReceiver.current_pose (osc_receiver w')
  = OSCReceiver.current_pose (osc_receiver w)
  /\ (get_current_state w = None ->
      get_current_state w' = None
      /\ forall pin desc,
           (save_current_state_to_pin pin desc w').1 = false
           /\ data_manager (save_current_state_to_pin pin desc w').2
              = data_manager w').
Proof.
  intros Hms w'.
  assert (Hp : OSCReceiver.current_pose (osc_receiver w')
               = OSCReceiver.current_pose (osc_receiver w)).
  { subst w'. revert w. induction ms as [|m ms IH]; intros w; [done|].
    cbn [forallb] in Hms. apply andb_true_iff in Hms as [Hm Hms].
    change (deliver_all (m :: ms) w) with (deliver_all ms (deliver m w)).
    rewrite (IH Hms). apply deliver_pose. by apply negb_true_iff. }
  split; [exact Hp|]. intros Hn.
  pose proof (get_current_state_pose w w' Hp Hn) as Hn'.
  split; [exact Hn'|]. intros pin desc.
  unfold save_current_state_to_pin, get_current_camera_state. by rewrite Hn'.
Qed.

Lemma params_lookup_zoom f (ps : gmap string pyval) :
  <["zoom" := f]> ps !! "zoom" = Some f
  /\ <["zoom" := f]> ps !! "focal_distance" = ps !! "focal_distance"
  /\ <["zoom" := f]> ps !! "aperture" = ps !! "aperture"
  /\ <["zoom" := f]> ps !! "exposure" = ps !! "exposure".
Proof. rewrite lookup_insert_eq, !lookup_insert_ne by done. done. Qed.

Lemma params_lookup_focal_distance f (ps : gmap string pyval) :
  <["focal_distance" := f]> ps !! "zoom" = ps !! "zoom"
  /\ <["focal_distance" := f]> ps !! "focal_distance" = Some f
  /\ <["focal_distance" := f]> ps !! "aperture" = ps !! "aperture"
  /\ <["focal_distance" := f]> ps !! "exposure" = ps !! "exposure".
Proof. rewrite lookup_insert_eq, !lookup_insert_ne by done. done. Qed.

Lemma params_lookup_aperture f (ps : gmap string pyval) :
  <["aperture" := f]> ps !! "zoom" = ps !! "zoom"
  /\ <["aperture" := f]> ps !! "focal_distance" = ps !! "focal_distance"
  /\ <["aperture" := f]> ps !! "aperture" = Some f
  /\ <["aperture" := f]> ps !! "exposure" = ps !! "exposure".
Proof. rewrite lookup_insert_eq, !lookup_insert_ne by done. done. Qed.

Lemma params_lookup_exposure f (ps : gmap string pyval) :
  <["exposure" := f]> ps !! "zoom" = ps !! "zoom"
  /\ <["exposure" := f]> ps !! "focal_distance" = ps !! "focal_distance"
  /\ <["exposure" := f]> ps !! "aperture" = ps !! "aperture"
  /\ <["exposure" := f]> ps !! "exposure" = Some f.
Proof. rewrite lookup_insert_eq, !lookup_insert_ne by done. done. Qed.

(** X14. A parameter message whose first argument converts to a float
    replaces that one parameter of the current state by the float and
    leaves the pose and the three other parameters; a message whose
    argument does not convert, or that has no argument, leaves the current
    state as it was. *)
Theorem parameter_message_updates_one_field (a : pyval) (rest : list pyval) (w : World) :
  (forall f, py_float a = Returned f ->
     get_current_state (_handle_zoom (a :: rest) w)
     = with_camera_params (set_zoom (PFloat f)) <$> get_current_state w
     /\ get_current_state (_handle_focal_distance (a :: rest) w)
        = with_camera_params (set_focal_distance (PFloat f)) <$> get_current_state w
     /\ get_current_state (_handle_aperture (a :: rest) w)
        = with_camera_params (set_aperture (PFloat f)) <$> get_current_state w
     /\ get_current_state (_handle_exposure (a :: rest) w)
        = with_camera_params (set_exposure (PFloat f)) <$> get_current_state w)
  /\ (forall e, py_float a = Raised e ->
        get_current_state (_handle_zoom (a :: rest) w) = get_current_state w
        /\ get_current_state (_handle_focal_distance (a :: rest) w)
           = get_current_state w
        /\ get_current_state (_handle_aperture (a :: rest) w) = get_current_state w
        /\ get_current_state (_handle_exposure (a :: rest) w) = get_current_state w)
  /\ _handle_zoom [] w = w /\ _handle_focal_distance [] w = w
  /\ _handle_aperture [] w = w /\ _handle_exposure [] w = w.
Proof.
  split; [|split; [|done]].
  - intros f Hf.
    unfold _handle_zoom, _handle_focal_distance, _handle_aperture, _handle_exposure,
      handle_float_param. rewrite Hf.
    unfold get_current_state, set_current_params. cbn.
    destruct (params_lookup_zoom (PFloat f) (OSCReceiver.current_params (osc_receiver w)))
      as (-> & -> & -> & ->).
    destruct (params_lookup_focal_distance (PFloat f)
                (OSCReceiver.current_params (osc_receiver w))) as (-> & -> & -> & ->).
    destruct (params_lookup_aperture (PFloat f)
                (OSCReceiver.current_params (osc_receiver w))) as (-> & -> & -> & ->).
    destruct (params_lookup_exposure (PFloat f)
                (OSCReceiver.current_params (osc_receiver w))) as (-> & -> & -> & ->).
    destruct (OSCReceiver.current_pose (osc_receiver w))
      as [[|p0 [|p1 [|p2 [|p3 [|p4 [|p5 rest']]]]]]|]; done.
  - intros e He.
    unfold _handle_zoom, _handle_focal_distance, _handle_aperture, _handle_exposure,
      handle_float_param. by rewrite He.
Qed.

End receiver.

Lemma only_full_pose_messages_change_the_pose_witness :
  forallb (fun m => negb (full_pose m)) early_messages = true
  /\ get_current_state default_world = None
  /\ get_current_state (@deliver_all example_builtins early_messages default_world)
     = None.
Proof.
  split; [reflexivity|]. split; [reflexivity|].
  exact (proj1 (proj2 (@only_full_pose_messages_change_the_pose example_builtins
                         early_messages default_world eq_refl)
                      eq_refl)).
Defined.

(** X15. A flag message from VRChat decides the handler's flag: with a
    handler attached, after [/usercamera/Flying] (or [/usercamera/LookAtMe])
    the flag is the truth value of the first argument, also right after a
    local toggle has set it otherwise; the message changes nothing else of
    the handler, sends nothing back and leaves the current camera state;
    without a handler attached only the receiver's own record changes. *)
Theorem inbound_flag_message_sets_the_flag (a : pyval) (rest : list pyval) (w : World) :
  let wf := _handle_flying (a :: rest) w in
  let wl := _handle_lookatme (a :: rest) w in
  (keyboard_attached w = true ->
     flight_mode_enabled (keyboard_handler wf) = py_bool a
     /\ lookatme_enabled (keyboard_handler wl) = py_bool a
     /\ flight_mode_enabled
          (keyboard_handler (_handle_flying (a :: rest) (_toggle_flight_mode w)))
        = py_bool a
     /\ lookatme_enabled
          (keyboard_handler (_handle_lookatme (a :: rest) (_toggle_lookatme w)))
        = py_bool a)
  /\ (keyboard_attached w = false ->
        keyboard_handler wf = keyboard_handler w
        /\ keyboard_handler wl = keyboard_handler w)
  /\ OSCReceiver.current_params (osc_receiver wf) !! "flying" = Some (PBool (py_bool a))
  /\ OSCReceiver.current_params (osc_receiver wl) !! "lookatme"
     = Some (PBool (py_bool a))
  /\ only_flags_differ (keyboard_handler wf) (keyboard_handler w)
  /\ only_flags_differ (keyboard_handler wl) (keyboard_handler w)
  /\ lookatme_enabled (keyboard_handler wf) = lookatme_enabled (keyboard_handler w)
  /\ flight_mode_enabled (keyboard_handler wl) = flight_mode_enabled (keyboard_handler w)
  /\ udp_sent wf = udp_sent w /\ udp_sent wl = udp_sent w
  /\ get_current_state wf = get_current_state w
  /\ get_current_state wl = get_current_state w.
Proof.
  intros wf wl. subst wf wl.
  split; [|split].
  - intros Ha.
    unfold _handle_flying, _handle_lookatme, _toggle_flight_mode, _toggle_lookatme,
      send_flying_mode, send_lookatme, send_message, save_config.
    faults_cases w; cbn in Ha; subst att; by repeat split.
  - intros Ha. unfold _handle_flying, _handle_lookatme. cbn. by rewrite Ha.
  - unfold _handle_flying, _handle_lookatme, get_current_state, set_current_params.
    destruct w as [h att dm ctl rcv cf df cb out sent fl].
    destruct rcv as [pose ps t].
    destruct att; cbn; rewrite !lookup_insert_eq, !lookup_insert_ne by done;
      by repeat split.
Qed.

(* ===================================================================== *)
(** * Saving, recalling and copying a state *)
(* ===================================================================== *)

Lemma send_state_sent st w :
  can_send w ->
  send_camera_pose (to_pose_list st) w
  = (true, with_udp_sent (udp_sent w ++ [("/usercamera/Pose", PList (to_pose_list st))]) w)
  /\ forall z f a e,
       (send_camera_params z f a e
          (with_udp_sent (udp_sent w ++ [("/usercamera/Pose", PList (to_pose_list st))]) w))
       = (true,
          with_udp_sent
            (udp_sent w ++ [("/usercamera/Pose", PList (to_pose_list st));
                            ("/usercamera/Zoom", z); ("/usercamera/FocalDistance", f);
                            ("/usercamera/Aperture", a); ("/usercamera/Exposure", e)])
            w).
Proof.
  intros [Hc Hu]. unfold send_camera_pose, send_camera_params, send_messages,
    send_message.
  rewrite to_pose_list_length.
  destruct w as [h att dm ctl rcv cf df cb out sent fl].
  destruct ctl as [ip port [client|]]; [|done].
  destruct fl as [dfl ufl cfl]. cbn in Hu. subst ufl. cbn.
  split; [done|]. intros z f a e. unfold with_udp_sent. cbn.
  by rewrite <- !app_assoc.
Qed.

(** [load_pin_to_camera] when the slot holds a state and the network can be
    reached. *)
Lemma load_pin_to_camera_sent pin st w :
  load_pin_state pin w = Some st -> can_send w ->
  load_pin_to_camera pin w
  = (true,
     print "Pin{pin_number}の状態をカメラに適用しました" [PInt pin]
       (with_udp_sent (udp_sent w ++ state_messages st) w)).
Proof.
  intros Hl Hs. unfold load_pin_to_camera. rewrite Hl.
  destruct (send_state_sent st w Hs) as [-> Hp]. by rewrite Hp.
Qed.

(** X16. [load_pin_to_camera] returns [True] exactly when the slot holds a
    state, the controller has a client and the socket does not raise; it
    then has sent the five messages of that state, pose first and then
    zoom, focal distance, aperture and exposure.  For an empty slot, or
    without a client, it sends nothing.  In no case does it change the pin
    store or the handler. *)
Theorem load_pin_to_camera_outcome (pin : Z) (w : World) :
  let r := load_pin_to_camera pin w in
  (r.1 = true <-> is_Some (load_pin_state pin w) /\ can_send w)
  /\ (forall st, r.1 = true -> load_pin_state pin w = Some st ->
        udp_sent r.2 = udp_sent w ++ state_messages st)
  /\ (load_pin_state pin w = None \/ OSCController.client (osc_controller w) = None ->
        r.1 = false /\ udp_sent r.2 = udp_sent w)
  /\ data_manager r.2 = data_manager w
  /\ keyboard_handler r.2 = keyboard_handler w.
Proof.
  intros r. subst r.
  assert (Hframe : data_manager (load_pin_to_camera pin w).2 = data_manager w
                   /\ keyboard_handler (load_pin_to_camera pin w).2 = keyboard_handler w).
  { unfold load_pin_to_camera. destruct (load_pin_state pin w) as [st|]; [|done].
    pose proof (kh_send_state st w) as Hk.
    destruct (send_camera_pose _ w) as [ok1 w1] eqn:E1. cbn [snd] in Hk.
    destruct (send_camera_params _ _ _ _ w1) as [ok2 w2] eqn:E2. cbn [snd] in Hk.
    assert (data_manager w2 = data_manager w) as Hd.
    { change w2 with (ok2, w2).2. rewrite <- E2, dm_send_camera_params.
      change w1 with (ok1, w1).2. by rewrite <- E1, dm_send_camera_pose. }
    by destruct (ok1 && ok2). }
  destruct (load_pin_state pin w) as [st|] eqn:Hl.
  - destruct (OSCController.client (osc_controller w)) as [client|] eqn:Hc.
    + destruct (udp_fails (faults w)) eqn:Hu.
      * assert (Hr : (load_pin_to_camera pin w).1 = false
                     /\ udp_sent (load_pin_to_camera pin w).2 = udp_sent w).
        { unfold load_pin_to_camera, send_camera_pose, send_camera_params,
            send_messages, send_message.
          rewrite Hl, to_pose_list_length, Hc, Hu. cbn. by rewrite Hc, Hu. }
        destruct Hr as [Hr1 Hr2]. rewrite Hr1.
        split; [split; [done|intros [_ [_ ?]]; congruence]|].
        split; [done|]. split; [|exact Hframe]. intros [?|?]; congruence.
      * assert (Hs : can_send w) by (split; [by rewrite Hc|done]).
        rewrite (load_pin_to_camera_sent pin st w Hl Hs). cbn [fst snd].
        split; [split; [by intros _; split; [eexists|]|done]|].
        split; [by intros st' _ [= <-]|].
        split; [intros [?|?]; congruence|].
        rewrite (load_pin_to_camera_sent pin st w Hl Hs) in Hframe. exact Hframe.
    + assert (Hr : (load_pin_to_camera pin w).1 = false
                   /\ udp_sent (load_pin_to_camera pin w).2 = udp_sent w).
      { unfold load_pin_to_camera, send_camera_pose, send_camera_params.
        rewrite Hl, Hc. cbn. by rewrite Hc. }
      destruct Hr as [Hr1 Hr2]. rewrite Hr1.
      split; [split; [done|intros [_ [? _]]; congruence]|].
      split; [done|]. split; [done|exact Hframe].
  - assert (Hr : (load_pin_to_camera pin w).1 = false
                 /\ udp_sent (load_pin_to_camera pin w).2 = udp_sent w).
    { unfold load_pin_to_camera. by rewrite Hl. }
    destruct Hr as [Hr1 Hr2]. rewrite Hr1.
    split; [split; [done|intros [[? ?] _]; congruence]|].
    split; [done|]. split; [done|exact Hframe].
Qed.

Lemma save_data_frame w :
  udp_sent (save_data w) = udp_sent w
  /\ osc_controller (save_data w) = osc_controller w
  /\ faults (save_data w) = faults w
  /\ osc_receiver (save_data w) = osc_receiver w
  /\ clipboard (save_data w) = clipboard w.
Proof. unfold save_data. by destruct (disk_fails _). Qed.

Lemma save_pin_state_frame pin st desc w :
  let w' := (save_pin_state pin st desc w).2 in
  udp_sent w' = udp_sent w
  /\ osc_controller w' = osc_controller w
  /\ faults w' = faults w
  /\ osc_receiver w' = osc_receiver w
  /\ clipboard w' = clipboard w.
Proof.
  unfold save_pin_state. destruct (negb _); [done|].
  destruct (validate_camera_params _); [|done].
  cbn [snd].
  match goal with |- context [save_data ?x] =>
    destruct (save_data_frame x) as (-> & -> & -> & -> & ->) end.
  by destruct (negb (String.eqb _ _)).
Qed.

Lemma save_pin_state_unchanged pin st desc w :
  (save_pin_state pin st desc w).1 = false ->
  data_manager (save_pin_state pin st desc w).2 = data_manager w
  /\ data_file (save_pin_state pin st desc w).2 = data_file w.
Proof.
  unfold save_pin_state. destruct (negb _); [done|].
  by destruct (validate_camera_params _).
Qed.

Lemma save_pin_state_accepts pin st desc w :
  (save_pin_state pin st desc w).1 = true
  <-> 1 <= pin <= 9
      /\ exists q, validate_camera_params (CameraState.camera_params st) = Returned q.
Proof.
  unfold save_pin_state. destruct (negb _) eqn:Hr.
  - apply negb_true_iff, andb_false_iff in Hr. cbn.
    split; [done|]. intros [Hp _]. destruct Hr as [Hr|Hr]; lia.
  - apply negb_false_iff, andb_true_iff in Hr as [H1 H9].
    destruct (validate_camera_params _) as [q|e]; cbn.
    + split; [|done]. intros _. split; [lia|by exists q].
    + split; [done|]. by intros [_ [q ?]].
Qed.

Lemma save_pin_state_others pin st desc w p :
  p <> pin ->
  load_pin_state p (save_pin_state pin st desc w).2 = load_pin_state p w.
Proof.
  intros Hp. unfold save_pin_state, load_pin_state. destruct (negb _); [done|].
  destruct (validate_camera_params _); [|done].
  cbn [snd]. rewrite data_manager_save_data.
  destruct (negb (String.eqb _ _)); cbn; rewrite od_get_set; by rewrite decide_False.
Qed.

(** X17. [save_current_state_to_pin] returns [True] exactly when the slot
    is in 1-9, a pose has been received and the parameters of the current
    state are numbers the validator accepts.  It then holds the current
    pose with the clamped parameters in that slot and leaves the other
    slots.  When it returns [False] the pin store and its file are as
    before.  In no case does it send anything or change the receiver. *)
Theorem save_current_state_to_pin_outcome (pin : Z) (desc : string) (w : World) :
  let r := save_current_state_to_pin pin desc w in
  (r.1 = true <->
     1 <= pin <= 9
     /\ exists st q, get_current_state w = Some st
          /\ validate_camera_params (CameraState.camera_params st) = Returned q)
  /\ (forall st q, r.1 = true -> get_current_state w = Some st ->
        validate_camera_params (CameraState.camera_params st) = Returned q ->
        load_pin_state pin r.2
        = Some (CameraState.mk (CameraState.position st) (CameraState.rotation st) q))
  /\ (forall p, p <> pin -> load_pin_state p r.2 = load_pin_state p w)
  /\ (r.1 = false -> data_manager r.2 = data_manager w /\ data_file r.2 = data_file w)
  /\ udp_sent r.2 = udp_sent w
  /\ osc_receiver r.2 = osc_receiver w.
Proof.
  intros r. subst r. unfold save_current_state_to_pin, get_current_camera_state.
  destruct (get_current_state w) as [st|] eqn:Hg.
  2:{ cbn. repeat split; try done. by intros [_ (st & q & ? & _)]. }
  pose proof (save_pin_state_accepts pin st desc w) as Ha.
  pose proof (save_pin_state_unchanged pin st desc w) as Hu.
  pose proof (save_pin_state_frame pin st desc w) as Hf. cbv zeta in Hf.
  pose proof (fun p => save_pin_state_others pin st desc w p) as Ho.
  pose proof (save_pin_state_stored pin st desc w) as Hs.
  destruct (save_pin_state pin st desc w) as [[|] w1]; cbn [fst snd] in *.
  - destruct Hf as (F1 & _ & _ & F4 & _).
    split; [split; [|done]|].
    { intros _. destruct (proj1 Ha eq_refl) as [Hp [q Hq]].
      split; [done|]. by exists st, q. }
    split.
    { intros st' q _ [= <-] Hq. destruct (Hs w1 eq_refl) as (q' & Hq' & Hl).
      unfold load_pin_state in *. cbn. congruence. }
    split; [exact Ho|]. by repeat split.
  - destruct Hf as (F1 & _ & _ & F4 & _).
    split; [split; [done|]|].
    { intros [Hp (st' & q & [= <-] & Hq)].
      assert (false = true) by (apply Ha; split; [done|by exists q]). done. }
    split; [done|]. split; [exact Ho|]. by repeat split; try apply Hu.
Qed.

Lemma parse_created_clipboard st pin_number w :
  parse_clipboard_data (create_clipboard_data st pin_number) w = (Returned (Some st), w).
Proof.
  destruct st as [[x y z] [rx ry rz] [zoom focal aperture exposure]].
  destruct pin_number as [n|]; reflexivity.
Qed.

(** X18. A long press followed by a short press on a pin key brings the
    camera back: when a pose has been received, the slot is in 1-9, the
    parameters validate and the network can be reached, [_save_pin] and
    then [_move_to_pin] on that slot send exactly the five messages of the
    state that was current at the save, with its parameters clamped into
    their ranges. *)
Theorem saved_pin_is_recalled (pin : Z) (st : CameraState.t) (q : CameraParams.t)
    (w : World) :
  get_current_state w = Some st ->
  1 <= pin <= 9 ->
  validate_camera_params (CameraState.camera_params st) = Returned q ->
  can_send w ->
  udp_sent (_move_to_pin pin (_save_pin pin w))
  = udp_sent w
    ++ state_messages
         (CameraState.mk (CameraState.position st) (CameraState.rotation st) q)
  /\ params_in_range q = true.
Proof.
  intros Hg Hp Hq Hs. split; [|by eapply validate_returns_in_range].
  set (st' := CameraState.mk _ _ q).
  assert (Hsave : load_pin_state pin (_save_pin pin w) = Some st'
                  /\ can_send (_save_pin pin w)
                  /\ udp_sent (_save_pin pin w) = udp_sent w).
  { unfold _save_pin, save_current_state_to_pin, get_current_camera_state.
    rewrite Hg.
    pose proof (proj2 (save_pin_state_accepts pin st "" w)
                      (conj Hp (ex_intro _ q Hq))) as Ha.
    pose proof (save_pin_state_frame pin st "" w) as Hf. cbv zeta in Hf.
    pose proof (save_pin_state_stored pin st "" w) as Hst.
    destruct (save_pin_state pin st "" w) as [ok w1]. cbn [fst snd] in *. subst ok.
    destruct (Hst w1 eq_refl) as (q' & Hq' & Hl).
    destruct Hf as (F1 & F2 & F3 & _).
    split; [|split].
    - unfold load_pin_state in *. cbn. rewrite Hl. subst st'. congruence.
    - destruct Hs as [Hc Hu]. unfold can_send. cbn. by rewrite F2, F3.
    - exact F1. }
  destruct Hsave as (Hl & Hs' & Hu).
  unfold _move_to_pin. rewrite (load_pin_to_camera_sent pin st' _ Hl Hs').
  cbn. by rewrite Hu.
Qed.

Lemma saved_pin_is_recalled_witness :
  get_current_state zoomed_world
  = Some (with_camera_params (set_zoom (PFloat 500)) sample_state)
  /\ can_send zoomed_world
  /\ udp_sent (_move_to_pin 4 (_save_pin 4 zoomed_world))
     = state_messages (with_camera_params (set_zoom (PFloat 150)) sample_state).
Proof.
  assert (Hs : can_send zoomed_world) by (split; [discriminate|reflexivity]).
  split; [reflexivity|]. split; [exact Hs|].
  exact (proj1 (saved_pin_is_recalled 4
                  (with_camera_params (set_zoom (PFloat 500)) sample_state)
                  (set_zoom (PFloat 150) (CameraState.camera_params sample_state))
                  zoomed_world eq_refl ltac:(lia) eq_refl Hs)).
Defined.

(** X19. Copying the current state and then moving from the clipboard
    brings the camera back: when a pose has been received, the clipboard
    works and the network can be reached, [_copy_current_state] puts the
    encoding of the current state on the clipboard and [_move_from_clipboard]
    then sends exactly the five messages of that state, its parameters as
    they were received, without clamping; the pin store is not touched. *)
Theorem copied_state_is_applied (st : CameraState.t) (w : World) :
  get_current_state w = Some st ->
  clipboard_fails (faults w) = false ->
  can_send w ->
  let w1 := _copy_current_state w in
  let w2 := _move_from_clipboard w1 in
  clipboard w1 = create_clipboard_data st None
  /\ udp_sent w1 = udp_sent w
  /\ udp_sent w2 = udp_sent w ++ state_messages st
  /\ data_manager w2 = data_manager w.
Proof.
  intros Hg Hcb Hs w1 w2.
  assert (E1 : w1 = print "📋 現在カメラ状態をクリップボードに保存しました" []
                      (with_clipboard (create_clipboard_data st None) w)).
  { subst w1. unfold _copy_current_state, copy_current_state_to_clipboard,
      get_current_camera_state, pyperclip_copy.
    rewrite Hg, Hcb. reflexivity. }
  assert (Hs1 : can_send w1) by (by rewrite E1).
  assert (E2 : w2 = print "📥 クリップボードの状態に移動しました" []
                      (with_udp_sent (udp_sent w1 ++ state_messages st) w1)).
  { subst w2. unfold _move_from_clipboard, pyperclip_paste.
    replace (clipboard_fails (faults w1)) with false by (by rewrite E1).
    replace (clipboard w1) with (create_clipboard_data st None) by (by rewrite E1).
    unfold load_from_clipboard_data. rewrite parse_created_clipboard.
    destruct (send_state_sent st w1 Hs1) as [-> Hp]. by rewrite Hp. }
  split; [by rewrite E1|]. split; [by rewrite E1|].
  split; [by rewrite E2, E1|]. by rewrite E2, E1.
Qed.

Lemma copied_state_is_applied_witness :
  get_current_state zoomed_world
  = Some (with_camera_params (set_zoom (PFloat 500)) sample_state)
  /\ clipboard_fails (faults zoomed_world) = false
  /\ can_send zoomed_world
  /\ udp_sent (_move_from_clipboard (_copy_current_state zoomed_world))
     = state_messages (with_camera_params (set_zoom (PFloat 500)) sample_state).
Proof.
  assert (Hs : can_send zoomed_world) by (split; [discriminate|reflexivity]).
  split; [reflexivity|]. split; [reflexivity|]. split; [exact Hs|].
  exact (proj1 (proj2 (proj2 (copied_state_is_applied
                                (with_camera_params (set_zoom (PFloat 500)) sample_state)
                                zoomed_world eq_refl eq_refl Hs)))).
Defined.

(* ===================================================================== *)
(** * Validated states and the pin file *)
(* ===================================================================== *)

(** Clamping a clamped value returns it: the result of a clamp is the value
    itself, strictly inside the range, or one of the two bounds. *)
Lemma clamp_idempotent range v r :
  range_ok range = true -> clamp range v = Returned r -> clamp range r = Returned r.
Proof.
  destruct range as [lo hi]. unfold range_ok. cbn [fst snd].
  rewrite !andb_true_iff. intros [[_ Hlt] _] Hc.
  pose proof (clamp_returns_number _ _ _ Hc) as Hn. unfold is_number in Hn.
  destruct (as_number v) as [n|] eqn:En; [|discriminate]. clear Hn.
  revert Hc. unfold clamp. cbn [fst snd].
  rewrite (py_min_number hi v n En). cbn [mbind outcome_bind].
  destruct (num_ltb n (NFloat hi)) eqn:B1.
  - rewrite (py_max_number lo v n En).
    destruct (num_ltb (NFloat lo) n) eqn:B2; intros [= <-].
    + rewrite (py_min_number hi v n En), B1. cbn [mbind outcome_bind].
      by rewrite (py_max_number lo v n En), B2.
    + rewrite (py_min_number hi (PFloat lo) (NFloat lo) eq_refl).
      cbn [num_ltb]. rewrite Hlt. cbn [mbind outcome_bind].
      rewrite (py_max_number lo (PFloat lo) (NFloat lo) eq_refl).
      match goal with |- context [if ?b then _ else _] => by destruct b end.
  - rewrite (py_max_number lo (PFloat hi) (NFloat hi) eq_refl).
    cbn [num_ltb]. rewrite Hlt. intros [= <-].
    rewrite (py_min_number hi (PFloat hi) (NFloat hi) eq_refl).
    match goal with |- context [if ?b then _ else _] => destruct b end;
      cbn [mbind outcome_bind];
      rewrite (py_max_number lo (PFloat hi) (NFloat hi) eq_refl);
      cbn [num_ltb]; by rewrite Hlt.
Qed.

Lemma validate_idempotent p q :
  validate_camera_params p = Returned q -> validate_camera_params q = Returned q.
Proof.
  unfold validate_camera_params, validate_zoom, validate_focal_distance,
    validate_aperture, validate_exposure.
  destruct (clamp ZOOM_RANGE _) as [z|] eqn:Ez; [|discriminate].
  destruct (clamp FOCAL_DISTANCE_RANGE _) as [f|] eqn:Ef; [|discriminate].
  destruct (clamp APERTURE_RANGE _) as [a|] eqn:Ea; [|discriminate].
  destruct (clamp EXPOSURE_RANGE _) as [e|] eqn:Ee; [|discriminate].
  cbn [mbind outcome_bind]. intros [= <-]. cbn.
  rewrite (clamp_idempotent ZOOM_RANGE _ _ eq_refl Ez).
  rewrite (clamp_idempotent FOCAL_DISTANCE_RANGE _ _ eq_refl Ef).
  rewrite (clamp_idempotent APERTURE_RANGE _ _ eq_refl Ea).
  rewrite (clamp_idempotent EXPOSURE_RANGE _ _ eq_refl Ee).
  reflexivity.
Qed.

(** X20. Validation is idempotent: the parameters that
    [validate_camera_params] returns are returned unchanged, field for
    field, when they are validated again, so a state that was stored in a
    pin is stored as it is when it is saved a second time. *)
Theorem validate_camera_params_is_idempotent (p q : CameraParams.t) :
  validate_camera_params p = Returned q ->
  validate_camera_params q = Returned q
  /\ forall pin pos rot desc w w',
       save_pin_state pin (CameraState.mk pos rot q) desc w = (true, w') ->
       load_pin_state pin w' = Some (CameraState.mk pos rot q).
Proof.
  intros Hv. pose proof (validate_idempotent p q Hv) as Hq.
  split; [exact Hq|]. intros pin pos rot desc w w' Hs.
  destruct (save_pin_state_stored _ _ _ _ _ Hs) as (q' & Hq' & Hl).
  cbn in Hq', Hl. rewrite Hl. congruence.
Qed.

Lemma validate_camera_params_is_idempotent_witness :
  validate_camera_params edge_params
  = Returned (CameraParams.mk (PFloat 150) (PFloat 10) (PInt 8) (PFloat (-0.5)))
  /\ validate_camera_params
       (CameraParams.mk (PFloat 150) (PFloat 10) (PInt 8) (PFloat (-0.5)))
     = Returned (CameraParams.mk (PFloat 150) (PFloat 10) (PInt 8) (PFloat (-0.5))).
Proof.
  split; [reflexivity|].
  exact (proj1 (validate_camera_params_is_idempotent edge_params _ eq_refl)).
Defined.

Section pin_store.
Context `{Builtins}.

Lemma store_wf_set_pin m pin st :
  store_wf m -> 1 <= pin <= 9 -> validated st ->
  store_wf (CameraDataManager.mk (od_set (CameraDataManager.pin_states m) pin st)
                                 (CameraDataManager.descriptions m)).
Proof.
  intros (N1 & F1 & N2 & F2) Hp Hv. split; [|split; [|split]]; cbn.
  - by apply od_set_NoDup.
  - by apply Forall_od_set.
  - exact N2.
  - exact F2.
Qed.

Lemma store_wf_set_description m pin d :
  store_wf m -> 1 <= pin <= 9 ->
  store_wf (CameraDataManager.mk (CameraDataManager.pin_states m)
                                 (od_set (CameraDataManager.descriptions m) pin d)).
Proof.
  intros (N1 & F1 & N2 & F2) Hp. split; [|split; [|split]]; cbn; try done.
  - by apply od_set_NoDup.
  - by apply Forall_od_set.
Qed.

Lemma store_wf_del_description m pin :
  store_wf m ->
  store_wf (CameraDataManager.mk (CameraDataManager.pin_states m)
                                 (od_del (CameraDataManager.descriptions m) pin)).
Proof.
  intros (N1 & F1 & N2 & F2). split; [|split; [|split]]; cbn; try done.
  - by apply od_del_NoDup.
  - by apply Forall_od_del.
Qed.

Lemma store_wf_del_pin m pin :
  store_wf m ->
  store_wf (CameraDataManager.mk (od_del (CameraDataManager.pin_states m) pin)
                                 (CameraDataManager.descriptions m)).
Proof.
  intros (N1 & F1 & N2 & F2). split; [|split; [|split]]; cbn; try done.
  - by apply od_del_NoDup.
  - by apply Forall_od_del.
Qed.

Lemma save_pin_state_wf pin st desc w :
  store_wf (data_manager w) -> store_wf (data_manager (save_pin_state pin st desc w).2).
Proof.
  intros Hw. unfold save_pin_state. destruct (negb _) eqn:Hr; [done|].
  apply negb_false_iff, andb_true_iff in Hr as [H1 H9].
  destruct (validate_camera_params _) as [q|e] eqn:Ev; [|done].
  cbn [snd]. rewrite data_manager_save_data.
  assert (Hs : store_wf (CameraDataManager.mk
              (od_set (CameraDataManager.pin_states (data_manager w)) pin
                 (CameraState.mk (CameraState.position st) (CameraState.rotation st) q))
              (CameraDataManager.descriptions (data_manager w)))).
  { apply store_wf_set_pin; [done|lia|]. unfold validated. cbn.
    by eapply validate_idempotent. }
  destruct (negb (String.eqb _ _)); cbn; [|exact Hs].
  apply (store_wf_set_description _ pin _ Hs). lia.
Qed.

Lemma delete_pin_state_wf pin w :
  store_wf (data_manager w) -> store_wf (data_manager (delete_pin_state pin w).2).
Proof.
  intros Hw. unfold delete_pin_state. destruct (od_mem _ _); [|done].
  cbn [snd]. rewrite data_manager_save_data. cbn.
  apply (store_wf_del_description
           (CameraDataManager.mk
              (od_del (CameraDataManager.pin_states (data_manager w)) pin)
              (CameraDataManager.descriptions (data_manager w)))).
  by apply store_wf_del_pin.
Qed.

Lemma set_description_wf pin desc w :
  store_wf (data_manager w) -> store_wf (data_manager (set_description pin desc w)).
Proof.
  intros Hw. unfold set_description. destruct ((1 <=? pin) && (pin <=? 9)) eqn:Hr; [|done].
  apply andb_true_iff in Hr as [H1 H9].
  rewrite data_manager_save_data.
  destruct (negb (String.eqb _ _)); cbn.
  - destruct (data_manager w) as [ps ds] eqn:E.
    apply (store_wf_set_description (CameraDataManager.mk ps ds)); [done|lia].
  - destruct (data_manager w) as [ps ds] eqn:E.
    by apply (store_wf_del_description (CameraDataManager.mk ps ds)).
Qed.

Lemma load_one_pin_wf pin_str state_data w w' :
  store_wf (data_manager w) -> load_one_pin pin_str state_data w = Returned w' ->
  store_wf (data_manager w').
Proof.
  intros Hw. unfold load_one_pin.
  destruct (py_int_of_str pin_str) as [pin|]; [|discriminate].
  cbn [mbind outcome_bind].
  destruct ((1 <=? pin) && (pin <=? 9)) eqn:Hr; [|by intros [= <-]].
  apply andb_true_iff in Hr as [H1 H9].
  destruct (from_dict state_data) as [st|]; [|discriminate].
  cbn [mbind outcome_bind].
  destruct (validate_camera_params _) as [q|] eqn:Ev; [|discriminate].
  cbn [mbind outcome_bind]. intros [= <-]. cbn.
  destruct (data_manager w) as [ps ds] eqn:E.
  apply (store_wf_set_pin (CameraDataManager.mk ps ds)); [done|lia|].
  unfold validated. cbn. by eapply validate_idempotent.
Qed.

Lemma load_pins_wf items w :
  store_wf (data_manager w) -> store_wf (data_manager (load_pins items w).2).
Proof.
  revert w. induction items as [|[pin_str state_data] items IH]; intros w Hw; [done|].
  cbn [load_pins]. destruct (load_one_pin _ _ _) as [w'|e] eqn:E.
  - apply IH. by eapply load_one_pin_wf.
  - destruct (catches _ e); [by apply IH|done].
Qed.

Lemma load_one_description_wf pin_str desc w w' :
  store_wf (data_manager w) -> load_one_description pin_str desc w = Returned w' ->
  store_wf (data_manager w').
Proof.
  intros Hw. unfold load_one_description.
  destruct (py_int_of_str pin_str) as [pin|]; [|discriminate].
  cbn [mbind outcome_bind].
  destruct ((1 <=? pin) && (pin <=? 9)) eqn:Hr; [|by intros [= <-]].
  apply andb_true_iff in Hr as [H1 H9]. intros [= <-]. cbn.
  destruct (data_manager w) as [ps ds] eqn:E.
  apply (store_wf_set_description (CameraDataManager.mk ps ds)); [done|lia].
Qed.

Lemma load_descriptions_wf items w :
  store_wf (data_manager w) -> store_wf (data_manager (load_descriptions items w).2).
Proof.
  revert w. induction items as [|[pin_str desc] items IH]; intros w Hw; [done|].
  cbn [load_descriptions]. destruct (load_one_description _ _ _) as [w'|e] eqn:E.
  - apply IH. by eapply load_one_description_wf.
  - destruct (catches _ e); [by apply IH|done].
Qed.

Lemma load_data_wf w :
  store_wf (data_manager w) -> store_wf (data_manager (load_data w)).
Proof.
  intros Hw. unfold load_data.
  assert (Hb : store_wf (data_manager (load_data_body w).2)).
  { unfold load_data_body. destruct (data_file w); [|done].
    destruct (json_loads _) as [data|]; [|done].
    destruct (_ ≫= _) as [poses|]; [|done].
    pose proof (load_pins_wf poses w Hw) as Hp.
    destruct (load_pins poses w) as [[e|] w1]; [done|]. cbn [snd] in Hp.
    destruct (_ ≫= _) as [descs|]; [|done].
    by apply load_descriptions_wf. }
  destruct (load_data_body w) as [[e|] w1]; done.
Qed.

Lemma run_store_op_wf op w :
  store_wf (data_manager w) -> store_wf (data_manager (run_store_op op w)).
Proof.
  intros Hw. destruct op; cbn [run_store_op].
  - by apply save_pin_state_wf.
  - by apply delete_pin_state_wf.
  - by apply set_description_wf.
  - by apply load_data_wf.
Qed.

Lemma run_store_ops_wf ops w :
  store_wf (data_manager w) -> store_wf (data_manager (run_store_ops ops w)).
Proof.
  revert w. induction ops as [|op ops IH]; intros w Hw; [exact Hw|].
  change (run_store_ops (op :: ops) w) with (run_store_ops ops (run_store_op op w)).
  apply IH. by apply run_store_op_wf.
Qed.

Lemma store_wf_empty : store_wf (CameraDataManager.mk [] []).
Proof. repeat split; constructor. Qed.

(** X21. The pin store stays well formed under every operation of the
    manager: starting from the constructor, whatever file it finds, and
    after any sequence of [save_pin_state], [delete_pin_state],
    [set_description] and [load_data] calls, accepted or not, the slots of
    the stored states and of the descriptions are in 1-9, and every stored
    state is one the validator leaves unchanged. *)
Theorem pin_store_stays_well_formed (ops : list StoreOp) (w0 : World) :
  let w := run_store_ops ops (CameraDataManager_init w0) in
  store_wf (data_manager w)
  /\ (forall pin st, load_pin_state pin w = Some st ->
        1 <= pin <= 9
        /\ validate_camera_params (CameraState.camera_params st)
           = Returned (CameraState.camera_params st)
        /\ params_in_range (CameraState.camera_params st) = true)
  /\ (forall pin, get_description pin w <> "" -> 1 <= pin <= 9).
Proof.
  intros w.
  assert (Hw : store_wf (data_manager w)).
  { subst w. apply run_store_ops_wf. unfold CameraDataManager_init.
    apply load_data_wf, store_wf_empty. }
  split; [exact Hw|]. destruct Hw as (N1 & F1 & N2 & F2). split.
  - intros pin st Hl. unfold load_pin_state in Hl.
    apply od_get_elem_of in Hl; [|exact N1].
    rewrite Forall_forall in F1. destruct (F1 _ Hl) as [Hp Hv]. cbn in Hp, Hv.
    split; [exact Hp|]. split; [exact Hv|]. by eapply validate_returns_in_range.
  - intros pin Hd. unfold get_description in Hd.
    destruct (od_get _ pin) as [d|] eqn:E; [|done].
    apply od_get_elem_of in E; [|exact N2].
    rewrite Forall_forall in F2. exact (F2 _ E).
Qed.

End pin_store.

Section pin_file.
Context `{Builtins}.

(** [str] is injective on the slots, so the dictionary comprehensions of
    [save_data] keep every entry. *)
Lemma slot_keys_NoDup {V : Type} (enc : V -> pyval) (items : list (Z * V)) :
  Forall (fun kv => 1 <= fst kv <= 9) items ->
  NoDup items.*1 ->
  NoDup (map (fun kv => (py_str_of_int (fst kv), enc (snd kv))) items).*1.
Proof.
  intros Hall Hnd. induction Hall as [|[p v] items Hp Hall IH]; [constructor|].
  cbn in *. apply NoDup_cons in Hnd as [Hnotin Hnd]. apply NoDup_cons.
  split; [|auto].
  intros Hin. apply Hnotin.
  apply list_elem_of_fmap in Hin as [[s x] [Hs Hin]].
  apply list_elem_of_fmap in Hin as [[q u] [[= -> ->] Hin]]. cbn in Hs.
  rewrite Forall_forall in Hall. pose proof (Hall _ Hin) as Hq. cbn in Hq.
  assert (Returned p = Returned q) as [= ->].
  { rewrite <- (int_of_str_of_slot p Hp), <- (int_of_str_of_slot q Hq).
    by rewrite Hs. }
  apply list_elem_of_fmap. by exists (q, u).
Qed.

Lemma from_dict_to_dict s : from_dict (to_dict s) = Returned s.
Proof. destruct s as [[x y z] [rx ry rz] [zoom focal aperture exposure]]. reflexivity. Qed.

Lemma load_pins_saved items w :
  Forall (fun kv : Z * CameraState.t => 1 <= fst kv <= 9 /\ validated (snd kv)) items ->
  load_pins (map enc_state items) w
  = (None,
     set_pin_states
       (fold_left (fun d kv => od_set d (fst kv) (snd kv)) items
                  (CameraDataManager.pin_states (data_manager w))) w).
Proof.
  intros Hall. revert w. induction Hall as [|[p st] items [Hp Hv] _ IH]; intros w.
  - destruct w as [h att [ps ds] ctl rcv cf df cb out sent fl]. reflexivity.
  - cbn [map enc_state fst snd load_pins fold_left]. cbn [fst snd] in Hp, Hv.
    unfold load_one_pin. rewrite (int_of_str_of_slot p Hp).
    cbn [mbind outcome_bind].
    replace ((1 <=? p) && (p <=? 9)) with true
      by (symmetry; apply andb_true_iff; lia).
    rewrite from_dict_to_dict. cbn [mbind outcome_bind].
    unfold validated in Hv. rewrite Hv. cbn [mbind outcome_bind].
    rewrite IH. destruct st as [pos rot par]. reflexivity.
Qed.

Lemma load_descriptions_saved items w :
  (forall s, py_str (PStr s) = s) ->
  Forall (fun kv : Z * string => 1 <= fst kv <= 9) items ->
  load_descriptions (map enc_description items) w
  = (None,
     set_descriptions
       (fold_left (fun d kv => od_set d (fst kv) (snd kv)) items
                  (CameraDataManager.descriptions (data_manager w))) w).
Proof.
  intros Hstr Hall. revert w. induction Hall as [|[p d] items Hp _ IH]; intros w.
  - destruct w as [h att [ps ds] ctl rcv cf df cb out sent fl]. reflexivity.
  - cbn [map enc_description fst snd load_descriptions fold_left]. cbn [fst] in Hp.
    unfold load_one_description. rewrite (int_of_str_of_slot p Hp).
    cbn [mbind outcome_bind].
    replace ((1 <=? p) && (p <=? 9)) with true
      by (symmetry; apply andb_true_iff; lia).
    rewrite IH, Hstr. reflexivity.
Qed.

(** X22. The pin file round trip: when the store is well formed (as the
    manager's methods keep it) and the file can be written, [save_data]
    followed by the constructor of a new manager on that file gives back
    the same pin states and descriptions, in the same order, and prints no
    error. *)
Theorem pin_file_round_trip (w : World) :
  (forall s, py_str (PStr s) = s) ->
  store_wf (data_manager w) ->
  disk_fails (faults w) = false ->
  let w' := CameraDataManager_init (save_data w) in
  data_manager w' = data_manager w
  /\ stdout w' = stdout w
  /\ data_file w' = data_file (save_data w)
  /\ forall pin, load_pin_state pin w' = load_pin_state pin w
                 /\ get_description pin w' = get_description pin w.
Proof.
  intros Hstr (N1 & F1 & N2 & F2) Hd w'.
  enough (Hw : data_manager w' = data_manager w /\ stdout w' = stdout w
               /\ data_file w' = data_file (save_data w)).
  { destruct Hw as (E1 & E2 & E3). repeat split; try done.
    - unfold load_pin_state. by rewrite E1.
    - unfold get_description. by rewrite E1. }
  subst w'. unfold CameraDataManager_init, save_data. rewrite Hd.
  fold enc_state. fold enc_description.
  assert (K1 : Forall (fun kv : Z * CameraState.t => 1 <= fst kv <= 9)
                      (CameraDataManager.pin_states (data_manager w))).
  { eapply Forall_impl; [exact F1|]. by intros kv [? _]. }
  rewrite (od_of_list_NoDup (map enc_state _))
    by (apply (slot_keys_NoDup to_dict); assumption).
  rewrite (od_of_list_NoDup (map enc_description _))
    by (apply (slot_keys_NoDup PStr); assumption).
  unfold load_data, load_data_body. cbn [data_file with_data_manager with_data_file].
  cbn [json_loads json_dumps py_get od_get mbind outcome_bind py_items].
  rewrite !decide_True by done. cbn [mbind outcome_bind py_items].
  rewrite (load_pins_saved _ _ F1). cbn [od_get].
  rewrite decide_False by done. rewrite decide_True by done.
  cbn [mbind outcome_bind py_items].
  rewrite (load_descriptions_saved _ _ Hstr F2).
  destruct w as [h att [ps ds] ctl rcv cf df cb out sent fl].
  cbn in N1, N2 |- *.
  rewrite !od_fold_set_fresh by done. by repeat split.
Qed.

End pin_file.

Lemma pin_file_round_trip_witness :
  (forall s, @py_str example_builtins (PStr s) = s)
  /\ store_wf (data_manager sample_store_world)
  /\ disk_fails (faults sample_store_world) = false
  /\ data_manager (@CameraDataManager_init example_builtins
                     (save_data sample_store_world))
     = data_manager sample_store_world
  /\ get_description 7 sample_store_world = "tower".
Proof.
  assert (Hs : forall s, @py_str example_builtins (PStr s) = s) by reflexivity.
  assert (Hw : store_wf (data_manager sample_store_world)).
  { apply (@run_store_ops_wf example_builtins). apply store_wf_empty. }
  split; [exact Hs|]. split; [exact Hw|]. split; [reflexivity|].
  split; [|reflexivity].
  exact (proj1 (@pin_file_round_trip example_builtins sample_store_world
                  Hs Hw eq_refl)).
Defined.

(* ===================================================================== *)
(** * Deleting pins and describing them *)
(* ===================================================================== *)

(** X23. [delete_pin_state] (and with it [delete_pin]) returns [True]
    exactly when the slot holds a state; for an empty slot it changes
    nothing.  After a deletion the slot is empty and has no description,
    the other slots and their descriptions are as before, and a second
    deletion of the same slot returns [False]. *)
Theorem delete_pin_state_outcome (pin : Z) (w : World) :
  store_wf (data_manager w) ->
  let r := delete_pin_state pin w in
  (r.1 = true <-> is_Some (load_pin_state pin w))
  /\ delete_pin pin w = r
  /\ (r.1 = false -> r.2 = w)
  /\ load_pin_state pin r.2 = None
  /\ (r.1 = true -> get_description pin r.2 = "")
  /\ (forall p, p <> pin ->
        load_pin_state p r.2 = load_pin_state p w
        /\ get_description p r.2 = get_description p w)
  /\ (delete_pin_state pin r.2).1 = false.
Proof.
  intros (N1 & _ & N2 & _) r. subst r. unfold delete_pin.
  destruct (od_get (CameraDataManager.pin_states (data_manager w)) pin)
    as [st|] eqn:E.
  - set (w1 := set_descriptions
                 (od_del (CameraDataManager.descriptions (data_manager w)) pin)
                 (set_pin_states
                    (od_del (CameraDataManager.pin_states (data_manager w)) pin) w)).
    assert (R : delete_pin_state pin w = (true, save_data w1)).
    { unfold delete_pin_state, od_mem. by rewrite E. }
    rewrite R. cbn [fst snd].
    assert (Hgone : od_get (od_del (CameraDataManager.pin_states (data_manager w)) pin)
                           pin = None).
    { rewrite od_get_del by done. by rewrite decide_True. }
    unfold load_pin_state, get_description. rewrite data_manager_save_data.
    split; [split; [by eexists|done]|]. split; [done|]. split; [done|].
    split; [exact Hgone|]. split.
    { intros _. cbn. rewrite od_get_del by done. by rewrite decide_True. }
    split.
    { intros p Hp. cbn. rewrite !od_get_del by done. by rewrite !decide_False. }
    unfold delete_pin_state, od_mem. rewrite data_manager_save_data. cbn.
    by rewrite Hgone.
  - assert (R : delete_pin_state pin w = (false, w)).
    { unfold delete_pin_state, od_mem. by rewrite E. }
    rewrite R. cbn [fst snd]. rewrite R. unfold load_pin_state.
    split; [split; [done|intros [x Hx]; congruence]|].
    by repeat split.
Qed.

Lemma delete_pin_state_outcome_witness :
  store_wf (data_manager sample_store_world)
  /\ load_pin_state 7 sample_store_world = Some sample_state
  /\ load_pin_state 7 (delete_pin_state 7 sample_store_world).2 = None
  /\ get_description 7 (delete_pin_state 7 sample_store_world).2 = "".
Proof.
  assert (Hw : store_wf (data_manager sample_store_world)).
  { apply (@run_store_ops_wf example_builtins). apply store_wf_empty. }
  pose proof (delete_pin_state_outcome 7 sample_store_world Hw)
    as (Hr & _ & _ & Hgone & Hdesc & _).
  split; [exact Hw|]. split; [reflexivity|]. split; [exact Hgone|].
  apply Hdesc, Hr. by eexists.
Defined.



(* ===================================================================== *)
(** * Clipboard text of any kind *)
(* ===================================================================== *)





(** X26. A pin copied to the clipboard can be applied from it: for a slot
    that holds a state, when the network can be reached, loading the text
    that [copy_pin_to_clipboard] returns sends exactly the five messages
    of the stored state, the same messages as [load_pin_to_camera] sends
    for that slot; for an empty slot the text is the empty string, which
    [load_from_clipboard_data] rejects. *)
Theorem copied_pin_is_applied (pin : Z) (w : World) :
  can_send w ->
  (forall st, load_pin_state pin w = Some st ->
     copy_pin_to_clipboard pin w = create_clipboard_data st (Some pin)
     /\ load_from_clipboard_data (copy_pin_to_clipboard pin w) w
        = (true, with_udp_sent (udp_sent w ++ state_messages st) w)
     /\ udp_sent (load_from_clipboard_data (copy_pin_to_clipboard pin w) w).2
        = udp_sent (load_pin_to_camera pin w).2)
  /\ (load_pin_state pin w = None ->
      copy_pin_to_clipboard pin w = PlainText ""
      /\ (load_from_clipboard_data (copy_pin_to_clipboard pin w) w).1 = false
      /\ udp_sent (load_from_clipboard_data (copy_pin_to_clipboard pin w) w).2
         = udp_sent w).
Proof.
  intros Hs. split.
  - intros st Hl. unfold copy_pin_to_clipboard. rewrite Hl.
    split; [done|].
    assert (E : load_from_clipboard_data (create_clipboard_data st (Some pin)) w
                = (true, with_udp_sent (udp_sent w ++ state_messages st) w)).
    { unfold load_from_clipboard_data. rewrite parse_created_clipboard.
      destruct (send_state_sent st w Hs) as [-> Hp]. by rewrite Hp. }
    split; [exact E|]. rewrite E, (load_pin_to_camera_sent pin st w Hl Hs). done.
  - intros Hl. unfold copy_pin_to_clipboard. rewrite Hl. by repeat split.
Qed.

Lemma copied_pin_is_applied_witness :
  can_send sample_store_world
  /\ load_pin_state 7 sample_store_world = Some sample_state
  /\ udp_sent (load_from_clipboard_data (copy_pin_to_clipboard 7 sample_store_world)
                 sample_store_world).2
     = state_messages sample_state.
Proof.
  assert (Hs : can_send sample_store_world) by (split; [discriminate|reflexivity]).
  split; [exact Hs|]. split; [reflexivity|].
  pose proof (proj1 (copied_pin_is_applied 7 sample_store_world Hs)
                sample_state eq_refl) as (_ & E & _).
  rewrite E. reflexivity.
Defined.

(** X27. The conversions of [CameraState] are inverse to each other:
    [from_dict] returns the state [to_dict] was made of, [from_pose_data]
    rebuilds the position and rotation that [to_pose_list] lists, and
    [from_pose_data] raises [ValueError] exactly when the pose has fewer
    than six elements, using the first six otherwise. *)
Theorem camera_state_conversions (s : CameraState.t) (pose : list pyval)
    (zoom focal_distance aperture exposure : pyval) :
  from_dict (to_dict s) = Returned s
  /\ from_pose_data (to_pose_list s) zoom focal_distance aperture exposure
     = Returned (CameraState.mk (CameraState.position s) (CameraState.rotation s)
                   (CameraParams.mk zoom focal_distance aperture exposure))
  /\ (from_pose_data pose zoom focal_distance aperture exposure = Raised ValueError
      <-> (length pose < 6)%nat)
  /\ (forall st, from_pose_data pose zoom focal_distance aperture exposure = Returned st ->
        to_pose_list st = take 6 pose
        /\ CameraState.camera_params st
           = CameraParams.mk zoom focal_distance aperture exposure).
Proof.
  split; [|split; [|split]].
  - destruct s as [[x y z] [rx ry rz] [zm fd ap ex]]. reflexivity.
  - destruct s as [[x y z] [rx ry rz] [zm fd ap ex]]. reflexivity.
  - unfold from_pose_data.
    destruct pose as [|p0 [|p1 [|p2 [|p3 [|p4 [|p5 rest]]]]]]; cbn [length];
      split; try done; try lia.
  - intros st. unfold from_pose_data.
    destruct pose as [|p0 [|p1 [|p2 [|p3 [|p4 [|p5 rest]]]]]]; try discriminate.
    by intros [= <-].
Qed.

(* ===================================================================== *)
(** * Settings across a restart *)
(* ===================================================================== *)

Section restart.
Context `{Builtins}.

(** Loading the dictionary that [save_config] builds of a handler [h] into
    any handler gives it the tables, the threshold and the flags of [h]. *)
Lemma load_config_data_of h w :
  table_consistent h -> pins_in_slots h ->
  key_bindings h <> [] -> special_key_bindings h <> [] ->
  load_config_data (config_data_of h) w
  = (None,
     with_keyboard_handler
       (KeyboardHandler.mk
          (pressed_keys (keyboard_handler w)) (key_press_times (keyboard_handler w))
          (long_press_threshold h) (is_monitoring (keyboard_handler w))
          (key_bindings h) (vk_to_pin h)
          (special_key_bindings h) (vk_to_special h)
          (flight_mode_enabled h) (lookatme_enabled h)) w).
Proof.
  intros (Hnd1 & Hnd2 & Hc1 & Hc2) Hslots Hne1 Hne2.
  unfold config_data_of. fold enc_pin. fold enc_special.
  rewrite (od_of_list_NoDup (map enc_pin _)) by (by apply enc_pin_keys_NoDup).
  rewrite (od_of_list_NoDup (map enc_special _)) by (by rewrite enc_special_keys).
  fold (config_dict (PDict (map enc_pin (key_bindings h)))
                    (PDict (map enc_special (special_key_bindings h))) h).
  destruct (config_dict_get (PDict (map enc_pin (key_bindings h)))
              (PDict (map enc_special (special_key_bindings h))) h)
    as (Gt & Gp & Gs & Gf & Gl).
  unfold load_config_data, and_then, load_threshold, load_table, load_flag,
    py_in, py_getitem, od_mem.
  rewrite Gt. cbn [mbind outcome_bind py_float].
  rewrite Gp. cbn [py_items]. rewrite load_pin_bindings_saved by done.
  rewrite Gs. cbn [py_items]. rewrite load_special_bindings_saved.
  rewrite Gf, Gl.
  destruct w as [hw att dm ctl rcv cf df cb out sent fl].
  destruct hw as [pk kt thr mon kb rev skb srev fm la].
  destruct h as [pk' kt' thr' mon' kb' rev' skb' srev' fm' la'].
  cbn -[fill] in Hnd1, Hnd2, Hc1, Hc2, Hne1, Hne2 |- *.
  rewrite !fill_fst, !fill_snd. cbn [fst snd].
  rewrite !od_fold_set_fresh by done. cbn [app].
  rewrite (reverse_rebuilt kb' rev') by done.
  rewrite (reverse_rebuilt skb' srev') by done.
  unfold default_if_incomplete. cbn.
  destruct kb'; [done|]. destruct skb'; [done|]. reflexivity.
Qed.

(** X28. The settings survive a restart: for a handler whose tables are
    consistent, with at least one binding in each, when the file can be
    written, [shutdown] stops the monitoring, forgets the held keys and
    saves the configuration, and the constructor of a new handler on that
    file returns normally with the same two binding tables (forward and
    reverse), the same threshold and the same two flags, no key held and
    monitoring off. *)
Theorem settings_survive_a_restart (w : World) :
  table_consistent (keyboard_handler w) ->
  pins_in_slots (keyboard_handler w) ->
  key_bindings (keyboard_handler w) <> [] ->
  special_key_bindings (keyboard_handler w) <> [] ->
  disk_fails (faults w) = false ->
  let h := keyboard_handler w in
  let r := KeyboardHandler_init (shutdown w) in
  let h' := keyboard_handler r.2 in
  config_file (shutdown w) = Some (json_dumps (config_data_of h))
  /\ pressed_keys (keyboard_handler (shutdown w)) = ∅
  /\ is_monitoring (keyboard_handler (shutdown w)) = false
  /\ r.1 = None
  /\ same_tables h' h
  /\ long_press_threshold h' = long_press_threshold h
  /\ flight_mode_enabled h' = flight_mode_enabled h
  /\ lookatme_enabled h' = lookatme_enabled h
  /\ pressed_keys h' = ∅
  /\ is_monitoring h' = false.
Proof.
  intros Hc Hs Hn1 Hn2 Hd h r h'.
  assert (Hf : config_file (shutdown w) = Some (json_dumps (config_data_of h))).
  { unfold shutdown, save_config.
    replace (disk_fails (faults (stop_monitoring w))) with false by (by rewrite <- Hd).
    subst h. destruct w as [hw att dm ctl rcv cf df cb out sent fl].
    by destruct hw. }
  assert (Hr : r = (None,
                    with_keyboard_handler
                      (KeyboardHandler.mk ∅ ∅ (long_press_threshold h) false
                         (key_bindings h) (vk_to_pin h)
                         (special_key_bindings h) (vk_to_special h)
                         (flight_mode_enabled h) (lookatme_enabled h))
                      (shutdown w))).
  { subst r. unfold KeyboardHandler_init, load_config.
    cbn [config_file with_keyboard_handler]. rewrite Hf.
    cbn [json_loads json_dumps].
    by rewrite (load_config_data_of h _ Hc Hs Hn1 Hn2). }
  split; [exact Hf|].
  split; [unfold shutdown; by rewrite keyboard_handler_save_config|].
  split; [unfold shutdown; by rewrite keyboard_handler_save_config|].
  subst h'. rewrite Hr. cbn. by repeat split.
Qed.

End restart.

Lemma settings_survive_a_restart_witness :
  table_consistent (keyboard_handler holding_world)
  /\ pins_in_slots (keyboard_handler holding_world)
  /\ disk_fails (faults holding_world) = false
  /\ (97 ∈ pressed_keys (keyboard_handler holding_world))
  /\ same_tables
       (keyboard_handler
          (@KeyboardHandler_init example_builtins (shutdown holding_world)).2)
       (keyboard_handler holding_world)
  /\ pressed_keys
       (keyboard_handler
          (@KeyboardHandler_init example_builtins (shutdown holding_world)).2)
     = ∅.
Proof.
  pose proof default_table_consistent as Hc.
  pose proof default_pins_in_slots as Hs.
  assert (Hn1 : key_bindings (keyboard_handler holding_world) <> []) by discriminate.
  assert (Hn2 : special_key_bindings (keyboard_handler holding_world) <> [])
    by discriminate.
  pose proof (@settings_survive_a_restart example_builtins holding_world
                Hc Hs Hn1 Hn2 eq_refl)
    as (_ & _ & _ & _ & Ht & _ & _ & _ & Hp & _).
  split; [exact Hc|]. split; [exact Hs|]. split; [reflexivity|].
  split; [apply (bool_decide_unpack _); by vm_compute|].
  split; [exact Ht|exact Hp].
Defined.

(* ===================================================================== *)
(** * Received parameters are floats *)
(* ===================================================================== *)

Section received_parameters.
Context `{Builtins}.

Lemma handle_float_param_floats key errfmt args w :
  params_are_floats w -> params_are_floats (handle_float_param key errfmt args w).
Proof.
  intros Hw. unfold handle_float_param. destruct args as [|a rest]; [exact Hw|].
  destruct (py_float a) as [f|e]; [|exact Hw].
  intros k Hk v. cbn. destruct (decide (k = key)) as [->|Hne].
  - rewrite lookup_insert_eq. intros [= <-]. by exists f.
  - rewrite lookup_insert_ne by done. by apply Hw.
Qed.

Lemma handle_flags_floats args w :
  params_are_floats w ->
  params_are_floats (_handle_flying args w)
  /\ params_are_floats (_handle_lookatme args w).
Proof.
  intros Hw. unfold _handle_flying, _handle_lookatme.
  destruct args as [|a rest]; [done|].
  split; intros k Hk v; destruct (keyboard_attached w) eqn:Ha; cbn; rewrite Ha; cbn;
    (rewrite lookup_insert_ne;
     [by apply Hw
     |intros <-; rewrite !elem_of_cons, elem_of_nil in Hk;
      by destruct Hk as [?|[?|[?|[?|?]]]]]).
Qed.

Lemma deliver_floats m w : params_are_floats w -> params_are_floats (deliver m w).
Proof.
  intros Hw. destruct m as [args now|args|args|args|args|args|args]; cbn [deliver];
    try (by apply handle_float_param_floats); try (by apply handle_flags_floats).
  unfold _handle_pose, _handle_pose_body. by destruct (6 <=? _).
Qed.

Lemma deliver_all_floats ms w :
  params_are_floats w -> params_are_floats (deliver_all ms w).
Proof.
  revert w. induction ms as [|m ms IH]; intros w Hw; [exact Hw|].
  change (deliver_all (m :: ms) w) with (deliver_all ms (deliver m w)).
  by apply IH, deliver_floats.
Qed.

Lemma validate_floats z f a e :
  exists q, validate_camera_params
              (CameraParams.mk (PFloat z) (PFloat f) (PFloat a) (PFloat e))
            = Returned q.
Proof.
  unfold validate_camera_params, validate_zoom, validate_focal_distance,
    validate_aperture, validate_exposure. cbn [CameraParams.zoom
    CameraParams.focal_distance CameraParams.aperture CameraParams.exposure].
  destruct (clamp_number ZOOM_RANGE (PFloat z) eq_refl eq_refl) as (r1 & -> & _).
  destruct (clamp_number FOCAL_DISTANCE_RANGE (PFloat f) eq_refl eq_refl)
    as (r2 & -> & _).
  destruct (clamp_number APERTURE_RANGE (PFloat a) eq_refl eq_refl) as (r3 & -> & _).
  destruct (clamp_number EXPOSURE_RANGE (PFloat e) eq_refl eq_refl) as (r4 & -> & _).
  cbn [mbind outcome_bind]. by eexists.
Qed.

Lemma current_state_floats w st :
  params_are_floats w -> get_current_state w = Some st ->
  exists z f a e,
    CameraState.camera_params st = CameraParams.mk (PFloat z) (PFloat f) (PFloat a) (PFloat e).
Proof.
  intros Hw. unfold get_current_state.
  destruct (OSCReceiver.current_pose (osc_receiver w))
    as [[|p0 [|p1 [|p2 [|p3 [|p4 [|p5 rest]]]]]]|]; try discriminate.
  intros [= <-]. cbn [CameraState.camera_params].
  assert (Hk : forall key dflt, key ∈ ["zoom"; "focal_distance"; "aperture"; "exposure"] ->
            exists x, default (PFloat dflt)
                        (OSCReceiver.current_params (osc_receiver w) !! key)
                      = PFloat x).
  { intros key dflt Hin.
    destruct (OSCReceiver.current_params (osc_receiver w) !! key) as [v|] eqn:E.
    - destruct (Hw key Hin v E) as [x ->]. by exists x.
    - by exists dflt. }
  destruct (Hk "zoom" 45%float) as [z ->]; [rewrite !elem_of_cons; tauto|].
  destruct (Hk "focal_distance" 1.5%float) as [f ->]; [rewrite !elem_of_cons; tauto|].
  destruct (Hk "aperture" 15%float) as [a ->]; [rewrite !elem_of_cons; tauto|].
  destruct (Hk "exposure" 0%float) as [e ->]; [rewrite !elem_of_cons; tauto|].
  by exists z, f, a, e.
Qed.

(** X29. The receiver only ever caches floats for the four camera
    parameters, whatever arrives: after any sequence of inbound messages
    the current state, when there is one, has four float parameters, the
    validator accepts them, and so saving the current state to a slot in
    1-9 succeeds whenever a pose has been received. *)
Theorem received_state_can_always_be_saved (ms : list OscMessage) (w : World) :
  params_are_floats w ->
  let w' := deliver_all ms w in
  params_are_floats w'
  /\ forall st, get_current_state w' = Some st ->
       (exists z f a e,
          CameraState.camera_params st
          = CameraParams.mk (PFloat z) (PFloat f) (PFloat a) (PFloat e))
       /\ (exists q, validate_camera_params (CameraState.camera_params st) = Returned q)
       /\ forall pin desc, 1 <= pin <= 9 ->
            (save_current_state_to_pin pin desc w').1 = true.
Proof.
  intros Hw w'. pose proof (deliver_all_floats ms w Hw) as Hw'. fold w' in Hw'.
  split; [exact Hw'|]. intros st Hg.
  destruct (current_state_floats w' st Hw' Hg) as (z & f & a & e & Hp).
  assert (Hv : exists q, validate_camera_params (CameraState.camera_params st)
                         = Returned q).
  { rewrite Hp. apply validate_floats. }
  split; [by exists z, f, a, e|]. split; [exact Hv|].
  intros pin desc Hpin.
  unfold save_current_state_to_pin, get_current_camera_state. rewrite Hg.
  pose proof (proj2 (save_pin_state_accepts pin st desc w') (conj Hpin Hv)) as Ha.
  destruct (save_pin_state pin st desc w') as [ok w1]. cbn [fst] in Ha. by subst ok.
Qed.

End received_parameters.

Lemma params_are_floats_default : params_are_floats default_world.
Proof. intros key _ v. cbn. by rewrite lookup_empty. Qed.

Lemma received_state_can_always_be_saved_witness :
  params_are_floats default_world
  /\ get_current_state (@deliver_all example_builtins mixed_messages default_world)
     = Some (with_camera_params
               (fun c => set_aperture (PFloat 1) (set_zoom (PFloat 500) c))
               sample_state)
  /\ (save_current_state_to_pin 5 ""
        (@deliver_all example_builtins mixed_messages default_world)).1 = true.
Proof.
  split; [exact params_are_floats_default|]. split; [reflexivity|].
  exact (proj2 (proj2 (proj2 (@received_state_can_always_be_saved example_builtins
                                mixed_messages default_world
                                params_are_floats_default)
                             _ eq_refl))
               5 "" ltac:(lia)).
Defined.

(* ===================================================================== *)
(** * A disk that cannot be written *)
(* ===================================================================== *)

(** X30. A failed write is not reported to the caller: when the file
    cannot be written, [set_key_binding] and [save_pin_state] still return
    [True] for a request they accept and change the tables and the store
    in memory, while the file on disk stays as it was and the only trace
    is one printed error line. *)
Theorem failed_write_is_not_reported (w : World) :
  disk_fails (faults w) = true ->
  (forall pin key vk,
     1 <= pin <= 9 -> _get_vk_code key = Some vk ->
     vk_to_special (keyboard_handler w) !! vk = None ->
     let r := set_key_binding pin key w in
     r.1 = true
     /\ bound_key (keyboard_handler r.2) (Slot pin) = Some vk
     /\ config_file r.2 = config_file w
     /\ stdout r.2 = stdout w ++ [("設定保存エラー: {e}", [PStr "OSError"])])
  /\ (forall pin st desc q,
        1 <= pin <= 9 ->
        validate_camera_params (CameraState.camera_params st) = Returned q ->
        let r := save_pin_state pin st desc w in
        r.1 = true
        /\ load_pin_state pin r.2
           = Some (CameraState.mk (CameraState.position st) (CameraState.rotation st) q)
        /\ data_file r.2 = data_file w
        /\ stdout r.2 = stdout w ++ [("データ保存エラー: {e}", [PStr "OSError"])]).
Proof.
  intros Hd. split.
  - intros pin key vk Hp Hk Hs r. subst r. unfold set_key_binding.
    replace ((1 <=? pin) && (pin <=? 9)) with true
      by (symmetry; apply andb_true_iff; lia).
    rewrite Hk. cbn [negb]. rewrite bool_decide_eq_false_2 by (rewrite Hs; by intros [x Hx]).
    unfold save_config. cbn [fst snd].
    replace (disk_fails (faults (update _ w))) with true by (by rewrite <- Hd).
    cbn. split; [done|]. split; [apply od_get_set_eq|done].
  - intros pin st desc q Hp Hv r. subst r. unfold save_pin_state.
    replace ((1 <=? pin) && (pin <=? 9)) with true
      by (symmetry; apply andb_true_iff; lia).
    rewrite Hv. cbn [negb fst snd]. unfold save_data, load_pin_state.
    destruct (negb (String.eqb (strip desc) "")); cbn; rewrite Hd; cbn;
      (split; [done|]); (split; [apply od_get_set_eq|done]).
Qed.

Lemma failed_write_is_not_reported_witness :
  disk_fails (faults read_only_world) = true
  /\ (set_key_binding 1 (KeyCode (Some 65)) read_only_world).1 = true
  /\ config_file (set_key_binding 1 (KeyCode (Some 65)) read_only_world).2
     = config_file read_only_world
  /\ bound_key (keyboard_handler
                  (set_key_binding 1 (KeyCode (Some 65)) read_only_world).2) (Slot 1)
     = Some 65.
Proof.
  split; [reflexivity|].
  pose proof (proj1 (failed_write_is_not_reported read_only_world eq_refl)
                1 (KeyCode (Some 65)) 65 ltac:(lia) eq_refl eq_refl)
    as (H1 & H2 & H3 & _).
  split; [exact H1|]. split; [exact H3|exact H2].
Defined.
